(** * TPM front ends of qemu-tpm: the CRB register interface and the sPAPR vTPM

    A shallow embedding of [hw/tpm/tpm_crb.c] (with the register layout of
    [include/hw/acpi/tpm.h]) and of the PAPR virtual TPM (the second half of
    [hw/tpm/tpm_ioctl.h]), and the properties of their protocol state
    machines.

    Device functions mutate one device structure and call into the TPM
    backend, the VIO bus and the error log.  They are written here in a small
    state-and-trace monad: the state is the device structure, the trace is
    the list of calls made to the outside, in program order. *)

From Stdlib Require Import ZArith List Bool Lia String.
Import ListNotations.
Open Scope Z_scope.

(** ** Machine integers *)

(** An unsigned [w]-bit C value is a [Z]; a conversion to the type keeps the
    value modulo [2^w]. *)
Definition wrap (w x : Z) : Z := x mod 2 ^ w.

Definition uint8_t : Z -> Z := wrap 8.
Definition uint16_t : Z -> Z := wrap 16.
Definition uint32_t : Z -> Z := wrap 32.
(** [size_t] of an LP64 host. *)
Definition size_t : Z -> Z := wrap 64.

(** [MIN] and [MAX] of [qemu/osdep.h]. *)
Definition MIN (a b : Z) : Z := if a <? b then a else b.
Definition MAX (a b : Z) : Z := if a >? b then a else b.

(** Modelled from the spec: [ROUND_UP] is a macro of [qemu/osdep.h], a header
    outside the embedded files; the spec calls it
    [round_up(backend buffer size, page size)].  It is written the way QEMU
    writes it for a power of two [d], [(((n) + (d) - 1) & -(d))], in [size_t]
    arithmetic; [ROUND_UP_least_multiple] below shows that this is the least
    multiple of [d] not below [n]. *)
Definition ROUND_UP (n d : Z) : Z :=
  Z.land (size_t (n + d - 1)) (size_t (- d)).

(** ** Big-endian fields

    A multi-byte field of a CRQ message is kept as its bytes in memory order,
    so that the host's byte order never enters: [cpu_to_be16 v] is the field
    content whose two bytes spell [v] most significant byte first. *)

Definition be16 : Type := Z * Z.
Definition be32 : Type := Z * Z * Z * Z.

Definition cpu_to_be16 (v : Z) : be16 :=
  ((v / 2 ^ 8) mod 2 ^ 8, v mod 2 ^ 8).

Definition be16_to_cpu (f : be16) : Z :=
  let '(b0, b1) := f in b0 * 2 ^ 8 + b1.

Definition cpu_to_be32 (v : Z) : be32 :=
  ((v / 2 ^ 24) mod 2 ^ 8, (v / 2 ^ 16) mod 2 ^ 8,
   (v / 2 ^ 8) mod 2 ^ 8, v mod 2 ^ 8).

Definition be32_to_cpu (f : be32) : Z :=
  let '(b0, b1, b2, b3) := f in
  ((b0 * 2 ^ 8 + b1) * 2 ^ 8 + b2) * 2 ^ 8 + b3.

(** ** The TPM backend, as the front ends see it *)

Inductive TPMVersion : Type :=
| TPM_VERSION_UNSPEC
| TPM_VERSION_1_2
| TPM_VERSION_2_0.

(** The two buffers a command can point into. *)
Inductive bufptr : Type :=
| crb_cmdmem      (* RAM of the CRB command/response window *)
| spapr_buffer.   (* [SPAPRvTPMState.buffer] *)

Record TPMBackendCmd : Type := mkCmd {
  locty : Z;
  cmd_in : bufptr;
  in_len : Z;
  cmd_out : bufptr;
  out_len : Z
}.

(** Where the backend stands with the one command it was handed. *)
Inductive be_progress : Type :=
| be_quiet                          (* nothing executing, nothing to deliver *)
| be_executing (response : list Z)  (* the worker is executing; it will leave
                                       [response] in the output buffer *)
| be_undelivered.                   (* result computed and stored, completion
                                       callback not yet run *)

(** Modelled from the spec: the backend command channel ([backends/tpm.c] is
    outside the embedded files).  The record holds what the backend
    answers to [GetBufferSize], [GetTpmVersion] and [HadStartupError], and its
    progress with the submitted command. *)
Record TPMBackend : Type := mkBackend {
  buffer_size : Z;
  tpm_version : TPMVersion;
  startup_error : bool;
  progress : be_progress
}.

Definition tpm_backend_get_buffer_size (be : TPMBackend) : Z := buffer_size be.
Definition tpm_backend_get_tpm_version (be : TPMBackend) : TPMVersion :=
  tpm_version be.
Definition tpm_backend_had_startup_error (be : TPMBackend) : bool :=
  startup_error be.

(** Modelled from the spec: [tpm_backend_wait_cmd_completed], the
    [WaitCommandCompleted() -> bool] of the backend contract.  It blocks until
    no command is mid-execution: a command that was executing has then run to
    its end, and its response is in the output buffer.  It answers whether a
    completed response is waiting for delivery.  The result is the answer, the
    backend afterwards, and the output buffer when the worker wrote it. *)
Definition tpm_backend_wait_cmd_completed (be : TPMBackend)
  : bool * TPMBackend * option (list Z) :=
  match progress be with
  | be_quiet => (false, be, None)
  | be_executing response =>
      (true,
       mkBackend (buffer_size be) (tpm_version be) (startup_error be)
                 be_undelivered,
       Some response)
  | be_undelivered => (true, be, None)
  end.

(** ** Calls to the outside *)

Record VioCRQ : Type := mkCRQ {
  valid : Z;       (* uint8_t *)
  msg : Z;         (* uint8_t *)
  len : be16;      (* uint16_t, big-endian *)
  data : be32;     (* uint32_t, big-endian *)
  reserved : list Z  (* the 8 bytes of the uint64_t *)
}.

(** [TPMSpaprCRQ] is the union of [VioCRQ] with its 16 raw bytes. *)
Definition TPMSpaprCRQ : Type := VioCRQ.

Definition raw (crq : TPMSpaprCRQ) : list Z :=
  let '(l0, l1) := len crq in
  let '(d0, d1, d2, d3) := data crq in
  [valid crq; msg crq; l0; l1; d0; d1; d2; d3] ++ reserved crq.

Inductive event : Type :=
| tpm_backend_deliver_request (cmd : TPMBackendCmd)
| tpm_backend_cancel_cmd
| tpm_backend_reset
| tpm_backend_startup_tpm (buffersize : Z)
| spapr_vio_dma_read (taddr size : Z)
| spapr_vio_dma_write (taddr : Z) (buf : list Z) (size : Z)
| spapr_vio_send_crq (crq : TPMSpaprCRQ)
| error_report (message : string).

(** ** Device code as state transformers with a trace *)

Definition prog (St A : Type) : Type := St -> A * St * list event.

Definition ret {St A} (a : A) : prog St A := fun s => (a, s, []).

Definition bind {St A B} (m : prog St A) (k : A -> prog St B) : prog St B :=
  fun s =>
    let '(a, s1, t1) := m s in
    let '(b, s2, t2) := k a s1 in
    (b, s2, t1 ++ t2).

Definition get {St} : prog St St := fun s => (s, s, []).
Definition modify {St} (f : St -> St) : prog St unit := fun s => (tt, f s, []).
Definition call {St} (e : event) : prog St unit := fun s => (tt, s, [e]).

Declare Scope prog_scope.
Delimit Scope prog_scope with prog.
Notation "x <- m ;; k" := (bind m (fun x => k))
  (at level 61, m at next level, right associativity) : prog_scope.
Notation "m ;; k" := (bind m (fun _ => k))
  (at level 61, right associativity) : prog_scope.

Definition result {St A} (r : A * St * list event) : A := fst (fst r).
Definition state_after {St A} (r : A * St * list event) : St := snd (fst r).
Definition trace {St A} (r : A * St * list event) : list event := snd r.

(** Number of events of a trace that satisfy [p]. *)
Definition count (p : event -> bool) (t : list event) : nat :=
  List.length (filter p t).

Definition is_deliver (e : event) : bool :=
  match e with tpm_backend_deliver_request _ => true | _ => false end.
Definition is_dma_write (e : event) : bool :=
  match e with spapr_vio_dma_write _ _ _ => true | _ => false end.
Definition is_send_crq (e : event) : bool :=
  match e with spapr_vio_send_crq _ => true | _ => false end.

(** ** The CRB register interface ([hw/tpm/tpm_crb.c]) *)

Module CRB.

(** [struct crb_regs] of [include/hw/acpi/tpm.h]: the 32-bit registers.  The
    byte arrays [reserved2], [reserved3] and [data_buffer] of the structure
    are never written by the device and stay zero; they take part in the
    layout below. *)
Record crb_regs : Type := mkRegs {
  loc_state : Z;
  reserved1 : Z;
  loc_ctrl : Z;
  loc_sts : Z;
  intf_id_low : Z;
  intf_id_high : Z;
  ctrl_ext_low : Z;
  ctrl_ext_high : Z;
  ctrl_req : Z;
  ctrl_sts : Z;
  ctrl_cancel : Z;
  ctrl_start : Z;
  ctrl_int_enable : Z;
  ctrl_int_sts : Z;
  ctrl_cmd_size : Z;
  ctrl_cmd_pa_low : Z;
  ctrl_cmd_pa_high : Z;
  ctrl_rsp_size : Z;
  ctrl_rsp_pa_low : Z;
  ctrl_rsp_pa_high : Z
}.

(** The members of the packed structure in declaration order, each with its
    size in bytes. *)
Definition crb_regs_members : list (string * Z) :=
  [ ("loc_state", 4); ("reserved1", 4); ("loc_ctrl", 4); ("loc_sts", 4);
    ("reserved2", 32);
    ("intf_id_low", 4); ("intf_id_high", 4);
    ("ctrl_ext_low", 4); ("ctrl_ext_high", 4);
    ("ctrl_req", 4); ("ctrl_sts", 4); ("ctrl_cancel", 4); ("ctrl_start", 4);
    ("ctrl_int_enable", 4); ("ctrl_int_sts", 4);
    ("ctrl_cmd_size", 4); ("ctrl_cmd_pa_low", 4); ("ctrl_cmd_pa_high", 4);
    ("ctrl_rsp_size", 4); ("ctrl_rsp_pa_low", 4); ("ctrl_rsp_pa_high", 4);
    ("reserved3", 0x10);
    ("data_buffer", 0x1000 - 0x80) ]%string.

Fixpoint offsetof_in (members : list (string * Z)) (field : string) : Z :=
  match members with
  | [] => 0
  | (name, size) :: rest =>
      if String.eqb name field then 0 else size + offsetof_in rest field
  end.

Definition offsetof (field : string) : Z := offsetof_in crb_regs_members field.

Definition sizeof_crb_regs : Z :=
  fold_right (fun m acc => snd m + acc) 0 crb_regs_members.

Definition TPM_CRB_ADDR_BASE : Z := 0xFED40000.
Definition TPM_CRB_ADDR_SIZE : Z := 0x1000.

Definition CRB_ADDR_LOC_STATE : Z := offsetof "loc_state".
Definition CRB_ADDR_LOC_CTRL : Z := offsetof "loc_ctrl".
Definition CRB_ADDR_CTRL_REQ : Z := offsetof "ctrl_req".
Definition CRB_ADDR_CTRL_CANCEL : Z := offsetof "ctrl_cancel".
Definition CRB_ADDR_CTRL_START : Z := offsetof "ctrl_start".

Definition CRB_INTF_TYPE_CRB_ACTIVE : Z := Z.shiftl 1 0.
Definition CRB_INTF_VERSION_CRB : Z := Z.shiftl 1 4.
Definition CRB_INTF_CAP_LOCALITY_0_ONLY : Z := Z.shiftl 0 8.
Definition CRB_INTF_CAP_IDLE_FAST : Z := Z.shiftl 0 9.
Definition CRB_INTF_CAP_XFER_SIZE_64 : Z := Z.shiftl 3 11.
Definition CRB_INTF_CAP_FIFO_NOT_SUPPORTED : Z := Z.shiftl 0 13.
Definition CRB_INTF_CAP_CRB_SUPPORTED : Z := Z.shiftl 1 14.
Definition CRB_INTF_IF_SELECTOR_CRB : Z := Z.shiftl 1 17.
Definition CRB_INTF_IF_SELECTOR_UNLOCKED : Z := Z.shiftl 0 19.

Definition CRB_LOC_STATE_TPM_ESTABLISHED : Z := Z.shiftl 1 0.
Definition CRB_LOC_STATE_LOC_ASSIGNED : Z := Z.shiftl 1 1.
Definition CRB_LOC_STATE_TPM_REG_VALID_STS : Z := Z.shiftl 1 7.

Definition CRB_LOC_STS_GRANTED : Z := Z.shiftl 1 0.
Definition CRB_LOC_STS_BEEN_SEIZED : Z := Z.shiftl 1 1.

Definition CRB_CTRL_STS_TPM_STS : Z := Z.shiftl 1 0.
Definition CRB_CTRL_STS_TPM_IDLE : Z := Z.shiftl 1 1.

Definition CRB_CTRL_CMD_SIZE : Z := size_t (TPM_CRB_ADDR_SIZE - sizeof_crb_regs).

Definition CRB_LOC_CTRL_REQUEST_ACCESS : Z := Z.shiftl 1 0.
Definition CRB_LOC_CTRL_RELINQUISH : Z := Z.shiftl 1 1.
Definition CRB_LOC_CTRL_SEIZE : Z := Z.shiftl 1 2.
Definition CRB_LOC_CTRL_RESET_ESTABLISHMENT_BIT : Z := Z.shiftl 1 3.

Definition CRB_CTRL_REQ_CMD_READY : Z := Z.shiftl 1 0.
Definition CRB_CTRL_REQ_GO_IDLE : Z := Z.shiftl 1 1.

Definition CRB_START_INVOKE : Z := Z.shiftl 1 0.
Definition CRB_CANCEL_INVOKE : Z := Z.shiftl 1 0.

Record CRBState : Type := mkCRB {
  cmd : TPMBackendCmd;
  regs : crb_regs;
  cmdmem : list Z;       (* the RAM behind [MemoryRegion cmdmem] *)
  be_buffer_size : Z     (* size_t *)
}.

Definition set_regs (f : crb_regs -> crb_regs) (s : CRBState) : CRBState :=
  mkCRB (cmd s) (f (regs s)) (cmdmem s) (be_buffer_size s).
Definition set_cmd (c : TPMBackendCmd) (s : CRBState) : CRBState :=
  mkCRB c (regs s) (cmdmem s) (be_buffer_size s).
Definition set_be_buffer_size (n : Z) (s : CRBState) : CRBState :=
  mkCRB (cmd s) (regs s) (cmdmem s) n.

Definition with_loc_state (v : Z) (r : crb_regs) : crb_regs :=
  mkRegs v (reserved1 r) (loc_ctrl r) (loc_sts r) (intf_id_low r)
    (intf_id_high r) (ctrl_ext_low r) (ctrl_ext_high r) (ctrl_req r)
    (ctrl_sts r) (ctrl_cancel r) (ctrl_start r) (ctrl_int_enable r)
    (ctrl_int_sts r) (ctrl_cmd_size r) (ctrl_cmd_pa_low r)
    (ctrl_cmd_pa_high r) (ctrl_rsp_size r) (ctrl_rsp_pa_low r)
    (ctrl_rsp_pa_high r).
Definition with_loc_sts (v : Z) (r : crb_regs) : crb_regs :=
  mkRegs (loc_state r) (reserved1 r) (loc_ctrl r) v (intf_id_low r)
    (intf_id_high r) (ctrl_ext_low r) (ctrl_ext_high r) (ctrl_req r)
    (ctrl_sts r) (ctrl_cancel r) (ctrl_start r) (ctrl_int_enable r)
    (ctrl_int_sts r) (ctrl_cmd_size r) (ctrl_cmd_pa_low r)
    (ctrl_cmd_pa_high r) (ctrl_rsp_size r) (ctrl_rsp_pa_low r)
    (ctrl_rsp_pa_high r).
Definition with_ctrl_sts (v : Z) (r : crb_regs) : crb_regs :=
  mkRegs (loc_state r) (reserved1 r) (loc_ctrl r) (loc_sts r) (intf_id_low r)
    (intf_id_high r) (ctrl_ext_low r) (ctrl_ext_high r) (ctrl_req r)
    v (ctrl_cancel r) (ctrl_start r) (ctrl_int_enable r)
    (ctrl_int_sts r) (ctrl_cmd_size r) (ctrl_cmd_pa_low r)
    (ctrl_cmd_pa_high r) (ctrl_rsp_size r) (ctrl_rsp_pa_low r)
    (ctrl_rsp_pa_high r).
Definition with_ctrl_start (v : Z) (r : crb_regs) : crb_regs :=
  mkRegs (loc_state r) (reserved1 r) (loc_ctrl r) (loc_sts r) (intf_id_low r)
    (intf_id_high r) (ctrl_ext_low r) (ctrl_ext_high r) (ctrl_req r)
    (ctrl_sts r) (ctrl_cancel r) v (ctrl_int_enable r)
    (ctrl_int_sts r) (ctrl_cmd_size r) (ctrl_cmd_pa_low r)
    (ctrl_cmd_pa_high r) (ctrl_rsp_size r) (ctrl_rsp_pa_low r)
    (ctrl_rsp_pa_high r).

(** The 32-bit word of the structure at a 4-aligned byte offset. *)
Definition word_at (r : crb_regs) (off : Z) : Z :=
  if off =? offsetof "loc_state" then loc_state r
  else if off =? offsetof "reserved1" then reserved1 r
  else if off =? offsetof "loc_ctrl" then loc_ctrl r
  else if off =? offsetof "loc_sts" then loc_sts r
  else if off =? offsetof "intf_id_low" then intf_id_low r
  else if off =? offsetof "intf_id_high" then intf_id_high r
  else if off =? offsetof "ctrl_ext_low" then ctrl_ext_low r
  else if off =? offsetof "ctrl_ext_high" then ctrl_ext_high r
  else if off =? offsetof "ctrl_req" then ctrl_req r
  else if off =? offsetof "ctrl_sts" then ctrl_sts r
  else if off =? offsetof "ctrl_cancel" then ctrl_cancel r
  else if off =? offsetof "ctrl_start" then ctrl_start r
  else if off =? offsetof "ctrl_int_enable" then ctrl_int_enable r
  else if off =? offsetof "ctrl_int_sts" then ctrl_int_sts r
  else if off =? offsetof "ctrl_cmd_size" then ctrl_cmd_size r
  else if off =? offsetof "ctrl_cmd_pa_low" then ctrl_cmd_pa_low r
  else if off =? offsetof "ctrl_cmd_pa_high" then ctrl_cmd_pa_high r
  else if off =? offsetof "ctrl_rsp_size" then ctrl_rsp_size r
  else if off =? offsetof "ctrl_rsp_pa_low" then ctrl_rsp_pa_low r
  else if off =? offsetof "ctrl_rsp_pa_high" then ctrl_rsp_pa_high r
  else 0.

Section Device.

(** [tpm_cmd_get_size] of [tpm_util.h] and [PCI_VENDOR_ID_IBM] of
    [hw/pci/pci_ids.h] are declared outside the embedded files, and are
    parameters here. *)
Variable tpm_cmd_get_size : list Z -> Z.
Variable PCI_VENDOR_ID_IBM : Z.

Local Open Scope prog_scope.

Definition tpm_crb_mmio_read (addr size : Z) : prog CRBState Z :=
  s <- get ;;
  let offset := Z.land addr 3 in
  let val := Z.shiftr (word_at (regs s) (Z.land addr (Z.lnot 3))) (8 * offset) in
  ret val.

Definition tpm_crb_mmio_write (addr val size : Z) : prog CRBState unit :=
  s <- get ;;
  if addr =? CRB_ADDR_CTRL_REQ then
    if val =? CRB_CTRL_REQ_CMD_READY then
      modify (set_regs (fun r =>
        with_ctrl_sts (Z.land (ctrl_sts r) (Z.lnot CRB_CTRL_STS_TPM_IDLE)) r))
    else if val =? CRB_CTRL_REQ_GO_IDLE then
      modify (set_regs (fun r =>
        with_ctrl_sts (Z.lor (ctrl_sts r) CRB_CTRL_STS_TPM_IDLE) r))
    else ret tt
  else if addr =? CRB_ADDR_CTRL_CANCEL then
    if (val =? CRB_CANCEL_INVOKE)
       && negb (Z.land (ctrl_start (regs s)) CRB_START_INVOKE =? 0) then
      call tpm_backend_cancel_cmd
    else ret tt
  else if addr =? CRB_ADDR_CTRL_START then
    if (val =? CRB_START_INVOKE)
       && (Z.land (ctrl_start (regs s)) CRB_START_INVOKE =? 0) then
      let mem := cmdmem s in
      modify (set_regs (fun r =>
        with_ctrl_start (Z.lor (ctrl_start r) CRB_START_INVOKE) r)) ;;
      let c := mkCmd 0 crb_cmdmem
                 (MIN (uint32_t (tpm_cmd_get_size mem)) (be_buffer_size s))
                 crb_cmdmem (be_buffer_size s) in
      modify (set_cmd c) ;;
      call (tpm_backend_deliver_request c)
    else ret tt
  else if addr =? CRB_ADDR_LOC_CTRL then
    if val =? CRB_LOC_CTRL_RESET_ESTABLISHMENT_BIT then ret tt
    else if val =? CRB_LOC_CTRL_RELINQUISH then ret tt
    else if val =? CRB_LOC_CTRL_REQUEST_ACCESS then
      modify (set_regs (with_loc_sts CRB_LOC_STS_GRANTED)) ;;
      modify (set_regs (with_loc_state
        (Z.lor CRB_LOC_STATE_LOC_ASSIGNED CRB_LOC_STATE_TPM_REG_VALID_STS)))
    else ret tt
  else ret tt.

Definition tpm_crb_reset (tpmbe : TPMBackend) : prog CRBState unit :=
  call tpm_backend_reset ;;
  modify (set_be_buffer_size
            (MIN (tpm_backend_get_buffer_size tpmbe) CRB_CTRL_CMD_SIZE)) ;;
  modify (set_regs (fun _ =>
    mkRegs 0 0 0 0
      (Z.lor CRB_INTF_TYPE_CRB_ACTIVE
      (Z.lor CRB_INTF_VERSION_CRB
      (Z.lor CRB_INTF_CAP_LOCALITY_0_ONLY
      (Z.lor CRB_INTF_CAP_IDLE_FAST
      (Z.lor CRB_INTF_CAP_XFER_SIZE_64
      (Z.lor CRB_INTF_CAP_FIFO_NOT_SUPPORTED
      (Z.lor CRB_INTF_CAP_CRB_SUPPORTED
      (Z.lor CRB_INTF_IF_SELECTOR_CRB
      (Z.lor CRB_INTF_IF_SELECTOR_UNLOCKED
             (Z.shiftl 1 24))))))))))
      (Z.lor PCI_VENDOR_ID_IBM (Z.shiftl 1 16))
      0 0 0 0 0 0 0 0
      (uint32_t CRB_CTRL_CMD_SIZE)
      (uint32_t (TPM_CRB_ADDR_BASE + sizeof_crb_regs))
      0
      (uint32_t CRB_CTRL_CMD_SIZE)
      (uint32_t (TPM_CRB_ADDR_BASE + sizeof_crb_regs))
      0)) ;;
  s <- get ;;
  call (tpm_backend_startup_tpm (be_buffer_size s)).

Definition tpm_crb_request_completed (ret_ : Z) : prog CRBState unit :=
  modify (set_regs (fun r =>
    with_ctrl_start (Z.land (ctrl_start r) (Z.lnot CRB_START_INVOKE)) r)) ;;
  if negb (ret_ =? 0) then
    modify (set_regs (fun r =>
      with_ctrl_sts (Z.lor (ctrl_sts r) CRB_CTRL_STS_TPM_STS) r))
  else ret tt.

Definition tpm_crb_get_version (tpmbe : TPMBackend) : prog CRBState TPMVersion :=
  ret (tpm_backend_get_tpm_version tpmbe).

(** The entry points that [tpm_crb_class_init] and [tpm_crb_memory_ops]
    install: everything that can act on a realized device. *)
Inductive crb_op : Type :=
| mmio_read (addr size : Z)
| mmio_write (addr val size : Z)
| reset (tpmbe : TPMBackend)
| request_completed (ret_ : Z)
| get_version (tpmbe : TPMBackend).

Definition crb_do (op : crb_op) : prog CRBState unit :=
  match op with
  | mmio_read addr size => _ <- tpm_crb_mmio_read addr size ;; ret tt
  | mmio_write addr val size => tpm_crb_mmio_write addr val size
  | reset tpmbe => tpm_crb_reset tpmbe
  | request_completed r => tpm_crb_request_completed r
  | get_version tpmbe => _ <- tpm_crb_get_version tpmbe ;; ret tt
  end.

(** The guard of the start and cancel cases:
    [s->regs.ctrl_start & CRB_START_INVOKE]. *)
Definition started (s : CRBState) : bool :=
  negb (Z.land (ctrl_start (regs s)) CRB_START_INVOKE =? 0).


(** A sequence of entry-point calls, in order. *)
Fixpoint crb_run (ops : list crb_op) : prog CRBState unit :=
  match ops with
  | [] => ret tt
  | op :: rest => crb_do op ;; crb_run rest
  end.

End Device.

(** The registers other than [ctrl_start] and [ctrl_sts] hold the same
    values in [r] and [r']. *)
Definition other_regs_equal (r r' : crb_regs) : Prop :=
  loc_state r' = loc_state r /\ reserved1 r' = reserved1 r /\
  loc_ctrl r' = loc_ctrl r /\ loc_sts r' = loc_sts r /\
  intf_id_low r' = intf_id_low r /\ intf_id_high r' = intf_id_high r /\
  ctrl_ext_low r' = ctrl_ext_low r /\ ctrl_ext_high r' = ctrl_ext_high r /\
  ctrl_req r' = ctrl_req r /\ ctrl_cancel r' = ctrl_cancel r /\
  ctrl_int_enable r' = ctrl_int_enable r /\ ctrl_int_sts r' = ctrl_int_sts r /\
  ctrl_cmd_size r' = ctrl_cmd_size r /\
  ctrl_cmd_pa_low r' = ctrl_cmd_pa_low r /\
  ctrl_cmd_pa_high r' = ctrl_cmd_pa_high r /\
  ctrl_rsp_size r' = ctrl_rsp_size r /\
  ctrl_rsp_pa_low r' = ctrl_rsp_pa_low r /\
  ctrl_rsp_pa_high r' = ctrl_rsp_pa_high r.

(** [addr_desc]: the members its [CASE] list names, in the order of the
    list.  Each case covers the offsets from [offsetof(field)] to
    [offsetof(field) + sizeof(field) - 1]; no case gives [NULL]. *)
Definition addr_desc_cases : list string :=
  [ "loc_state"; "reserved1"; "loc_ctrl"; "loc_sts"; "reserved2";
    "intf_id_low"; "intf_id_high"; "ctrl_ext_low"; "ctrl_ext_high";
    "ctrl_req"; "ctrl_sts"; "ctrl_cancel"; "ctrl_start";
    "ctrl_int_enable"; "ctrl_int_sts"; "ctrl_cmd_size"; "ctrl_cmd_pa_low";
    "ctrl_cmd_pa_high"; "ctrl_rsp_size"; "ctrl_rsp_pa_low";
    "ctrl_rsp_pa_high" ]%string.

Definition sizeof_member (field : string) : Z :=
  match find (fun m => String.eqb (fst m) field) crb_regs_members with
  | Some m => snd m
  | None => 0
  end.

Fixpoint addr_desc_in (cases : list string) (off : Z) : option string :=
  match cases with
  | [] => None
  | field :: rest =>
      if (offsetof field <=? off)
         && (off <=? offsetof field + sizeof_member field - 1)
      then Some field
      else addr_desc_in rest off
  end.

Definition addr_desc (off : Z) : option string :=
  addr_desc_in addr_desc_cases off.

(** The member of a packed structure whose bytes include offset [off], the
    structure starting at [base]. *)
Fixpoint member_at_in (members : list (string * Z)) (base off : Z)
  : option string :=
  match members with
  | [] => None
  | (name, size) :: rest =>
      if (base <=? off) && (off <? base + size) then Some name
      else member_at_in rest (base + size) off
  end.

Definition member_at (off : Z) : option string :=
  member_at_in crb_regs_members 0 off.

(** What a realized device has put into the system address space. *)
Inductive mapping : Type :=
| mmio_at (name : string) (base size : Z)
| ram_at (name : string) (base size : Z).

(** [tpm_crb_realizefn]: the error it sets, if any, and the regions it maps
    (a failure to allocate the RAM is left out: the function does not look at
    it).
    [tpm_find] says whether [tpm_find()] returned a device. *)
Definition tpm_crb_realizefn (tpm_find : bool) (tpmbe : option TPMBackend)
  : option string * list mapping :=
  if negb tpm_find then
    (Some "at most one TPM device is permitted"%string, [])
  else
    match tpmbe with
    | None => (Some "'tpmdev' property is required"%string, [])
    | Some _ =>
        (None,
         [mmio_at "tpm-crb-mmio" TPM_CRB_ADDR_BASE sizeof_crb_regs;
          ram_at "tpm-crb-cmd" (TPM_CRB_ADDR_BASE + sizeof_crb_regs)
                 CRB_CTRL_CMD_SIZE])
    end.

End CRB.

(** ** The PAPR virtual TPM (the sPAPR vTPM part of [hw/tpm/tpm_ioctl.h]) *)

Module SPAPR.

Definition SPAPR_VTPM_VALID_INIT_CRQ_COMMAND : Z := 0xC0.
Definition SPAPR_VTPM_VALID_COMMAND : Z := 0x80.
Definition SPAPR_VTPM_MSG_RESULT : Z := 0x80.

Definition SPAPR_VTPM_INIT_CRQ_RESULT : Z := 0x1.
Definition SPAPR_VTPM_INIT_CRQ_COMPLETE_RESULT : Z := 0x2.

Definition SPAPR_VTPM_GET_VERSION : Z := 0x1.
Definition SPAPR_VTPM_TPM_COMMAND : Z := 0x2.
Definition SPAPR_VTPM_GET_RTCE_BUFFER_SIZE : Z := 0x3.
Definition SPAPR_VTPM_PREPARE_TO_SUSPEND : Z := 0x4.

Definition SPAPR_VTPM_VTPM_ERROR : Z := 0xff.

Definition SPAPR_VTPM_ERR_COPY_IN_FAILED : Z := 0x3.
Definition SPAPR_VTPM_ERR_COPY_OUT_FAILED : Z := 0x4.

Definition SPAPR_VTPM_STATE_NONE : Z := 0.
Definition SPAPR_VTPM_STATE_EXECUTION : Z := 1.
Definition SPAPR_VTPM_STATE_COMPLETION : Z := 2.

Record SPAPRvTPMState : Type := mkVTPM {
  crq : TPMSpaprCRQ;            (* track single TPM command *)
  state : Z;                    (* uint8_t *)
  buffer : list Z;              (* unsigned char buffer[MAX_BUFFER_SIZE] *)
  cmd : TPMBackendCmd;
  be_tpm_version : TPMVersion;
  be_buffer_size : Z;           (* size_t *)
  run_bh_func : bool
}.

Definition set_crq (c : TPMSpaprCRQ) (s : SPAPRvTPMState) : SPAPRvTPMState :=
  mkVTPM c (state s) (buffer s) (cmd s) (be_tpm_version s) (be_buffer_size s)
         (run_bh_func s).
Definition set_state (v : Z) (s : SPAPRvTPMState) : SPAPRvTPMState :=
  mkVTPM (crq s) v (buffer s) (cmd s) (be_tpm_version s) (be_buffer_size s)
         (run_bh_func s).
Definition set_buffer (b : list Z) (s : SPAPRvTPMState) : SPAPRvTPMState :=
  mkVTPM (crq s) (state s) b (cmd s) (be_tpm_version s) (be_buffer_size s)
         (run_bh_func s).
Definition set_cmd (c : TPMBackendCmd) (s : SPAPRvTPMState) : SPAPRvTPMState :=
  mkVTPM (crq s) (state s) (buffer s) c (be_tpm_version s) (be_buffer_size s)
         (run_bh_func s).
Definition set_be_tpm_version (v : TPMVersion) (s : SPAPRvTPMState)
  : SPAPRvTPMState :=
  mkVTPM (crq s) (state s) (buffer s) (cmd s) v (be_buffer_size s)
         (run_bh_func s).
Definition set_be_buffer_size (n : Z) (s : SPAPRvTPMState) : SPAPRvTPMState :=
  mkVTPM (crq s) (state s) (buffer s) (cmd s) (be_tpm_version s) n
         (run_bh_func s).
Definition set_run_bh_func (b : bool) (s : SPAPRvTPMState) : SPAPRvTPMState :=
  mkVTPM (crq s) (state s) (buffer s) (cmd s) (be_tpm_version s)
         (be_buffer_size s) b.

Definition with_valid (v : Z) (c : TPMSpaprCRQ) : TPMSpaprCRQ :=
  mkCRQ v (msg c) (len c) (data c) (reserved c).
Definition with_msg (v : Z) (c : TPMSpaprCRQ) : TPMSpaprCRQ :=
  mkCRQ (valid c) v (len c) (data c) (reserved c).
Definition with_len (v : be16) (c : TPMSpaprCRQ) : TPMSpaprCRQ :=
  mkCRQ (valid c) (msg c) v (data c) (reserved c).
Definition with_data (v : be32) (c : TPMSpaprCRQ) : TPMSpaprCRQ :=
  mkCRQ (valid c) (msg c) (len c) v (reserved c).

(** [memset(local_crq.raw, 0, sizeof(local_crq.raw))]. *)
Definition zeroed : TPMSpaprCRQ := mkCRQ 0 0 (0, 0) (0, 0, 0, 0) (repeat 0 8).

(** What the VIO bus answers to the device ([hw/ppc/spapr_vio.c] is an
    external collaborator): for a DMA read the return code and the bytes
    that reached the destination, for a DMA write and for a CRQ send the
    return code. *)
Record VIOsPAPRDevice : Type := mkVio {
  dma_read_answer : Z -> Z -> Z * list Z;
  dma_write_answer : Z -> list Z -> Z -> Z;
  send_crq_answer : TPMSpaprCRQ -> Z
}.

(** Bytes written from the start of a fixed-size array: what the array holds
    afterwards.  The array keeps its size; bytes that run past its end are
    not in it (for a DMA read they are [spill]'s, below). *)
Definition store (bytes array : list Z) : list Z :=
  firstn (List.length array) (bytes ++ skipn (List.length bytes) array).

(** The members of [SPAPRvTPMState] that are declared behind [buffer].
    ([be_driver] is declared there too; it is not part of the modelled state,
    the backend being an argument of the functions that ask it something.) *)
Record behind : Type := mkBehind {
  behind_cmd : TPMBackendCmd;
  behind_be_tpm_version : TPMVersion;
  behind_be_buffer_size : Z;
  behind_run_bh_func : bool
}.

Definition behind_of (s : SPAPRvTPMState) : behind :=
  mkBehind (cmd s) (be_tpm_version s) (be_buffer_size s) (run_bh_func s).

Section Device.

(** [H_SUCCESS] and [H_BUSY] of [hw/ppc/spapr.h], [TARGET_PAGE_BITS] of the
    target's [cpu.h] and [tpm_cmd_get_size] of [tpm_util.h] are declared
    outside the embedded files, and are parameters here. *)
Variable H_SUCCESS H_BUSY : Z.
Variable TARGET_PAGE_BITS : Z.
Variable tpm_cmd_get_size : list Z -> Z.

(** [buffer] is an array of fixed size inside the device structure, and
    [spapr_vio_dma_read] is handed its address and a byte count.  Bytes that
    are transferred beyond the end of the array are written over the members
    declared behind it.  Where each of them lands depends on the layout of
    the structure, that is on [TPMBackendCmd] and [TPMVersion] of
    [sysemu/tpm_backend.h] and on the host's sizes and alignment, all outside
    the embedded files: [overrun excess b] is a parameter, what the members
    [b] hold once the bytes [excess] have been written from the end of the
    array on. *)
Variable overrun : list Z -> behind -> behind.

(** Modelled from the spec: one virtual-memory page, which QEMU writes
    [(1 << TARGET_PAGE_BITS)]. *)
Definition TARGET_PAGE_SIZE : Z := Z.shiftl 1 TARGET_PAGE_BITS.
Definition MAX_BUFFER_SIZE : Z := TARGET_PAGE_SIZE.

(** [sizeof(s->buffer)]. *)
Definition sizeof_buffer : Z := MAX_BUFFER_SIZE.

Local Open Scope prog_scope.

(** The device once the bytes [excess] have been written behind [buffer]:
    nothing changes when there are none, and the members in front of the
    array are never reached. *)
Definition spill (excess : list Z) (s : SPAPRvTPMState) : SPAPRvTPMState :=
  let b := match excess with
           | [] => behind_of s
           | _ :: _ => overrun excess (behind_of s)
           end in
  mkVTPM (crq s) (state s) (buffer s) (behind_cmd b) (behind_be_tpm_version b)
         (behind_be_buffer_size b) (behind_run_bh_func b).

(** [spapr_vio_dma_read(&s->vdev, taddr, s->buffer, size)]: the transferred
    bytes fill the array from its start, and those that do not fit in it go
    on behind it. *)
Definition vio_dma_read (dev : VIOsPAPRDevice) (taddr size : Z)
  : prog SPAPRvTPMState Z :=
  call (spapr_vio_dma_read taddr size) ;;
  let '(rc, bytes) := dma_read_answer dev taddr size in
  modify (fun s =>
    spill (skipn (List.length (buffer s)) bytes)
          (set_buffer (store bytes (buffer s)) s)) ;;
  ret rc.

Definition vio_dma_write (dev : VIOsPAPRDevice) (taddr : Z) (buf : list Z)
  (size : Z) : prog SPAPRvTPMState Z :=
  call (spapr_vio_dma_write taddr buf size) ;;
  ret (dma_write_answer dev taddr buf size).

Definition vio_send_crq (dev : VIOsPAPRDevice) (c : TPMSpaprCRQ)
  : prog SPAPRvTPMState Z :=
  call (spapr_vio_send_crq c) ;;
  ret (send_crq_answer dev c).

Definition tpm_spapr_tpm_send : prog SPAPRvTPMState unit :=
  modify (set_state SPAPR_VTPM_STATE_EXECUTION) ;;
  s <- get ;;
  let c := mkCmd 0 spapr_buffer
             (MIN (uint32_t (tpm_cmd_get_size (buffer s))) sizeof_buffer)
             spapr_buffer sizeof_buffer in
  modify (set_cmd c) ;;
  call (tpm_backend_deliver_request c).

Definition tpm_spapr_process_cmd (dev : VIOsPAPRDevice) (dataptr : Z)
  : prog SPAPRvTPMState Z :=
  s <- get ;;
  rc <- vio_dma_read dev dataptr (be_buffer_size s) ;;
  (if negb (rc =? 0) then
     call (error_report "tpm_spapr_got_payload: DMA read failure !")
   else ret tt) ;;
  tpm_spapr_tpm_send ;;
  ret rc.

Definition tpm_spapr_do_crq (dev : VIOsPAPRDevice) (crq_data : TPMSpaprCRQ)
  : prog SPAPRvTPMState Z :=
  let local_crq := crq_data in
  if valid local_crq =? SPAPR_VTPM_VALID_INIT_CRQ_COMMAND then
    if msg local_crq =? SPAPR_VTPM_INIT_CRQ_RESULT then
      let local_crq :=
        with_msg SPAPR_VTPM_INIT_CRQ_RESULT
          (with_valid SPAPR_VTPM_VALID_INIT_CRQ_COMMAND zeroed) in
      _ <- vio_send_crq dev local_crq ;;
      ret H_SUCCESS
    else if msg local_crq =? SPAPR_VTPM_INIT_CRQ_COMPLETE_RESULT then
      let local_crq :=
        with_msg SPAPR_VTPM_INIT_CRQ_COMPLETE_RESULT
          (with_valid SPAPR_VTPM_VALID_INIT_CRQ_COMMAND zeroed) in
      _ <- vio_send_crq dev local_crq ;;
      ret H_SUCCESS
    else ret H_SUCCESS
  else if valid local_crq =? SPAPR_VTPM_VALID_COMMAND then
    if msg local_crq =? SPAPR_VTPM_TPM_COMMAND then
      s <- get ;;
      if state s =? SPAPR_VTPM_STATE_EXECUTION then ret H_BUSY
      else
        modify (set_crq crq_data) ;;
        rc <- tpm_spapr_process_cmd dev (be32_to_cpu (data crq_data)) ;;
        if rc =? H_SUCCESS then
          modify (fun s =>
            set_crq (with_valid (uint8_t (be16_to_cpu (0, 0))) (crq s)) s) ;;
          ret H_SUCCESS
        else
          let local_crq :=
            with_data (cpu_to_be32 SPAPR_VTPM_ERR_COPY_IN_FAILED)
              (with_msg SPAPR_VTPM_VTPM_ERROR
                 (with_valid SPAPR_VTPM_MSG_RESULT local_crq)) in
          _ <- vio_send_crq dev local_crq ;;
          ret H_SUCCESS
    else if msg local_crq =? SPAPR_VTPM_GET_RTCE_BUFFER_SIZE then
      s <- get ;;
      let local_crq :=
        with_len (cpu_to_be16 (be_buffer_size s))
          (with_msg (Z.lor (msg local_crq) SPAPR_VTPM_MSG_RESULT) local_crq) in
      _ <- vio_send_crq dev local_crq ;;
      ret H_SUCCESS
    else if msg local_crq =? SPAPR_VTPM_GET_VERSION then
      s <- get ;;
      let local_crq :=
        with_len (cpu_to_be16 0)
          (with_msg (Z.lor (msg local_crq) SPAPR_VTPM_MSG_RESULT) local_crq) in
      let local_crq :=
        match be_tpm_version s with
        | TPM_VERSION_UNSPEC => with_data (cpu_to_be32 0) local_crq
        | TPM_VERSION_1_2 => with_data (cpu_to_be32 1) local_crq
        | TPM_VERSION_2_0 => with_data (cpu_to_be32 2) local_crq
        end in
      _ <- vio_send_crq dev local_crq ;;
      ret H_SUCCESS
    else if msg local_crq =? SPAPR_VTPM_PREPARE_TO_SUSPEND then
      let local_crq :=
        with_msg (Z.lor (msg local_crq) SPAPR_VTPM_MSG_RESULT) local_crq in
      _ <- vio_send_crq dev local_crq ;;
      ret H_SUCCESS
    else ret H_SUCCESS
  else ret H_SUCCESS.

Definition _tpm_spapr_request_completed (dev : VIOsPAPRDevice)
  : prog SPAPRvTPMState unit :=
  modify (set_state SPAPR_VTPM_STATE_COMPLETION) ;;
  s <- get ;;
  let len_ :=
    uint32_t (MIN (uint32_t (tpm_cmd_get_size (buffer s))) (be_buffer_size s)) in
  rc <- vio_dma_write dev (be32_to_cpu (data (crq s))) (buffer s) len_ ;;
  modify (fun s => set_crq (with_valid SPAPR_VTPM_MSG_RESULT (crq s)) s) ;;
  (if rc =? H_SUCCESS then
     modify (fun s =>
       set_crq (with_len (cpu_to_be16 len_)
                  (with_msg (Z.lor SPAPR_VTPM_TPM_COMMAND SPAPR_VTPM_MSG_RESULT)
                     (crq s))) s)
   else
     call (error_report "_tpm_spapr_request_completed: DMA write failure") ;;
     modify (fun s =>
       set_crq (with_data (cpu_to_be32 SPAPR_VTPM_ERR_COPY_OUT_FAILED)
                  (with_len (cpu_to_be16 0)
                     (with_msg SPAPR_VTPM_VTPM_ERROR (crq s)))) s)) ;;
  s <- get ;;
  rc <- vio_send_crq dev (crq s) ;;
  if negb (rc =? 0) then
    call (error_report "_tpm_spapr_request_completed: Error sending response")
  else ret tt.

Definition tpm_spapr_request_completed (dev : VIOsPAPRDevice)
  : prog SPAPRvTPMState unit :=
  _tpm_spapr_request_completed dev.

Definition tpm_spapr_do_startup_tpm (buffersize : Z) : prog SPAPRvTPMState unit :=
  call (tpm_backend_startup_tpm buffersize).

Definition tpm_spapr_reset (be_driver : TPMBackend) : prog SPAPRvTPMState unit :=
  modify (set_state SPAPR_VTPM_STATE_NONE) ;;
  modify (set_be_tpm_version (tpm_backend_get_tpm_version be_driver)) ;;
  modify (set_be_buffer_size
            (MAX (ROUND_UP (tpm_backend_get_buffer_size be_driver)
                           TARGET_PAGE_SIZE)
                 sizeof_buffer)) ;;
  call tpm_backend_reset ;;
  s <- get ;;
  tpm_spapr_do_startup_tpm (be_buffer_size s).

Definition tpm_spapr_get_version (be_driver : TPMBackend) : TPMVersion :=
  if tpm_backend_had_startup_error be_driver then TPM_VERSION_UNSPEC
  else tpm_backend_get_tpm_version be_driver.

(** [tpm_spapr_pre_save] returns 0; the backend as the wait leaves it is
    returned with it.  The scratch buffer is the output buffer of the command
    the backend holds, so a command that ends during the wait leaves its
    response there. *)
Definition tpm_spapr_pre_save (be_driver : TPMBackend)
  : prog SPAPRvTPMState (Z * TPMBackend) :=
  let '(completed, be', written) := tpm_backend_wait_cmd_completed be_driver in
  (match written with
   | Some response => modify (fun s => set_buffer (store response (buffer s)) s)
   | None => ret tt
   end) ;;
  modify (set_run_bh_func completed) ;;
  ret (0, be').

Definition tpm_spapr_post_load (dev : VIOsPAPRDevice) (version_id : Z)
  : prog SPAPRvTPMState Z :=
  s <- get ;;
  (if run_bh_func s then _tpm_spapr_request_completed dev else ret tt) ;;
  ret 0.

(** The fields of [vmstate_spapr_vtpm] that belong to the vTPM itself. *)
Record vmstate : Type := mkVmstate {
  vm_crq : TPMSpaprCRQ;
  vm_state : Z;
  vm_buffer : list Z;
  vm_run_bh_func : bool
}.

(** Saving runs [pre_save] and then reads the fields; loading writes the
    fields into the destination device and then runs [post_load]. *)
Definition vmstate_save (be_driver : TPMBackend)
  : prog SPAPRvTPMState (vmstate * TPMBackend) :=
  r <- tpm_spapr_pre_save be_driver ;;
  s <- get ;;
  ret (mkVmstate (crq s) (state s) (buffer s) (run_bh_func s), snd r).

Definition vmstate_load (dev : VIOsPAPRDevice) (v : vmstate)
  : prog SPAPRvTPMState Z :=
  modify (set_crq (vm_crq v)) ;;
  modify (set_state (vm_state v)) ;;
  modify (set_buffer (vm_buffer v)) ;;
  modify (set_run_bh_func (vm_run_bh_func v)) ;;
  tpm_spapr_post_load dev 1.

(** *** The device together with its backend's queue

    Modelled from the spec: the backend completes what it was handed, one
    completion callback for each delivered request, after the worker has
    left the response in the command's output buffer. *)
Record machine : Type := mkMachine {
  device : SPAPRvTPMState;
  in_flight : list TPMBackendCmd
}.

Inductive stimulus : Type :=
| guest_crq (dev : VIOsPAPRDevice) (crq_data : TPMSpaprCRQ)
| backend_done (dev : VIOsPAPRDevice) (response : list Z).

Fixpoint delivered (t : list event) : list TPMBackendCmd :=
  match t with
  | [] => []
  | tpm_backend_deliver_request c :: t' => c :: delivered t'
  | _ :: t' => delivered t'
  end.

Definition machine_step (m : machine) (e : stimulus) : machine :=
  match e with
  | guest_crq dev crq_data =>
      let r := tpm_spapr_do_crq dev crq_data (device m) in
      mkMachine (state_after r) (in_flight m ++ delivered (trace r))
  | backend_done dev response =>
      match in_flight m with
      | [] => m
      | _ :: rest =>
          let s := set_buffer (store response (buffer (device m))) (device m) in
          let r := tpm_spapr_request_completed dev s in
          mkMachine (state_after r) rest
      end
  end.

Definition machine_run (m : machine) (es : list stimulus) : machine :=
  fold_left machine_step es m.

(** A device after reset, with an idle backend. *)
Definition power_on (be_driver : TPMBackend) (s : SPAPRvTPMState) : machine :=
  mkMachine (state_after (tpm_spapr_reset be_driver s)) [].


(** A TPM-command CRQ that the dispatch accepts: the device is not
    Executing; and one that it turns away. *)
Definition accepts (crq_data : TPMSpaprCRQ) (s : SPAPRvTPMState) : bool :=
  (valid crq_data =? SPAPR_VTPM_VALID_COMMAND)
  && (msg crq_data =? SPAPR_VTPM_TPM_COMMAND)
  && negb (state s =? SPAPR_VTPM_STATE_EXECUTION).

Definition rejects (crq_data : TPMSpaprCRQ) (s : SPAPRvTPMState) : bool :=
  (valid crq_data =? SPAPR_VTPM_VALID_COMMAND)
  && (msg crq_data =? SPAPR_VTPM_TPM_COMMAND)
  && (state s =? SPAPR_VTPM_STATE_EXECUTION).

(** The command [tpm_spapr_tpm_send] builds over a scratch buffer. *)
Definition command_over (buf : list Z) : TPMBackendCmd :=
  mkCmd 0 spapr_buffer (MIN (uint32_t (tpm_cmd_get_size buf)) sizeof_buffer)
        spapr_buffer sizeof_buffer.

End Device.

(** At most one command is with the backend, and then the device is
    Executing. *)
Definition one_in_flight (m : machine) : Prop :=
  (List.length (in_flight m) <= 1)%nat
  /\ (in_flight m <> [] -> state (device m) = SPAPR_VTPM_STATE_EXECUTION).

(** What a run leaves as it found it in the device [s0], and where the state
    machine can be. *)
Definition settled (s0 : SPAPRvTPMState) (m : machine) : Prop :=
  be_buffer_size (device m) = be_buffer_size s0
  /\ be_tpm_version (device m) = be_tpm_version s0
  /\ run_bh_func (device m) = run_bh_func s0
  /\ List.length (buffer (device m)) = List.length (buffer s0)
  /\ In (state (device m))
        [SPAPR_VTPM_STATE_NONE; SPAPR_VTPM_STATE_EXECUTION;
         SPAPR_VTPM_STATE_COMPLETION]
  /\ (state (device m) = SPAPR_VTPM_STATE_EXECUTION -> in_flight m <> []).

End SPAPR.

(** ** Observations on traces and backends *)

Definition is_error_report (e : event) : bool :=
  match e with error_report _ => true | _ => false end.

(** The calls of a trace other than error reports. *)
Definition calls (t : list event) : list event :=
  filter (fun e => negb (is_error_report e)) t.

(** The number a Get-version response carries for a version. *)
Definition version_code (v : TPMVersion) : Z :=
  match v with
  | TPM_VERSION_UNSPEC => 0
  | TPM_VERSION_1_2 => 1
  | TPM_VERSION_2_0 => 2
  end.

Definition undelivered (be : TPMBackend) : bool :=
  match progress be with be_undelivered => true | _ => false end.

Definition executing (be : TPMBackend) : bool :=
  match progress be with be_executing _ => true | _ => false end.

Definition quiet (be : TPMBackend) : bool :=
  match progress be with be_quiet => true | _ => false end.

(** ** A platform to run the model on

    One choice for the parameters of the two devices: PAPR's return
    codes 0 for success and 1 for busy, pages of 4 KiB, IBM's PCI vendor id,
    for the command size the big-endian size field at bytes 2 to 5 of a
    TPM command header, and for the members behind the scratch buffer the
    layout of an LP64 little-endian host.  The worked examples at the end run
    on it; the theorems hold whatever the choice. *)

Module Example.

Definition H_SUCCESS : Z := 0.
Definition H_BUSY : Z := 1.
Definition TARGET_PAGE_BITS : Z := 12.
Definition PCI_VENDOR_ID_IBM : Z := 0x1014.

Definition tpm_cmd_get_size (b : list Z) : Z :=
  be32_to_cpu (nth 2 b 0, nth 3 b 0, nth 4 b 0, nth 5 b 0).

(** The bytes of an [n]-byte little-endian member, and its value back. *)
Definition le_bytes (n : nat) (v : Z) : list Z :=
  map (fun i => (v / 2 ^ (8 * Z.of_nat i)) mod 2 ^ 8) (seq 0 n).

Definition le_value (bytes : list Z) : Z :=
  fold_right (fun b acc => b + 2 ^ 8 * acc) 0 bytes.

(** The [n]-byte member that starts [off] bytes behind the end of [buffer],
    of value [old], once [excess] has been written from the end of the array
    on: the bytes of [excess] that reach it replace its own. *)
Definition member (off n : nat) (excess : list Z) (old : Z) : Z :=
  le_value (SPAPR.store (skipn off excess) (le_bytes n old)).

(** The members behind [buffer] on an LP64 little-endian host: the array
    ends one byte after an 8-byte boundary, so 7 bytes of padding come first;
    then [cmd] (40 bytes: [locty] at 0, [in] at 8, [in_len] at 16, [out] at
    24, [out_len] at 32), [be_driver] (8 bytes), [be_tpm_version] (4 bytes
    and 4 of padding), [be_buffer_size] (8 bytes) and [run_bh_func] (1 byte).
    The two pointers of [cmd] are kept, a [bufptr] being the name of a
    buffer and not an address; a [be_tpm_version] that is none of the three
    enumerators is read as unspecified. *)
Definition overrun (excess : list Z) (b : SPAPR.behind) : SPAPR.behind :=
  let c := SPAPR.behind_cmd b in
  SPAPR.mkBehind
    (mkCmd (member 7 1 excess (locty c)) (cmd_in c)
           (member 23 4 excess (in_len c)) (cmd_out c)
           (member 39 4 excess (out_len c)))
    (match member 55 4 excess (version_code (SPAPR.behind_be_tpm_version b)) with
     | 1 => TPM_VERSION_1_2
     | 2 => TPM_VERSION_2_0
     | _ => TPM_VERSION_UNSPEC
     end)
    (member 63 8 excess (SPAPR.behind_be_buffer_size b))
    (negb (member 71 1 excess
             (if SPAPR.behind_run_bh_func b then 1 else 0) =? 0)).

Definition do_crq :=
  SPAPR.tpm_spapr_do_crq H_SUCCESS H_BUSY TARGET_PAGE_BITS tpm_cmd_get_size
    overrun.
Definition request_completed :=
  SPAPR._tpm_spapr_request_completed H_SUCCESS tpm_cmd_get_size.
Definition vtpm_reset := SPAPR.tpm_spapr_reset TARGET_PAGE_BITS.
Definition sizeof_buffer : Z := SPAPR.sizeof_buffer TARGET_PAGE_BITS.
Definition power_on := SPAPR.power_on TARGET_PAGE_BITS.
Definition run :=
  SPAPR.machine_run H_SUCCESS H_BUSY TARGET_PAGE_BITS tpm_cmd_get_size overrun.
Definition crb_write := CRB.tpm_crb_mmio_write tpm_cmd_get_size.
Definition crb_reset := CRB.tpm_crb_reset PCI_VENDOR_ID_IBM.
Definition crb_do := CRB.crb_do tpm_cmd_get_size PCI_VENDOR_ID_IBM.

(** A TPM 2.0 backend with a given buffer size and startup-error flag. *)
Definition tpm2 (size : Z) (startup_failed : bool) : TPMBackend :=
  mkBackend size TPM_VERSION_2_0 startup_failed be_quiet.

(** The first bytes of a TPM 2.0 command or response of [size] bytes. *)
Definition header (size : Z) : list Z :=
  let '(b0, b1, b2, b3) := cpu_to_be32 size in
  [0x80; 0x01; b0; b1; b2; b3; 0; 0; 0; 0].

(** A bus on which every transfer succeeds; guest memory holds [payload]
    followed by zeros at every address. *)
Definition bus (payload : list Z) : SPAPR.VIOsPAPRDevice :=
  SPAPR.mkVio
    (fun _ size =>
       (H_SUCCESS,
        firstn (Z.to_nat size) (payload ++ repeat 0 (Z.to_nat size))))
    (fun _ _ _ => H_SUCCESS)
    (fun _ => H_SUCCESS).

(** A bus on which no DMA transfer succeeds. *)
Definition broken_bus : SPAPR.VIOsPAPRDevice :=
  SPAPR.mkVio (fun _ _ => (-1, [])) (fun _ _ _ => -1) (fun _ => H_SUCCESS).

(** A command CRQ with opcode [opcode] and DMA address [taddr]. *)
Definition request (opcode taddr : Z) : TPMSpaprCRQ :=
  mkCRQ SPAPR.SPAPR_VTPM_VALID_COMMAND opcode (cpu_to_be16 0)
        (cpu_to_be32 taddr) (repeat 0 8).

(** A freshly allocated vTPM: all fields zero. *)
Definition vtpm0 : SPAPR.SPAPRvTPMState :=
  SPAPR.mkVTPM SPAPR.zeroed 0 (repeat 0 4096)
    (mkCmd 0 spapr_buffer 0 spapr_buffer 0) TPM_VERSION_UNSPEC 0 false.

(** A vTPM, reset against a backend that works with one page, that has
    accepted one TPM command of 22 bytes from address [0x2000]. *)
Definition vtpm_executing : SPAPR.SPAPRvTPMState :=
  SPAPR.device
    (run (power_on (tpm2 4096 false) vtpm0)
         [SPAPR.guest_crq (bus (header 22))
            (request SPAPR.SPAPR_VTPM_TPM_COMMAND 0x2000)]).

(** The same device once the backend has left a response that announces [n]
    bytes in the scratch buffer. *)
Definition vtpm_answered (n : Z) : SPAPR.SPAPRvTPMState :=
  let s := vtpm_executing in
  SPAPR.set_buffer (SPAPR.store (header n) (SPAPR.buffer s)) s.

Definition regs0 : CRB.crb_regs :=
  CRB.mkRegs 0 0 0 0 0 0 0 0 0 0 0 0 0 0 0 0 0 0 0 0.

(** A freshly allocated CRB device, and one with a command started. *)
Definition crb0 : CRB.CRBState :=
  CRB.mkCRB (mkCmd 0 crb_cmdmem 0 crb_cmdmem 0) regs0 [] 0.
Definition crb_started : CRB.CRBState :=
  state_after
    (crb_write CRB.CRB_ADDR_CTRL_START CRB.CRB_START_INVOKE 4
       (state_after (crb_reset (tpm2 4096 false) crb0))).

End Example.

(** ** Further observations *)

Definition option_string_eqb (a b : option string) : bool :=
  match a, b with
  | Some x, Some y => String.eqb x y
  | None, None => true
  | _, _ => false
  end.

(** The CRB entry points that reinitialise or clear [ctrl_start]. *)
Definition clears_start (op : CRB.crb_op) : bool :=
  match op with
  | CRB.reset _ | CRB.request_completed _ => true
  | _ => false
  end.

Definition is_reset (op : CRB.crb_op) : bool :=
  match op with CRB.reset _ => true | _ => false end.

(** Every reset of the sequence is against a backend whose reported buffer
    size is a [size_t] value, that is, not negative. *)
Definition reset_sizes_ok (ops : list CRB.crb_op) : Prop :=
  Forall (fun op => match op with
                    | CRB.reset be => 0 <= tpm_backend_get_buffer_size be
                    | _ => True
                    end) ops.

(** A command that stays inside a buffer [buf] of [limit] bytes. *)
Definition within (buf : bufptr) (limit : Z) (c : TPMBackendCmd) : Prop :=
  cmd_in c = buf /\ cmd_out c = buf /\ 0 <= in_len c <= out_len c
  /\ out_len c <= limit.

(** The commands a trace hands to the backend. *)
Fixpoint submitted (t : list event) : list TPMBackendCmd :=
  match t with
  | [] => []
  | tpm_backend_deliver_request c :: t' => c :: submitted t'
  | _ :: t' => submitted t'
  end.

Definition is_guest_crq (e : SPAPR.stimulus) : bool :=
  match e with SPAPR.guest_crq _ _ => true | _ => false end.

Definition is_dma_read (e : event) : bool :=
  match e with spapr_vio_dma_read _ _ => true | _ => false end.

Definition is_backend_call (e : event) : bool :=
  match e with
  | tpm_backend_deliver_request _ | tpm_backend_cancel_cmd
  | tpm_backend_reset | tpm_backend_startup_tpm _ => true
  | _ => false
  end.

(** A bus whose DMA reads transfer no more bytes than they are asked for,
    and a run in which every guest CRQ comes over such a bus. *)
Definition reads_within_size (dev : SPAPR.VIOsPAPRDevice) : Prop :=
  forall taddr size,
    Z.of_nat (List.length (snd (SPAPR.dma_read_answer dev taddr size)))
    <= Z.max 0 size.

Definition buses_read_within_size (es : list SPAPR.stimulus) : Prop :=
  Forall (fun e => match e with
                   | SPAPR.guest_crq dev _ => reads_within_size dev
                   | SPAPR.backend_done _ _ => True
                   end) es.

(** * Properties *)

(** ** Arithmetic of the machine integers *)

(** Bit 0 after [x |= 1] and after [x &= ~1]. *)
Lemma land_lor_bit0 (x : Z) : Z.land (Z.lor x 1) 1 = 1.
Proof.
  rewrite Z.land_lor_distr_l. change (Z.land 1 1) with 1.
  change 1 with (Z.ones 1) at 1. rewrite Z.land_ones by lia.
  change (2 ^ 1) with 2.
  assert (H : x mod 2 = 0 \/ x mod 2 = 1)
    by (pose proof (Z.mod_pos_bound x 2); lia).
  destruct H as [-> | ->]; reflexivity.
Qed.

Lemma land_clear_bit0 (x : Z) : Z.land (Z.land x (Z.lnot 1)) 1 = 0.
Proof.
  rewrite <- Z.land_assoc. change (Z.land (Z.lnot 1) 1) with 0.
  apply Z.land_0_r.
Qed.

(** Decoding an encoded field gives the value back, cut to the field's
    width. *)
Lemma be16_roundtrip (v : Z) : be16_to_cpu (cpu_to_be16 v) = v mod 2 ^ 16.
Proof.
  unfold be16_to_cpu, cpu_to_be16.
  change (2 ^ 8) with 256. change (2 ^ 16) with 65536.
  Z.div_mod_to_equations. lia.
Qed.

Lemma be32_roundtrip (v : Z) : be32_to_cpu (cpu_to_be32 v) = v mod 2 ^ 32.
Proof.
  unfold be32_to_cpu, cpu_to_be32.
  change (2 ^ 8) with 256. change (2 ^ 16) with 65536.
  change (2 ^ 24) with 16777216. change (2 ^ 32) with 4294967296.
  Z.div_mod_to_equations. lia.
Qed.

Lemma MIN_min (a b : Z) : MIN a b = Z.min a b.
Proof.
  unfold MIN.
  destruct (a <? b) eqn:E; [apply Z.ltb_lt in E | apply Z.ltb_ge in E]; lia.
Qed.

Lemma MAX_max (a b : Z) : MAX a b = Z.max a b.
Proof.
  unfold MAX. rewrite Z.gtb_ltb.
  destruct (b <? a) eqn:E; [apply Z.ltb_lt in E | apply Z.ltb_ge in E]; lia.
Qed.

Lemma uint32_t_range (x : Z) : 0 <= uint32_t x < 2 ^ 32.
Proof. unfold uint32_t, wrap. apply Z.mod_pos_bound. reflexivity. Qed.

Lemma uint32_t_small (x : Z) : 0 <= x < 2 ^ 32 -> uint32_t x = x.
Proof. intros H. unfold uint32_t, wrap. apply Z.mod_small. exact H. Qed.

Lemma size_t_small (x : Z) : 0 <= x < 2 ^ 64 -> size_t x = x.
Proof. intros H. unfold size_t, wrap. apply Z.mod_small. exact H. Qed.

(** Without overflow [ROUND_UP] rounds up to a multiple of the power of
    two. *)
Lemma ROUND_UP_least_multiple (n k : Z) :
  0 <= k < 64 -> 0 <= n -> n + 2 ^ k <= 2 ^ 64 ->
  ROUND_UP n (2 ^ k) = 2 ^ k * ((n + 2 ^ k - 1) / 2 ^ k).
Proof.
  intros Hk Hn Hb. unfold ROUND_UP.
  assert (Hp : 0 < 2 ^ k) by (apply Z.pow_pos_nonneg; lia).
  rewrite (size_t_small (n + 2 ^ k - 1)) by lia.
  unfold size_t, wrap.
  rewrite <- (Z.land_ones (- 2 ^ k) 64) by lia.
  rewrite Z.land_assoc.
  rewrite (Z.land_comm (n + 2 ^ k - 1) (- 2 ^ k)).
  rewrite <- Z.land_assoc.
  rewrite (Z.land_ones (n + 2 ^ k - 1) 64) by lia.
  rewrite (Z.mod_small (n + 2 ^ k - 1)) by lia.
  rewrite Z.land_comm.
  replace (- 2 ^ k) with (Z.lnot (Z.ones k)).
  2:{ rewrite Z.ones_equiv. unfold Z.lnot. lia. }
  rewrite <- Z.ldiff_land. rewrite Z.ldiff_ones_r by lia.
  rewrite Z.shiftr_div_pow2 by lia. rewrite Z.shiftl_mul_pow2 by lia. lia.
Qed.

(** ** The CRB interface *)

Section CRB_properties.

Import CRB.

Variable tpm_cmd_get_size : list Z -> Z.
Variable PCI_VENDOR_ID_IBM : Z.

Local Abbreviation tpm_crb_mmio_write := (CRB.tpm_crb_mmio_write tpm_cmd_get_size).
Local Abbreviation tpm_crb_reset := (CRB.tpm_crb_reset PCI_VENDOR_ID_IBM).
Local Abbreviation crb_do := (CRB.crb_do tpm_cmd_get_size PCI_VENDOR_ID_IBM).

Lemma sizeof_crb_regs_eq : sizeof_crb_regs = 0x1000.
Proof. reflexivity. Qed.

Lemma CRB_CTRL_CMD_SIZE_eq :
  CRB_CTRL_CMD_SIZE = TPM_CRB_ADDR_SIZE - sizeof_crb_regs.
Proof. reflexivity. Qed.

Lemma crb_offsets :
  CRB_ADDR_LOC_STATE = 0x00 /\ CRB_ADDR_LOC_CTRL = 0x08 /\
  CRB_ADDR_CTRL_REQ = 0x40 /\ CRB_ADDR_CTRL_CANCEL = 0x48 /\
  CRB_ADDR_CTRL_START = 0x4c.
Proof. repeat split; reflexivity. Qed.

Ltac run_prog :=
  cbv [CRB.tpm_crb_mmio_write CRB.tpm_crb_reset CRB.tpm_crb_request_completed
       CRB.tpm_crb_mmio_read CRB.tpm_crb_get_version CRB.crb_do
       bind get modify call ret result state_after trace fst snd app].

Lemma started_set_start (s : CRBState) :
  started (set_regs (fun r => with_ctrl_start (Z.lor (ctrl_start r) CRB_START_INVOKE) r) s) = true.
Proof.
  unfold started. cbn [regs set_regs ctrl_start with_ctrl_start].
  change CRB_START_INVOKE with 1. rewrite land_lor_bit0. reflexivity.
Qed.

Lemma started_clear_start (s : CRBState) :
  started (set_regs (fun r => with_ctrl_start (Z.land (ctrl_start r) (Z.lnot CRB_START_INVOKE)) r) s) = false.
Proof.
  unfold started. cbn [regs set_regs ctrl_start with_ctrl_start].
  change CRB_START_INVOKE with 1. rewrite land_clear_bit0. reflexivity.
Qed.

Lemma start_write_when_started (s : CRBState) (size : Z) :
  started s = true ->
  tpm_crb_mmio_write CRB_ADDR_CTRL_START CRB_START_INVOKE size s = (tt, s, []).
Proof.
  unfold started. intros H. apply negb_true_iff in H.
  change CRB_START_INVOKE with 1 in H.
  run_prog. cbn. rewrite H. reflexivity.
Qed.

Lemma start_write_when_idle (s : CRBState) (size : Z) :
  started s = false ->
  let c := mkCmd 0 crb_cmdmem
             (MIN (uint32_t (tpm_cmd_get_size (cmdmem s))) (be_buffer_size s))
             crb_cmdmem (be_buffer_size s) in
  tpm_crb_mmio_write CRB_ADDR_CTRL_START CRB_START_INVOKE size s =
  (tt,
   set_cmd c (set_regs (fun r => with_ctrl_start (Z.lor (ctrl_start r) CRB_START_INVOKE) r) s),
   [tpm_backend_deliver_request c]).
Proof.
  unfold started. intros H. apply negb_false_iff in H.
  change CRB_START_INVOKE with 1 in H.
  run_prog. cbn. rewrite H. reflexivity.
Qed.

Lemma mmio_write_keeps_started (s : CRBState) (addr val size : Z) :
  started s = true ->
  started (state_after (tpm_crb_mmio_write addr val size s)) = true.
Proof.
  intros H. run_prog.
  repeat match goal with
         | |- context [if ?b then _ else _] => destruct b
         end; cbn; try exact H.
  apply (started_set_start s).
Qed.

(** C4: a start-invoke write to the control-start register of a device whose
    start bit is set changes nothing and submits nothing; two start-invoke
    writes in a row leave the device as the first write left it, and hand at
    most one command to the backend, exactly one when the start bit was
    clear before. *)
Theorem crb_start_invoke_idempotent (s : CRBState) (size1 size2 : Z) :
  let write := tpm_crb_mmio_write CRB_ADDR_CTRL_START CRB_START_INVOKE in
  let r1 := write size1 s in
  let r2 := write size2 (state_after r1) in
  (started s = true -> r1 = (tt, s, []))
  /\ r2 = (tt, state_after r1, [])
  /\ (started s = false -> count is_deliver (trace r1 ++ trace r2) = 1%nat)
  /\ (count is_deliver (trace r1 ++ trace r2) <= 1)%nat.
Proof.
  intros write r1 r2.
  assert (H1 : started (state_after r1) = true).
  { destruct (started s) eqn:E.
    - subst r1 write. apply mmio_write_keeps_started. exact E.
    - subst r1 write. rewrite (start_write_when_idle s size1 E).
      cbv [state_after fst snd]. apply (started_set_start s). }
  assert (H2 : r2 = (tt, state_after r1, [])).
  { subst r2 write. apply start_write_when_started. exact H1. }
  split; [ | split; [exact H2 | ] ].
  - intros E. subst r1 write. apply start_write_when_started. exact E.
  - rewrite H2. cbv [trace snd]. rewrite app_nil_r.
    destruct (started s) eqn:E.
    + split; [discriminate | ].
      subst r1 write. rewrite (start_write_when_started s size1 E). cbn. lia.
    + subst r1 write. rewrite (start_write_when_idle s size1 E). cbn.
      split; [reflexivity | lia].
Qed.


(** C2 (a defect of the code): the command window that reset negotiates
    against has no byte.  [CRB_CTRL_CMD_SIZE] is [TPM_CRB_ADDR_SIZE -
    sizeof(struct crb_regs)], and [struct crb_regs] is declared with
    [reserved3] and [data_buffer] inside, so that it takes all of the
    [TPM_CRB_ADDR_SIZE] bytes; the registers themselves end where
    [data_buffer] starts, at offset [0x80].  For every backend that reports a
    buffer size that is not negative, one of 4096 bytes included, reset
    negotiates 0 bytes, puts 0 in the command-size and response-size
    registers and starts the backend with 0, where the claim has the
    minimum of the backend's size and a window of 3840 bytes. *)
Theorem crb_reset_buffer_size (tpmbe : TPMBackend) (s : CRBState) :
  0 <= tpm_backend_get_buffer_size tpmbe ->
  let r := tpm_crb_reset tpmbe s in
  let s' := state_after r in
  sizeof_crb_regs = TPM_CRB_ADDR_SIZE
  /\ offsetof "data_buffer" = 0x80
  /\ CRB_CTRL_CMD_SIZE = 0
  /\ be_buffer_size s' = 0
  /\ ctrl_cmd_size (regs s') = 0
  /\ ctrl_rsp_size (regs s') = 0
  /\ trace r = [tpm_backend_reset; tpm_backend_startup_tpm 0].
Proof.
  intros HB r s'. subst s' r. run_prog.
  cbn [be_buffer_size set_be_buffer_size set_regs regs ctrl_cmd_size ctrl_rsp_size].
  rewrite MIN_min. change CRB_CTRL_CMD_SIZE with 0.
  rewrite (Z.min_r _ 0) by exact HB.
  repeat split.
Qed.

Lemma crb_completed_effect (s : CRBState) (ret_ : Z) :
  tpm_crb_request_completed ret_ s =
  (tt,
   set_regs (fun r =>
     with_ctrl_sts (if ret_ =? 0 then ctrl_sts r
                    else Z.lor (ctrl_sts r) CRB_CTRL_STS_TPM_STS)
       (with_ctrl_start (Z.land (ctrl_start r) (Z.lnot CRB_START_INVOKE)) r)) s,
   []).
Proof.
  run_prog. destruct (ret_ =? 0); cbn; destruct s as [c r m b]; destruct r;
    reflexivity.
Qed.

Lemma cancel_write_when_started (s : CRBState) (size : Z) :
  started s = true ->
  tpm_crb_mmio_write CRB_ADDR_CTRL_CANCEL CRB_CANCEL_INVOKE size s =
  (tt, s, [tpm_backend_cancel_cmd]).
Proof.
  unfold started. intros H. apply negb_true_iff in H.
  change CRB_START_INVOKE with 1 in H.
  run_prog. cbn. rewrite H. reflexivity.
Qed.

Lemma only_completion_or_reset_clears (s : CRBState) (op : crb_op) :
  started s = true ->
  started (state_after (crb_do op s)) = false ->
  (exists r, op = request_completed r) \/ (exists be, op = reset be).
Proof.
  intros Hs Hc. destruct op as [a sz | a v sz | be | r | be].
  - exfalso. revert Hc. run_prog. rewrite Hs. discriminate.
  - exfalso. change (crb_do (mmio_write a v sz) s)
      with (tpm_crb_mmio_write a v sz s) in Hc.
    rewrite (mmio_write_keeps_started s a v sz Hs) in Hc. discriminate.
  - right. exists be. reflexivity.
  - left. exists r. reflexivity.
  - exfalso. revert Hc. run_prog. rewrite Hs. discriminate.
Qed.

(** C9 (as amended): the completion callback clears the start bit, sets the
    TPM-status bit of control-status when the result is nonzero and leaves
    control-status alone when it is zero, and changes nothing else; of the
    device's entry points only the completion callback and device reset can
    clear a set start bit; a cancel-invoke write on a started device only
    forwards the cancel, after which a start-invoke write is still
    ignored. *)
Theorem crb_completion_clears_start (s : CRBState) (ret_ : Z) :
  let r := tpm_crb_request_completed ret_ s in
  let s' := state_after r in
  (started s' = false
   /\ ctrl_start (regs s') = Z.land (ctrl_start (regs s)) (Z.lnot CRB_START_INVOKE)
   /\ ctrl_sts (regs s') =
        (if ret_ =? 0 then ctrl_sts (regs s)
         else Z.lor (ctrl_sts (regs s)) CRB_CTRL_STS_TPM_STS)
   /\ other_regs_equal (regs s) (regs s')
   /\ cmd s' = cmd s /\ cmdmem s' = cmdmem s
   /\ be_buffer_size s' = be_buffer_size s
   /\ trace r = [])
  /\ (forall op, started s = true ->
        started (state_after (crb_do op s)) = false ->
        (exists r, op = request_completed r) \/ (exists be, op = reset be))
  /\ (forall size size', started s = true ->
        tpm_crb_mmio_write CRB_ADDR_CTRL_CANCEL CRB_CANCEL_INVOKE size s
          = (tt, s, [tpm_backend_cancel_cmd])
        /\ tpm_crb_mmio_write CRB_ADDR_CTRL_START CRB_START_INVOKE size' s
          = (tt, s, [])).
Proof.
  intros r s'. subst s' r. rewrite crb_completed_effect.
  cbv [state_after trace fst snd]. split; [ | split ].
  - split.
    { unfold started. cbn [regs set_regs ctrl_start with_ctrl_sts with_ctrl_start].
      change CRB_START_INVOKE with 1. rewrite land_clear_bit0. reflexivity. }
    cbn. unfold other_regs_equal. repeat split.
  - intros op. apply only_completion_or_reset_clears.
  - intros size size' Hs. split.
    + apply cancel_write_when_started. exact Hs.
    + apply start_write_when_started. exact Hs.
Qed.

End CRB_properties.

(** ** The PAPR virtual TPM *)

Section SPAPR_properties.

Import SPAPR.

Variable H_SUCCESS H_BUSY : Z.
Variable TARGET_PAGE_BITS : Z.
Variable tpm_cmd_get_size : list Z -> Z.
Variable overrun : list Z -> SPAPR.behind -> SPAPR.behind.

Local Abbreviation TARGET_PAGE_SIZE := (SPAPR.TARGET_PAGE_SIZE TARGET_PAGE_BITS).
Local Abbreviation sizeof_buffer := (SPAPR.sizeof_buffer TARGET_PAGE_BITS).
Local Abbreviation tpm_spapr_do_crq :=
  (SPAPR.tpm_spapr_do_crq H_SUCCESS H_BUSY TARGET_PAGE_BITS tpm_cmd_get_size
     overrun).
Local Abbreviation _tpm_spapr_request_completed :=
  (SPAPR._tpm_spapr_request_completed H_SUCCESS tpm_cmd_get_size).
Local Abbreviation tpm_spapr_reset := (SPAPR.tpm_spapr_reset TARGET_PAGE_BITS).
Local Abbreviation tpm_spapr_post_load :=
  (SPAPR.tpm_spapr_post_load H_SUCCESS tpm_cmd_get_size).
Local Abbreviation vmstate_load :=
  (SPAPR.vmstate_load H_SUCCESS tpm_cmd_get_size).
Local Abbreviation machine_step :=
  (SPAPR.machine_step H_SUCCESS H_BUSY TARGET_PAGE_BITS tpm_cmd_get_size
     overrun).
Local Abbreviation machine_run :=
  (SPAPR.machine_run H_SUCCESS H_BUSY TARGET_PAGE_BITS tpm_cmd_get_size
     overrun).
Local Abbreviation power_on := (SPAPR.power_on TARGET_PAGE_BITS).

Ltac run_vtpm :=
  cbv [SPAPR.tpm_spapr_do_crq SPAPR.tpm_spapr_process_cmd
       SPAPR.tpm_spapr_tpm_send SPAPR._tpm_spapr_request_completed
       SPAPR.tpm_spapr_request_completed SPAPR.tpm_spapr_reset
       SPAPR.tpm_spapr_do_startup_tpm SPAPR.tpm_spapr_pre_save
       SPAPR.tpm_spapr_post_load SPAPR.vmstate_save SPAPR.vmstate_load
       SPAPR.vio_dma_read SPAPR.vio_dma_write SPAPR.vio_send_crq
       bind get modify call ret result state_after trace fst snd app].

Lemma busy_when_executing (dev : VIOsPAPRDevice) (crq_data : TPMSpaprCRQ)
  (s : SPAPRvTPMState) :
  state s = SPAPR_VTPM_STATE_EXECUTION ->
  valid crq_data = SPAPR_VTPM_VALID_COMMAND ->
  msg crq_data = SPAPR_VTPM_TPM_COMMAND ->
  tpm_spapr_do_crq dev crq_data s = (H_BUSY, s, []).
Proof.
  intros Hs Hv Hm. unfold SPAPR.tpm_spapr_do_crq. rewrite Hv, Hm.
  change (SPAPR_VTPM_VALID_COMMAND =? SPAPR_VTPM_VALID_INIT_CRQ_COMMAND) with false.
  rewrite !Z.eqb_refl. cbv [bind get ret]. rewrite Hs. reflexivity.
Qed.

(** A dispatch either leaves the execution state alone and hands nothing to
    the backend, or moves a device that was not executing to Executing and
    hands over exactly one command. *)
Lemma do_crq_cases (dev : VIOsPAPRDevice) (crq_data : TPMSpaprCRQ)
  (s : SPAPRvTPMState) :
  let r := tpm_spapr_do_crq dev crq_data s in
  (state (state_after r) = state s /\ delivered (trace r) = [])
  \/ (state s <> SPAPR_VTPM_STATE_EXECUTION
      /\ state (state_after r) = SPAPR_VTPM_STATE_EXECUTION
      /\ exists c, delivered (trace r) = [c]).
Proof.
  intros r. subst r. run_vtpm.
  destruct (valid crq_data =? SPAPR_VTPM_VALID_INIT_CRQ_COMMAND).
  { destruct (msg crq_data =? SPAPR_VTPM_INIT_CRQ_RESULT);
      [ | destruct (msg crq_data =? SPAPR_VTPM_INIT_CRQ_COMPLETE_RESULT)];
      left; split; reflexivity. }
  destruct (valid crq_data =? SPAPR_VTPM_VALID_COMMAND);
    [ | left; split; reflexivity].
  destruct (msg crq_data =? SPAPR_VTPM_TPM_COMMAND).
  { destruct (state s =? SPAPR_VTPM_STATE_EXECUTION) eqn:E;
      [left; split; reflexivity | ].
    apply Z.eqb_neq in E. right. split; [exact E | ].
    cbn [set_crq buffer be_buffer_size].
    destruct (dma_read_answer dev (be32_to_cpu (data crq_data)) (be_buffer_size s))
      as [rc bytes].
    destruct (rc =? 0); cbn; destruct (rc =? H_SUCCESS); cbn;
      (split; [reflexivity | eexists; reflexivity]). }
  destruct (msg crq_data =? SPAPR_VTPM_GET_RTCE_BUFFER_SIZE);
    [left; split; reflexivity | ].
  destruct (msg crq_data =? SPAPR_VTPM_GET_VERSION).
  { left. destruct (be_tpm_version s); split; reflexivity. }
  destruct (msg crq_data =? SPAPR_VTPM_PREPARE_TO_SUSPEND);
    left; split; reflexivity.
Qed.

Lemma completed_state (dev : VIOsPAPRDevice) (s : SPAPRvTPMState) :
  state (state_after (_tpm_spapr_request_completed dev s))
  = SPAPR_VTPM_STATE_COMPLETION.
Proof.
  run_vtpm.
  match goal with |- context [dma_write_answer ?d ?a ?b ?n =? H_SUCCESS] =>
    destruct (dma_write_answer d a b n =? H_SUCCESS) end; cbn;
  match goal with |- context [send_crq_answer ?d ?c =? 0] =>
    destruct (send_crq_answer d c =? 0) end; reflexivity.
Qed.

Lemma machine_step_one_in_flight (m : machine) (e : stimulus) :
  one_in_flight m -> one_in_flight (machine_step m e).
Proof.
  intros [Hl Hs]. destruct e as [dev crq_data | dev response].
  - cbn [SPAPR.machine_step].
    destruct (do_crq_cases dev crq_data (device m)) as [[E D] | [N [E [c D]]]].
    + split; cbn [in_flight device]; rewrite D, app_nil_r.
      * exact Hl.
      * intros H. rewrite E. apply Hs, H.
    + assert (in_flight m = []) as ->.
      { destruct (in_flight m); [reflexivity | ].
        exfalso. apply N, Hs. discriminate. }
      split; cbn [in_flight device]; rewrite D; cbn.
      * lia.
      * intros _. exact E.
  - cbn [SPAPR.machine_step]. destruct (in_flight m) as [ | c rest] eqn:F.
    + split; rewrite F; [cbn; lia | intros H; contradiction].
    + cbn in Hl.
      assert (rest = []) as ->
        by (destruct rest; [reflexivity | cbn in Hl; lia]).
      split; cbn [in_flight device]; [cbn; lia | intros H; contradiction].
Qed.

Lemma machine_run_one_in_flight (es : list stimulus) (m : machine) :
  one_in_flight m -> one_in_flight (machine_run m es).
Proof.
  revert m. induction es as [ | e es IH]; intros m H.
  - exact H.
  - cbn. apply IH. apply machine_step_one_in_flight. exact H.
Qed.

Lemma power_on_one_in_flight (be : TPMBackend) (s : SPAPRvTPMState) :
  one_in_flight (power_on be s).
Proof. split; cbn; [lia | intros H; contradiction]. Qed.

(** C1: in every state the device reaches from reset through CRQ dispatches
    and backend completions, at most one command is with the backend, and
    then the device is Executing; a TPM-command CRQ that arrives while the
    device is Executing returns [H_BUSY], hands nothing to the backend and
    leaves the device, with its saved CRQ, as it was. *)
Theorem crq_busy_while_executing (be : TPMBackend) (s0 : SPAPRvTPMState)
  (es : list stimulus) (dev : VIOsPAPRDevice) (crq_data : TPMSpaprCRQ) :
  let m := machine_run (power_on be s0) es in
  one_in_flight m
  /\ (state (device m) = SPAPR_VTPM_STATE_EXECUTION ->
      valid crq_data = SPAPR_VTPM_VALID_COMMAND ->
      msg crq_data = SPAPR_VTPM_TPM_COMMAND ->
      tpm_spapr_do_crq dev crq_data (device m) = (H_BUSY, device m, [])).
Proof.
  intros m. split.
  - apply machine_run_one_in_flight, power_on_one_in_flight.
  - apply busy_when_executing.
Qed.


(** *** Completion *)

Lemma completed_effect_ok (dev : VIOsPAPRDevice) (s : SPAPRvTPMState) :
  let n := uint32_t (MIN (uint32_t (tpm_cmd_get_size (buffer s)))
                         (be_buffer_size s)) in
  let taddr := be32_to_cpu (data (crq s)) in
  dma_write_answer dev taddr (buffer s) n = H_SUCCESS ->
  let r := _tpm_spapr_request_completed dev s in
  state_after r =
    set_crq (mkCRQ SPAPR_VTPM_MSG_RESULT
               (Z.lor SPAPR_VTPM_TPM_COMMAND SPAPR_VTPM_MSG_RESULT)
               (cpu_to_be16 n) (data (crq s)) (reserved (crq s)))
            (set_state SPAPR_VTPM_STATE_COMPLETION s)
  /\ calls (trace r) =
       [spapr_vio_dma_write taddr (buffer s) n;
        spapr_vio_send_crq (crq (state_after r))].
Proof.
  intros n taddr Hrc r. subst r. run_vtpm.
  cbn [buffer set_state crq be_buffer_size].
  fold n. fold taddr. rewrite Hrc, Z.eqb_refl.
  cbn [set_crq crq with_valid with_msg with_len valid msg len data reserved
       set_state state buffer cmd be_tpm_version be_buffer_size run_bh_func].
  match goal with |- context [send_crq_answer ?d ?c =? 0] =>
    destruct (send_crq_answer d c =? 0) end; split; reflexivity.
Qed.

Lemma completed_effect_failed (dev : VIOsPAPRDevice) (s : SPAPRvTPMState) :
  let n := uint32_t (MIN (uint32_t (tpm_cmd_get_size (buffer s)))
                         (be_buffer_size s)) in
  let taddr := be32_to_cpu (data (crq s)) in
  dma_write_answer dev taddr (buffer s) n <> H_SUCCESS ->
  let r := _tpm_spapr_request_completed dev s in
  state_after r =
    set_crq (mkCRQ SPAPR_VTPM_MSG_RESULT SPAPR_VTPM_VTPM_ERROR
               (cpu_to_be16 0) (cpu_to_be32 SPAPR_VTPM_ERR_COPY_OUT_FAILED)
               (reserved (crq s)))
            (set_state SPAPR_VTPM_STATE_COMPLETION s)
  /\ calls (trace r) =
       [spapr_vio_dma_write taddr (buffer s) n;
        spapr_vio_send_crq (crq (state_after r))].
Proof.
  intros n taddr Hrc r. subst r. run_vtpm.
  cbn [buffer set_state crq be_buffer_size].
  fold n. fold taddr. apply Z.eqb_neq in Hrc. rewrite Hrc.
  cbn [set_crq crq with_valid with_msg with_len with_data valid msg len data
       reserved set_state state buffer cmd be_tpm_version be_buffer_size
       run_bh_func].
  match goal with |- context [send_crq_answer ?d ?c =? 0] =>
    destruct (send_crq_answer d c =? 0) end; split; reflexivity.
Qed.

Lemma completed_counts (dev : VIOsPAPRDevice) (s : SPAPRvTPMState) :
  let r := _tpm_spapr_request_completed dev s in
  count is_dma_write (trace r) = 1%nat /\ count is_send_crq (trace r) = 1%nat.
Proof.
  intros r. subst r. run_vtpm.
  match goal with |- context [dma_write_answer ?d ?a ?b ?n =? H_SUCCESS] =>
    destruct (dma_write_answer d a b n =? H_SUCCESS) end; cbn;
  match goal with |- context [send_crq_answer ?d ?c =? 0] =>
    destruct (send_crq_answer d c =? 0) end; split; reflexivity.
Qed.


(** *** Reset and buffer negotiation *)

Lemma TARGET_PAGE_SIZE_pow2 :
  0 <= TARGET_PAGE_BITS -> TARGET_PAGE_SIZE = 2 ^ TARGET_PAGE_BITS.
Proof.
  intros H. unfold SPAPR.TARGET_PAGE_SIZE. rewrite Z.shiftl_mul_pow2 by exact H.
  lia.
Qed.

Lemma reset_effect (be : TPMBackend) (s : SPAPRvTPMState) :
  let n := MAX (ROUND_UP (tpm_backend_get_buffer_size be) TARGET_PAGE_SIZE)
               sizeof_buffer in
  tpm_spapr_reset be s =
  (tt,
   set_be_buffer_size n
     (set_be_tpm_version (tpm_backend_get_tpm_version be)
        (set_state SPAPR_VTPM_STATE_NONE s)),
   [tpm_backend_reset; tpm_backend_startup_tpm n]).
Proof. reflexivity. Qed.

Lemma ROUND_UP_page (B : Z) :
  0 <= TARGET_PAGE_BITS < 64 -> 0 <= B -> B + TARGET_PAGE_SIZE <= 2 ^ 64 ->
  0 < TARGET_PAGE_SIZE
  /\ ROUND_UP B TARGET_PAGE_SIZE
       = TARGET_PAGE_SIZE * ((B + TARGET_PAGE_SIZE - 1) / TARGET_PAGE_SIZE)
  /\ B <= ROUND_UP B TARGET_PAGE_SIZE < B + TARGET_PAGE_SIZE.
Proof.
  intros Hk HB Hb.
  assert (HP : TARGET_PAGE_SIZE = 2 ^ TARGET_PAGE_BITS)
    by (apply TARGET_PAGE_SIZE_pow2; lia).
  assert (Hp : 0 < TARGET_PAGE_SIZE)
    by (rewrite HP; apply Z.pow_pos_nonneg; lia).
  assert (HR : ROUND_UP B TARGET_PAGE_SIZE
               = TARGET_PAGE_SIZE * ((B + TARGET_PAGE_SIZE - 1) / TARGET_PAGE_SIZE)).
  { rewrite HP. apply ROUND_UP_least_multiple; [exact Hk | exact HB | ].
    rewrite <- HP. exact Hb. }
  split; [exact Hp | ]. split; [exact HR | ].
  rewrite HR.
  pose proof (Z.mod_pos_bound (B + TARGET_PAGE_SIZE - 1) TARGET_PAGE_SIZE Hp).
  pose proof (Z.div_mod (B + TARGET_PAGE_SIZE - 1) TARGET_PAGE_SIZE).
  lia.
Qed.

(** C8 (a defect of the code): reset sets the negotiated size to
    [max(round_up(B, page size), sizeof(buffer))] for the backend's size [B],
    the same on every reset, but the scratch buffer is the array
    [buffer[MAX_BUFFER_SIZE]] of one page, which reset leaves as it is and
    nothing resizes.  For a backend size above one page (and not so large
    that rounding it up wraps around) the negotiated size is above
    [sizeof(buffer)], and the TPM command dispatched next asks the bus for
    that many bytes into the array: the array keeps its size, and bytes
    transferred beyond its end are written over [be_tpm_version],
    [be_buffer_size] and [run_bh_func] behind it.  The claim has the scratch
    buffer never smaller than the negotiated size. *)
Theorem crq_reset_buffer_size (be : TPMBackend) (s s2 : SPAPRvTPMState)
  (dev : VIOsPAPRDevice) (crq_data : TPMSpaprCRQ) :
  0 <= TARGET_PAGE_BITS < 64 ->
  let B := tpm_backend_get_buffer_size be in
  TARGET_PAGE_SIZE < B -> B + TARGET_PAGE_SIZE <= 2 ^ 64 ->
  valid crq_data = SPAPR_VTPM_VALID_COMMAND ->
  msg crq_data = SPAPR_VTPM_TPM_COMMAND ->
  let s1 := state_after (tpm_spapr_reset be s) in
  let n := be_buffer_size s1 in
  let taddr := be32_to_cpu (data crq_data) in
  let answer := dma_read_answer dev taddr n in
  let excess := skipn (List.length (buffer s)) (snd answer) in
  let r := tpm_spapr_do_crq dev crq_data s1 in
  let s' := state_after r in
  n = Z.max (ROUND_UP B TARGET_PAGE_SIZE) sizeof_buffer
  /\ be_buffer_size (state_after (tpm_spapr_reset be s2)) = n
  /\ buffer s1 = buffer s
  /\ sizeof_buffer = TARGET_PAGE_SIZE
  /\ sizeof_buffer < n
  /\ B <= n
  /\ In (spapr_vio_dma_read taddr n) (trace r)
  /\ buffer s' = store (snd answer) (buffer s)
  /\ List.length (buffer s') = List.length (buffer s)
  /\ (excess <> [] ->
      be_tpm_version s' = behind_be_tpm_version (overrun excess (behind_of s1))
      /\ be_buffer_size s'
         = behind_be_buffer_size (overrun excess (behind_of s1))
      /\ run_bh_func s' = behind_run_bh_func (overrun excess (behind_of s1))).
Proof.
  intros Hk B HB Hb Hv Hm s1 n taddr answer excess r s'.
  assert (Hn : n = Z.max (ROUND_UP B TARGET_PAGE_SIZE) sizeof_buffer).
  { subst n s1. rewrite reset_effect. cbv [state_after fst snd].
    cbn [be_buffer_size set_be_buffer_size]. apply MAX_max. }
  assert (Hp0 : 0 < TARGET_PAGE_SIZE)
    by (rewrite TARGET_PAGE_SIZE_pow2 by lia; apply Z.pow_pos_nonneg; lia).
  destruct (ROUND_UP_page B Hk) as (Hp & HR & Hlo & Hhi); [lia | exact Hb | ].
  split; [exact Hn | ].
  split; [subst n s1; rewrite !reset_effect; reflexivity | ].
  split; [subst s1; rewrite reset_effect; reflexivity | ].
  split; [reflexivity | ].
  change sizeof_buffer with TARGET_PAGE_SIZE in Hn |- *.
  assert (Hgt : TARGET_PAGE_SIZE < ROUND_UP B TARGET_PAGE_SIZE) by lia.
  split; [lia | ]. split; [lia | ].
  assert (E : r = tpm_spapr_do_crq dev crq_data s1) by reflexivity.
  unfold SPAPR.tpm_spapr_do_crq in E. rewrite Hv, Hm in E.
  change (SPAPR_VTPM_VALID_COMMAND =? SPAPR_VTPM_VALID_INIT_CRQ_COMMAND)
    with false in E.
  rewrite !Z.eqb_refl in E. revert E. run_vtpm.
  change (state s1) with SPAPR_VTPM_STATE_NONE.
  change (SPAPR_VTPM_STATE_NONE =? SPAPR_VTPM_STATE_EXECUTION) with false.
  cbn [set_crq buffer be_buffer_size].
  change (be_buffer_size s1) with n. change (buffer s1) with (buffer s).
  fold taddr. fold answer. fold excess.
  destruct answer as [rc bytes] eqn:A. cbn [fst snd] in excess |- *.
  cbv beta iota zeta. intros E. subst s'.
  destruct (rc =? 0); cbn [negb] in E; cbv beta iota zeta in E;
    destruct (rc =? H_SUCCESS); rewrite E; cbv [state_after trace fst snd];
    cbn [buffer set_crq set_cmd set_state SPAPR.spill set_buffer
         be_tpm_version be_buffer_size run_bh_func];
    change (buffer s1) with (buffer s); fold excess;
    (split; [cbn; auto | ]);
    (split; [reflexivity | ]);
    (split; [unfold store;
             rewrite length_firstn, length_app, length_skipn; lia | ]);
    intros Hx; destruct excess as [ | x rest]; try contradiction;
    repeat split.
Qed.

(** *** Dispatch of a TPM command whose payload cannot be read *)

(** C7: when the DMA read of the payload fails, the dispatch of a TPM command
    still returns success to the transport, the scratch buffer as the read
    left it is submitted to the backend, the device is Executing, and a
    vTPM-error CRQ with reason copy-in-failed is sent after the
    submission. *)
Theorem crq_dma_read_failure_dispatches (dev : VIOsPAPRDevice)
  (crq_data : TPMSpaprCRQ) (s : SPAPRvTPMState) :
  valid crq_data = SPAPR_VTPM_VALID_COMMAND ->
  msg crq_data = SPAPR_VTPM_TPM_COMMAND ->
  state s <> SPAPR_VTPM_STATE_EXECUTION ->
  let taddr := be32_to_cpu (data crq_data) in
  let answer := dma_read_answer dev taddr (be_buffer_size s) in
  fst answer <> H_SUCCESS ->
  let r := tpm_spapr_do_crq dev crq_data s in
  let s' := state_after r in
  let c := mkCmd 0 spapr_buffer
             (MIN (uint32_t (tpm_cmd_get_size (buffer s'))) sizeof_buffer)
             spapr_buffer sizeof_buffer in
  result r = H_SUCCESS
  /\ state s' = SPAPR_VTPM_STATE_EXECUTION
  /\ In (state s') [SPAPR_VTPM_STATE_NONE; SPAPR_VTPM_STATE_EXECUTION;
                    SPAPR_VTPM_STATE_COMPLETION]
  /\ buffer s' = store (snd answer) (buffer s)
  /\ crq s' = crq_data
  /\ cmd s' = c
  /\ calls (trace r) =
       [spapr_vio_dma_read taddr (be_buffer_size s);
        tpm_backend_deliver_request c;
        spapr_vio_send_crq
          (mkCRQ SPAPR_VTPM_MSG_RESULT SPAPR_VTPM_VTPM_ERROR (len crq_data)
                 (cpu_to_be32 SPAPR_VTPM_ERR_COPY_IN_FAILED)
                 (reserved crq_data))].
Proof.
  intros Hv Hm Hs taddr answer Hrc r s' c. subst c s' r.
  unfold SPAPR.tpm_spapr_do_crq. rewrite Hv, Hm.
  change (SPAPR_VTPM_VALID_COMMAND =? SPAPR_VTPM_VALID_INIT_CRQ_COMMAND)
    with false.
  rewrite !Z.eqb_refl. apply Z.eqb_neq in Hs. run_vtpm. rewrite Hs.
  cbn [set_crq buffer be_buffer_size]. fold taddr. fold answer.
  destruct answer as [rc bytes]. cbn [fst snd] in Hrc |- *.
  apply Z.eqb_neq in Hrc. cbv beta iota zeta.
  destruct (rc =? 0); cbn [negb]; cbv beta iota zeta; rewrite Hrc; cbn;
    repeat split; auto.
Qed.

(** *** Get-RTCE-buffer-size and Get-version *)

Lemma get_rtce_buffer_size_response (dev : VIOsPAPRDevice)
  (crq_data : TPMSpaprCRQ) (s : SPAPRvTPMState) :
  valid crq_data = SPAPR_VTPM_VALID_COMMAND ->
  msg crq_data = SPAPR_VTPM_GET_RTCE_BUFFER_SIZE ->
  tpm_spapr_do_crq dev crq_data s =
  (H_SUCCESS, s,
   [spapr_vio_send_crq
      (mkCRQ (valid crq_data)
             (Z.lor SPAPR_VTPM_GET_RTCE_BUFFER_SIZE SPAPR_VTPM_MSG_RESULT)
             (cpu_to_be16 (be_buffer_size s)) (data crq_data)
             (reserved crq_data))]).
Proof.
  intros Hv Hm. destruct crq_data as [v m l d rsv]. cbn in Hv, Hm. subst v m.
  reflexivity.
Qed.

Lemma get_version_response (dev : VIOsPAPRDevice) (crq_data : TPMSpaprCRQ)
  (s : SPAPRvTPMState) :
  valid crq_data = SPAPR_VTPM_VALID_COMMAND ->
  msg crq_data = SPAPR_VTPM_GET_VERSION ->
  tpm_spapr_do_crq dev crq_data s =
  (H_SUCCESS, s,
   [spapr_vio_send_crq
      (mkCRQ (valid crq_data)
             (Z.lor SPAPR_VTPM_GET_VERSION SPAPR_VTPM_MSG_RESULT)
             (cpu_to_be16 0)
             (cpu_to_be32 (version_code (be_tpm_version s)))
             (reserved crq_data))]).
Proof.
  intros Hv Hm. destruct crq_data as [v m l d rsv]. cbn in Hv, Hm. subst v m.
  unfold SPAPR.tpm_spapr_do_crq.
  cbv [bind get ret SPAPR.vio_send_crq call valid msg].
  change (SPAPR_VTPM_VALID_COMMAND =? SPAPR_VTPM_VALID_INIT_CRQ_COMMAND)
    with false.
  change (SPAPR_VTPM_VALID_COMMAND =? SPAPR_VTPM_VALID_COMMAND) with true.
  change (SPAPR_VTPM_GET_VERSION =? SPAPR_VTPM_TPM_COMMAND) with false.
  change (SPAPR_VTPM_GET_VERSION =? SPAPR_VTPM_GET_RTCE_BUFFER_SIZE) with false.
  change (SPAPR_VTPM_GET_VERSION =? SPAPR_VTPM_GET_VERSION) with true.
  cbv iota beta.
  destruct (be_tpm_version s); reflexivity.
Qed.

(** C10: the Get-RTCE-buffer-size response carries the negotiated size in its
    16-bit big-endian [len], so the guest reads the size modulo [2^16], less
    than the size itself once that is 65536 or more; and reset negotiates
    such a size for every backend that reports 65536 bytes or more. *)
Theorem crq_rtce_buffer_size_truncated (dev : VIOsPAPRDevice) (crq_data : TPMSpaprCRQ)
  (s : SPAPRvTPMState) (be : TPMBackend) :
  0 <= TARGET_PAGE_BITS < 64 ->
  valid crq_data = SPAPR_VTPM_VALID_COMMAND ->
  msg crq_data = SPAPR_VTPM_GET_RTCE_BUFFER_SIZE ->
  let resp :=
    mkCRQ (valid crq_data)
          (Z.lor SPAPR_VTPM_GET_RTCE_BUFFER_SIZE SPAPR_VTPM_MSG_RESULT)
          (cpu_to_be16 (be_buffer_size s)) (data crq_data)
          (reserved crq_data) in
  tpm_spapr_do_crq dev crq_data s = (H_SUCCESS, s, [spapr_vio_send_crq resp])
  /\ be16_to_cpu (len resp) = be_buffer_size s mod 2 ^ 16
  /\ (2 ^ 16 <= be_buffer_size s -> be16_to_cpu (len resp) < be_buffer_size s)
  /\ (2 ^ 16 <= tpm_backend_get_buffer_size be ->
      tpm_backend_get_buffer_size be + TARGET_PAGE_SIZE <= 2 ^ 64 ->
      2 ^ 16 <= be_buffer_size (state_after (tpm_spapr_reset be s))).
Proof.
  intros Hk Hv Hm resp. subst resp. cbn [len].
  split; [apply get_rtce_buffer_size_response; assumption | ].
  split; [apply be16_roundtrip | ].
  split.
  - intros L. rewrite be16_roundtrip.
    pose proof (Z.mod_pos_bound (be_buffer_size s) (2 ^ 16) eq_refl). lia.
  - intros L Hb. rewrite reset_effect. cbv [state_after fst snd].
    cbn [be_buffer_size set_be_buffer_size]. rewrite MAX_max.
    destruct (ROUND_UP_page (tpm_backend_get_buffer_size be) Hk) as (_ & _ & H & _);
      [lia | exact Hb | lia].
Qed.

(** C6 (as amended): for a backend that reports a startup error,
    [tpm_spapr_get_version] answers unspecified; the Get-version CRQ
    response carries the code of the version the device cached at reset,
    which is the backend's own version whether or not it reports a startup
    error. *)
Theorem crq_version_reporting (be : TPMBackend) (s : SPAPRvTPMState) (dev : VIOsPAPRDevice)
  (crq_data : TPMSpaprCRQ) :
  tpm_backend_had_startup_error be = true ->
  valid crq_data = SPAPR_VTPM_VALID_COMMAND ->
  msg crq_data = SPAPR_VTPM_GET_VERSION ->
  let s1 := state_after (tpm_spapr_reset be s) in
  let resp (v : TPMVersion) :=
    mkCRQ (valid crq_data)
          (Z.lor SPAPR_VTPM_GET_VERSION SPAPR_VTPM_MSG_RESULT)
          (cpu_to_be16 0) (cpu_to_be32 (version_code v))
          (reserved crq_data) in
  tpm_spapr_get_version be = TPM_VERSION_UNSPEC
  /\ be_tpm_version s1 = tpm_backend_get_tpm_version be
  /\ tpm_spapr_do_crq dev crq_data s
       = (H_SUCCESS, s, [spapr_vio_send_crq (resp (be_tpm_version s))])
  /\ tpm_spapr_do_crq dev crq_data s1
       = (H_SUCCESS, s1,
          [spapr_vio_send_crq (resp (tpm_backend_get_tpm_version be))])
  /\ (forall v, be32_to_cpu (data (resp v)) = version_code v).
Proof.
  intros He Hv Hm s1 resp. subst resp.
  split; [unfold tpm_spapr_get_version; rewrite He; reflexivity | ].
  split; [reflexivity | ].
  split; [apply get_version_response; assumption | ].
  split; [apply (get_version_response dev crq_data s1); assumption | ].
  intros v. destruct v; reflexivity.
Qed.

(** *** Save and restore *)

Lemma post_load_effect (dev : VIOsPAPRDevice) (version_id : Z)
  (s : SPAPRvTPMState) :
  tpm_spapr_post_load dev version_id s =
  if run_bh_func s then
    let r := _tpm_spapr_request_completed dev s in
    (0, state_after r, trace r)
  else (0, s, []).
Proof.
  unfold SPAPR.tpm_spapr_post_load. cbv [bind get ret].
  destruct (run_bh_func s); [ | reflexivity].
  destruct (_tpm_spapr_request_completed dev s) as [[u s'] t].
  cbv [state_after trace fst snd]. rewrite app_nil_r. reflexivity.
Qed.

(** C5: pre-save returns with no command executing in the backend, delivers
    nothing, and sets the replay flag exactly when a response awaits
    delivery: the one the backend held undelivered, or the one of the
    command that ended during the wait.  The saved fields are the request,
    the state, the scratch buffer with that response in it, and the flag.
    Post-load runs the completion path when the flag is set and does nothing
    otherwise.  So over a save and a load nothing is written or sent when no
    response awaited delivery; when one did, the scratch buffer with the
    response is written once to the address of the saved request (all that
    the response announces, whenever that is within the destination's
    negotiated size) and one response CRQ, built on the saved request, is
    sent. *)
Theorem crq_migration_replays_once (be : TPMBackend) (src dst : SPAPRvTPMState)
  (dev : VIOsPAPRDevice) :
  let saved := vmstate_save be src in
  let v := fst (result saved) in
  let be' := snd (result saved) in
  let awaited :=
    match progress be with
    | be_executing response => store response (buffer src)
    | _ => buffer src
    end in
  let restored :=
    mkVTPM (crq src) (state src) awaited (cmd dst) (be_tpm_version dst)
           (be_buffer_size dst) (negb (quiet be)) in
  let replay := _tpm_spapr_request_completed dev restored in
  let loaded := vmstate_load dev v dst in
  let s' := state_after loaded in
  let size := uint32_t (tpm_cmd_get_size awaited) in
  let n := uint32_t (MIN size (be_buffer_size dst)) in
  let taddr := be32_to_cpu (data (crq src)) in
  executing be' = false
  /\ undelivered be' = negb (quiet be)
  /\ trace saved = []
  /\ v = mkVmstate (crq src) (state src) awaited (negb (quiet be))
  /\ (forall s version_id,
        tpm_spapr_post_load dev version_id s =
        if run_bh_func s then
          (0, state_after (_tpm_spapr_request_completed dev s),
           trace (_tpm_spapr_request_completed dev s))
        else (0, s, []))
  /\ (quiet be = true -> loaded = (0, restored, []))
  /\ (quiet be = false ->
      loaded = (0, state_after replay, trace replay)
      /\ calls (trace loaded) =
           [spapr_vio_dma_write taddr awaited n; spapr_vio_send_crq (crq s')]
      /\ buffer s' = awaited
      /\ valid (crq s') = SPAPR_VTPM_MSG_RESULT
      /\ reserved (crq s') = reserved (crq src)
      /\ (dma_write_answer dev taddr awaited n = H_SUCCESS ->
          msg (crq s') = Z.lor SPAPR_VTPM_TPM_COMMAND SPAPR_VTPM_MSG_RESULT
          /\ len (crq s') = cpu_to_be16 n
          /\ data (crq s') = data (crq src))
      /\ (size <= be_buffer_size dst -> n = size))
  /\ count is_dma_write (trace saved ++ trace loaded)
       = (if quiet be then 0%nat else 1%nat)
  /\ count is_send_crq (trace saved ++ trace loaded)
       = (if quiet be then 0%nat else 1%nat).
Proof.
  intros saved v be' awaited restored replay loaded s' size n taddr.
  assert (HS : executing be' = false /\ undelivered be' = negb (quiet be)
               /\ trace saved = []
               /\ v = mkVmstate (crq src) (state src) awaited (negb (quiet be))).
  { subst v be' saved awaited. unfold SPAPR.vmstate_save, SPAPR.tpm_spapr_pre_save,
      tpm_backend_wait_cmd_completed, undelivered, executing, quiet.
    destruct (progress be) eqn:P; cbn; rewrite ?P; repeat split; reflexivity. }
  destruct HS as (H1 & H2 & H3 & H4).
  assert (HL : loaded = tpm_spapr_post_load dev 1 restored).
  { subst loaded restored. rewrite H4. unfold SPAPR.vmstate_load.
    cbv [bind modify]. cbv beta iota zeta.
    cbv [set_crq set_state set_buffer set_run_bh_func crq state buffer cmd
         be_tpm_version be_buffer_size run_bh_func app
         vm_crq vm_state vm_buffer vm_run_bh_func].
    match goal with |- context [SPAPR.tpm_spapr_post_load ?a ?b ?c ?d ?e] =>
      destruct (SPAPR.tpm_spapr_post_load a b c d e) as [[x y] z] end.
    reflexivity. }
  rewrite post_load_effect in HL.
  change (run_bh_func restored) with (negb (quiet be)) in HL.
  fold replay in HL.
  split; [exact H1 | ]. split; [exact H2 | ]. split; [exact H3 | ].
  split; [exact H4 | ]. split; [intros; apply post_load_effect | ].
  split; [intros Q; rewrite Q in HL; exact HL | ].
  split.
  - intros Q. rewrite Q in HL. cbn [negb] in HL.
    split; [exact HL | ].
    assert (Es : s' = state_after replay) by (subst s'; rewrite HL; reflexivity).
    assert (Et : trace loaded = trace replay) by (rewrite HL; reflexivity).
    rewrite Es, Et.
    destruct (Z.eq_dec (dma_write_answer dev taddr awaited n) H_SUCCESS)
      as [Hok | Hko].
    + destruct (completed_effect_ok dev restored Hok) as [S T].
      fold replay in S, T. rewrite T, S.
      cbn [crq set_crq set_state buffer valid msg len data reserved].
      repeat split; try reflexivity.
      intros L. subst n. rewrite MIN_min, Z.min_l by exact L.
      apply uint32_t_small, uint32_t_range.
    + destruct (completed_effect_failed dev restored Hko) as [S T].
      fold replay in S, T. rewrite T, S.
      cbn [crq set_crq set_state buffer valid msg len data reserved].
      repeat split; try reflexivity; try contradiction.
      intros L. subst n. rewrite MIN_min, Z.min_l by exact L.
      apply uint32_t_small, uint32_t_range.
  - rewrite H3. cbn [app]. rewrite HL.
    destruct (completed_counts dev restored) as [C1 C2]. fold replay in C1, C2.
    destruct (quiet be); cbn [negb]; cbv [trace snd] in *; split;
      first [reflexivity | assumption].
Qed.

End SPAPR_properties.

(** ** Worked examples on the example platform *)

Ltac evaluate :=
  vm_compute; repeat split;
  first [reflexivity | discriminate | intro; discriminate].

(** The example buses transfer what they are asked for, or nothing. *)
Lemma bus_reads_within_size (payload : list Z) :
  reads_within_size (Example.bus payload).
Proof.
  intros taddr size. cbn [SPAPR.dma_read_answer Example.bus snd].
  rewrite length_firstn. lia.
Qed.

Lemma broken_bus_reads_within_size : reads_within_size Example.broken_bus.
Proof. intros taddr size. cbn. lia. Qed.

Lemma crq_busy_while_executing_witness :
  SPAPR.state Example.vtpm_executing = SPAPR.SPAPR_VTPM_STATE_EXECUTION
  /\ Example.do_crq (Example.bus (Example.header 22))
       (Example.request SPAPR.SPAPR_VTPM_TPM_COMMAND 0x3000)
       Example.vtpm_executing
     = (Example.H_BUSY, Example.vtpm_executing, []).
Proof.
  split; [vm_compute; reflexivity | ].
  pose proof (crq_busy_while_executing Example.H_SUCCESS Example.H_BUSY
                Example.TARGET_PAGE_BITS Example.tpm_cmd_get_size
                Example.overrun
                (Example.tpm2 4096 false) Example.vtpm0
                [SPAPR.guest_crq (Example.bus (Example.header 22))
                   (Example.request SPAPR.SPAPR_VTPM_TPM_COMMAND 0x2000)]
                (Example.bus (Example.header 22))
                (Example.request SPAPR.SPAPR_VTPM_TPM_COMMAND 0x3000)) as H.
  cbv zeta in H. destruct H as [_ H].
  apply H; vm_compute; reflexivity.
Defined.

Lemma crb_start_invoke_idempotent_witness :
  CRB.started Example.crb_started = true
  /\ Example.crb_write CRB.CRB_ADDR_CTRL_START CRB.CRB_START_INVOKE 4
       Example.crb_started
     = (tt, Example.crb_started, [])
  /\ CRB.started Example.crb0 = false
  /\ count is_deliver
       (trace (Example.crb_write CRB.CRB_ADDR_CTRL_START CRB.CRB_START_INVOKE 4
                 Example.crb0)
        ++ trace (Example.crb_write CRB.CRB_ADDR_CTRL_START
                    CRB.CRB_START_INVOKE 4
                    (state_after
                       (Example.crb_write CRB.CRB_ADDR_CTRL_START
                          CRB.CRB_START_INVOKE 4 Example.crb0))))
     = 1%nat.
Proof.
  split; [reflexivity | ]. split.
  - pose proof (crb_start_invoke_idempotent Example.tpm_cmd_get_size
                  Example.crb_started 4 4) as H.
    cbv zeta in H. destruct H as [H _]. apply H. reflexivity.
  - split; [reflexivity | ].
    pose proof (crb_start_invoke_idempotent Example.tpm_cmd_get_size
                  Example.crb0 4 4) as H.
    cbv zeta in H. destruct H as (_ & _ & H & _). apply H. reflexivity.
Defined.

Lemma crb_completion_clears_start_witness :
  CRB.started Example.crb_started = true
  /\ Example.crb_write CRB.CRB_ADDR_CTRL_CANCEL CRB.CRB_CANCEL_INVOKE 4
       Example.crb_started
     = (tt, Example.crb_started, [tpm_backend_cancel_cmd])
  /\ Example.crb_write CRB.CRB_ADDR_CTRL_START CRB.CRB_START_INVOKE 4
       Example.crb_started
     = (tt, Example.crb_started, []).
Proof.
  split; [reflexivity | ].
  pose proof (crb_completion_clears_start Example.tpm_cmd_get_size
                Example.PCI_VENDOR_ID_IBM Example.crb_started 0) as H.
  cbv zeta in H. destruct H as (_ & _ & H).
  apply (H 4 4). reflexivity.
Defined.

(** A backend that works with 4096 bytes: reset negotiates 0 bytes and both
    size registers report 0, not 3840. *)
Lemma crb_reset_buffer_size_witness :
  0 <= tpm_backend_get_buffer_size (Example.tpm2 4096 false)
  /\ let s' := state_after (Example.crb_reset (Example.tpm2 4096 false)
                              Example.crb0) in
     CRB.be_buffer_size s' = 0
     /\ CRB.ctrl_cmd_size (CRB.regs s') = 0
     /\ CRB.ctrl_rsp_size (CRB.regs s') = 0
     /\ CRB.be_buffer_size s' <> 3840
     /\ CRB.ctrl_cmd_size (CRB.regs s') <> 3840.
Proof.
  assert (HB : 0 <= tpm_backend_get_buffer_size (Example.tpm2 4096 false))
    by evaluate.
  split; [exact HB | ].
  pose proof (crb_reset_buffer_size Example.PCI_VENDOR_ID_IBM
                (Example.tpm2 4096 false) Example.crb0 HB) as H.
  cbv zeta in H. destruct H as (_ & _ & _ & H4 & H5 & H6 & _).
  cbv zeta. unfold Example.crb_reset. rewrite H4, H5, H6.
  repeat split; discriminate.
Defined.


Lemma crq_version_reporting_witness :
  tpm_backend_had_startup_error (Example.tpm2 4096 true) = true
  /\ valid (Example.request SPAPR.SPAPR_VTPM_GET_VERSION 0)
     = SPAPR.SPAPR_VTPM_VALID_COMMAND
  /\ msg (Example.request SPAPR.SPAPR_VTPM_GET_VERSION 0)
     = SPAPR.SPAPR_VTPM_GET_VERSION
  /\ SPAPR.tpm_spapr_get_version (Example.tpm2 4096 true) = TPM_VERSION_UNSPEC.
Proof.
  split; [reflexivity | ]. split; [reflexivity | ]. split; [reflexivity | ].
  pose proof (crq_version_reporting Example.H_SUCCESS Example.H_BUSY
                Example.TARGET_PAGE_BITS Example.tpm_cmd_get_size
                Example.overrun
                (Example.tpm2 4096 true) Example.vtpm0 (Example.bus [])
                (Example.request SPAPR.SPAPR_VTPM_GET_VERSION 0)
                eq_refl eq_refl eq_refl) as H.
  cbv zeta in H. destruct H as [H _]. exact H.
Defined.

Lemma crq_dma_read_failure_dispatches_witness :
  let s := state_after (Example.vtpm_reset (Example.tpm2 4096 false)
                          Example.vtpm0) in
  let crq_data := Example.request SPAPR.SPAPR_VTPM_TPM_COMMAND 0x2000 in
  let r := Example.do_crq Example.broken_bus crq_data s in
  SPAPR.state s <> SPAPR.SPAPR_VTPM_STATE_EXECUTION
  /\ fst (SPAPR.dma_read_answer Example.broken_bus 0x2000 4096)
     <> Example.H_SUCCESS
  /\ result r = Example.H_SUCCESS
  /\ SPAPR.state (state_after r) = SPAPR.SPAPR_VTPM_STATE_EXECUTION.
Proof.
  cbv zeta.
  assert (Hs : SPAPR.state (state_after (Example.vtpm_reset
                 (Example.tpm2 4096 false) Example.vtpm0))
               <> SPAPR.SPAPR_VTPM_STATE_EXECUTION)
    by evaluate.
  assert (Hr : fst (SPAPR.dma_read_answer Example.broken_bus 0x2000 4096)
               <> Example.H_SUCCESS)
    by evaluate.
  split; [exact Hs | ]. split; [exact Hr | ].
  pose proof (crq_dma_read_failure_dispatches Example.H_SUCCESS Example.H_BUSY
                Example.TARGET_PAGE_BITS Example.tpm_cmd_get_size
                Example.overrun
                Example.broken_bus
                (Example.request SPAPR.SPAPR_VTPM_TPM_COMMAND 0x2000)
                (state_after (Example.vtpm_reset (Example.tpm2 4096 false)
                                Example.vtpm0))
                eq_refl eq_refl Hs Hr) as H.
  cbv zeta in H. destruct H as (H1 & H2 & _). split; [exact H1 | exact H2].
Defined.

(** A backend that works with 8192 bytes on pages of 4096: the negotiated
    size is 8192 and the scratch buffer keeps its 4096 bytes; the TPM command
    dispatched next reads 8192 bytes into it, and with guest memory that is
    zero behind the command the negotiated size is 0 afterwards and the
    cached version unspecified. *)
Lemma crq_reset_buffer_size_witness :
  let be := Example.tpm2 8192 false in
  let crq_data := Example.request SPAPR.SPAPR_VTPM_TPM_COMMAND 0x2000 in
  let dev := Example.bus (Example.header 22) in
  let s1 := state_after (Example.vtpm_reset be Example.vtpm0) in
  let s' := state_after (Example.do_crq dev crq_data s1) in
  0 <= Example.TARGET_PAGE_BITS < 64
  /\ SPAPR.TARGET_PAGE_SIZE Example.TARGET_PAGE_BITS
     < tpm_backend_get_buffer_size be
  /\ SPAPR.be_buffer_size s1 = 8192
  /\ SPAPR.be_tpm_version s1 = TPM_VERSION_2_0
  /\ Example.sizeof_buffer = 4096
  /\ In (spapr_vio_dma_read 0x2000 8192)
        (trace (Example.do_crq dev crq_data s1))
  /\ List.length (SPAPR.buffer s') = 4096%nat
  /\ SPAPR.be_buffer_size s' = 0
  /\ SPAPR.be_tpm_version s' = TPM_VERSION_UNSPEC.
Proof.
  cbv zeta.
  assert (Hk : 0 <= Example.TARGET_PAGE_BITS < 64)
    by (unfold Example.TARGET_PAGE_BITS; lia).
  assert (HB : SPAPR.TARGET_PAGE_SIZE Example.TARGET_PAGE_BITS
               < tpm_backend_get_buffer_size (Example.tpm2 8192 false))
    by (vm_compute; reflexivity).
  split; [exact Hk | ]. split; [exact HB | ].
  pose proof (crq_reset_buffer_size Example.H_SUCCESS Example.H_BUSY
                Example.TARGET_PAGE_BITS Example.tpm_cmd_get_size
                Example.overrun (Example.tpm2 8192 false)
                Example.vtpm0 Example.vtpm0
                (Example.bus (Example.header 22))
                (Example.request SPAPR.SPAPR_VTPM_TPM_COMMAND 0x2000)
                Hk HB) as H.
  cbv zeta in H.
  destruct H as (H1 & _ & _ & _ & _ & _ & H7 & _ & H9 & H10);
    [vm_compute; discriminate | reflexivity | reflexivity | ].
  destruct H10 as (V & S & _); [vm_compute; discriminate | ].
  unfold Example.vtpm_reset, Example.do_crq.
  split; [rewrite H1; vm_compute; reflexivity | ].
  split; [vm_compute; reflexivity | ]. split; [reflexivity | ].
  split; [exact H7 | ].
  split; [rewrite H9; reflexivity | ].
  rewrite V, S. split; vm_compute; reflexivity.
Defined.

Lemma crq_rtce_buffer_size_truncated_witness :
  let s := state_after (Example.vtpm_reset (Example.tpm2 65536 false)
                          Example.vtpm0) in
  let crq_data := Example.request SPAPR.SPAPR_VTPM_GET_RTCE_BUFFER_SIZE 0 in
  0 <= Example.TARGET_PAGE_BITS < 64
  /\ 2 ^ 16 <= SPAPR.be_buffer_size s
  /\ Example.do_crq (Example.bus []) crq_data s
     = (Example.H_SUCCESS, s,
        [spapr_vio_send_crq (mkCRQ 0x80 0x83 (0, 0) (0, 0, 0, 0) (repeat 0 8))])
  /\ be16_to_cpu (cpu_to_be16 (SPAPR.be_buffer_size s)) < SPAPR.be_buffer_size s.
Proof.
  cbv zeta.
  assert (Hk : 0 <= Example.TARGET_PAGE_BITS < 64)
    by (unfold Example.TARGET_PAGE_BITS; lia).
  assert (Hn : 2 ^ 16 <= SPAPR.be_buffer_size
                 (state_after (Example.vtpm_reset (Example.tpm2 65536 false)
                                 Example.vtpm0)))
    by evaluate.
  split; [exact Hk | ]. split; [exact Hn | ].
  pose proof (crq_rtce_buffer_size_truncated Example.H_SUCCESS Example.H_BUSY
                Example.TARGET_PAGE_BITS Example.tpm_cmd_get_size
                Example.overrun
                (Example.bus [])
                (Example.request SPAPR.SPAPR_VTPM_GET_RTCE_BUFFER_SIZE 0)
                (state_after (Example.vtpm_reset (Example.tpm2 65536 false)
                                Example.vtpm0))
                (Example.tpm2 65536 false)
                Hk eq_refl eq_refl) as H.
  cbv zeta in H. destruct H as (H1 & _ & H3 & _).
  split; [exact H1 | exact (H3 Hn)].
Defined.

(** A save taken while the backend executes a command whose response has 30
    bytes, loaded into a freshly reset device: the load writes the response
    to the guest address of the command and sends one response CRQ. *)
Lemma crq_migration_replays_once_witness :
  let be := mkBackend 4096 TPM_VERSION_2_0 false
              (be_executing (Example.header 30)) in
  let src := Example.vtpm_executing in
  let saved := SPAPR.vmstate_save be src in
  let dst := state_after (Example.vtpm_reset (Example.tpm2 4096 false)
                            Example.vtpm0) in
  let loaded := SPAPR.vmstate_load Example.H_SUCCESS Example.tpm_cmd_get_size
                  (Example.bus []) (fst (result saved)) dst in
  let response := SPAPR.store (Example.header 30) (SPAPR.buffer src) in
  quiet be = false
  /\ SPAPR.dma_write_answer (Example.bus []) 0x2000 response 30
     = Example.H_SUCCESS
  /\ uint32_t (Example.tpm_cmd_get_size response) <= SPAPR.be_buffer_size dst
  /\ trace saved = []
  /\ SPAPR.vm_buffer (fst (result saved)) = response
  /\ calls (trace loaded)
     = [spapr_vio_dma_write 0x2000 response 30;
        spapr_vio_send_crq
          (mkCRQ 0x80 0x82 (0, 30) (0, 0, 0x20, 0) (repeat 0 8))].
Proof.
  cbv zeta.
  pose proof (crq_migration_replays_once Example.H_SUCCESS
                Example.tpm_cmd_get_size
                (mkBackend 4096 TPM_VERSION_2_0 false
                   (be_executing (Example.header 30)))
                Example.vtpm_executing
                (state_after (Example.vtpm_reset (Example.tpm2 4096 false)
                                Example.vtpm0))
                (Example.bus [])) as H.
  cbv zeta in H. destruct H as (_ & _ & H3 & H4 & _ & _ & H7 & _).
  destruct H7 as (_ & T & _ & _ & _ & _ & N); [reflexivity | ].
  assert (L : uint32_t (Example.tpm_cmd_get_size
                 (SPAPR.store (Example.header 30)
                    (SPAPR.buffer Example.vtpm_executing)))
              <= SPAPR.be_buffer_size
                   (state_after (Example.vtpm_reset (Example.tpm2 4096 false)
                                   Example.vtpm0)))
    by (vm_compute; discriminate).
  split; [reflexivity | ]. split; [reflexivity | ]. split; [exact L | ].
  split; [exact H3 | ]. split; [rewrite H4; reflexivity | ].
  cbn [progress] in T, N. rewrite (N L) in T.
  rewrite T. vm_compute. reflexivity.
Defined.


(** A TPM 2.0 backend that reports a startup error: after reset the
    Get-version response still says 2. *)
Lemma crq_get_version_not_gated :
  let be := Example.tpm2 4096 true in
  let s := state_after (Example.vtpm_reset be Example.vtpm0) in
  let r := Example.do_crq (Example.bus [])
             (Example.request SPAPR.SPAPR_VTPM_GET_VERSION 0) s in
  tpm_backend_had_startup_error be = true
  /\ trace r = [spapr_vio_send_crq
                  (mkCRQ 0x80 0x81 (0, 0) (0, 0, 0, 2) (repeat 0 8))]
  /\ be32_to_cpu (0, 0, 0, 2) <> 0.
Proof. evaluate. Qed.

(** The completion callback is not the only entry point that clears the
    start bit: device reset does it too. *)
Lemma crb_reset_also_clears_start :
  ~ (forall (op : CRB.crb_op) (s : CRB.CRBState),
       CRB.started s = true ->
       CRB.started (state_after (Example.crb_do op s)) = false ->
       exists r, op = CRB.request_completed r).
Proof.
  intros H.
  destruct (H (CRB.reset (Example.tpm2 4096 false)) Example.crb_started)
    as [r E]; [reflexivity | reflexivity | discriminate E].
Qed.

(** * Further properties *)

(** ** More of the CRB interface *)

Section CRB_more.

Import CRB.

Variable tpm_cmd_get_size : list Z -> Z.
Variable PCI_VENDOR_ID_IBM : Z.

Local Abbreviation tpm_crb_mmio_write := (CRB.tpm_crb_mmio_write tpm_cmd_get_size).
Local Abbreviation tpm_crb_reset := (CRB.tpm_crb_reset PCI_VENDOR_ID_IBM).
Local Abbreviation crb_do := (CRB.crb_do tpm_cmd_get_size PCI_VENDOR_ID_IBM).
Local Abbreviation crb_run := (CRB.crb_run tpm_cmd_get_size PCI_VENDOR_ID_IBM).

Ltac run_crb :=
  cbv [CRB.tpm_crb_mmio_write CRB.tpm_crb_reset CRB.tpm_crb_request_completed
       CRB.tpm_crb_mmio_read CRB.tpm_crb_get_version CRB.crb_do
       bind get modify call ret result state_after trace fst snd app].

(** *** [addr_desc] *)

Lemma addr_desc_in_none (cases : list string) (bound off : Z) :
  forallb (fun f => offsetof f + sizeof_member f - 1 <=? bound) cases = true ->
  bound < off -> addr_desc_in cases off = None.
Proof.
  intros H L. induction cases as [ | f rest IH]; [reflexivity | ].
  cbn [forallb] in H. apply andb_true_iff in H. destruct H as [Hf Hr].
  apply Z.leb_le in Hf. cbn [addr_desc_in].
  replace (off <=? offsetof f + sizeof_member f - 1) with false
    by (symmetry; apply Z.leb_gt; lia).
  rewrite andb_false_r. apply IH, Hr.
Qed.

Lemma option_string_eqb_eq (a b : option string) :
  option_string_eqb a b = true -> a = b.
Proof.
  destruct a as [x | ], b as [y | ]; cbn; try discriminate; try reflexivity.
  intros H. apply String.eqb_eq in H. subst. reflexivity.
Qed.

Lemma addr_desc_table :
  forallb (fun n => option_string_eqb (addr_desc (Z.of_nat n))
                                      (member_at (Z.of_nat n)))
          (seq 0 112) = true.
Proof. vm_compute. reflexivity. Qed.

(** X1: [addr_desc] names, for every offset below [reserved3], the member of
    [struct crb_regs] that holds the byte at that offset, and gives no name
    from [reserved3] on; from [ctrl_req] up to [reserved3] the name is that
    of the 4-byte register around the offset. *)
Theorem addr_desc_names_the_member (off : Z) :
  0 <= off ->
  addr_desc off = (if off <? offsetof "reserved3" then member_at off else None)
  /\ (off < offsetof "reserved3" -> addr_desc off <> None)
  /\ (offsetof "ctrl_req" <= off < offsetof "reserved3" ->
      exists field, addr_desc off = Some field
                    /\ offsetof field <= off < offsetof field + 4).
Proof.
  intros H0.
  assert (E : addr_desc off
              = (if off <? offsetof "reserved3" then member_at off else None)).
  { change (offsetof "reserved3") with 112.
    destruct (off <? 112) eqn:L.
    - apply Z.ltb_lt in L. apply option_string_eqb_eq.
      pose proof addr_desc_table as T. rewrite forallb_forall in T.
      rewrite <- (Z2Nat.id off H0). apply T. apply in_seq. lia.
    - apply Z.ltb_ge in L. apply (addr_desc_in_none _ 111); [reflexivity | lia]. }
  split; [exact E | ].
  assert (F : forall n, (n < 112)%nat ->
            match addr_desc (Z.of_nat n) with
            | Some f => (offsetof "ctrl_req" <=? Z.of_nat n) = true ->
                        (offsetof f <=? Z.of_nat n) && (Z.of_nat n <? offsetof f + 4) = true
            | None => False
            end).
  { intros n Hn.
    assert (G : forallb (fun n =>
                  match addr_desc (Z.of_nat n) with
                  | Some f => implb (offsetof "ctrl_req" <=? Z.of_nat n)
                                ((offsetof f <=? Z.of_nat n)
                                 && (Z.of_nat n <? offsetof f + 4))
                  | None => false
                  end) (seq 0 112) = true) by (vm_compute; reflexivity).
    rewrite forallb_forall in G. specialize (G n).
    destruct (addr_desc (Z.of_nat n)) as [f | ].
    - intros Hc. assert (I : In n (seq 0 112)) by (apply in_seq; lia).
      specialize (G I). rewrite Hc in G. exact G.
    - assert (I : In n (seq 0 112)) by (apply in_seq; lia).
      specialize (G I). discriminate G. }
  change (offsetof "reserved3") with 112. split.
  - intros L. specialize (F (Z.to_nat off)). rewrite Z2Nat.id in F by exact H0.
    destruct (addr_desc off); [discriminate | intros _; apply F; lia].
  - intros [L1 L2]. specialize (F (Z.to_nat off)).
    rewrite Z2Nat.id in F by exact H0.
    destruct (addr_desc off) as [f | ]; [ | exfalso; apply F; lia].
    exists f. split; [reflexivity | ].
    assert (Hc : (offsetof "ctrl_req" <=? off) = true) by (apply Z.leb_le; exact L1).
    specialize (F ltac:(lia) Hc). apply andb_true_iff in F. destruct F as [A B].
    apply Z.leb_le in A. apply Z.ltb_lt in B. lia.
Qed.


(** *** Register reads *)

Lemma aligned_split (a k : Z) :
  0 <= a -> a mod 4 = 0 -> 0 <= k < 4 ->
  Z.land (a + k) 3 = k /\ Z.land (a + k) (Z.lnot 3) = a.
Proof.
  intros Ha Hm Hk. split.
  - change 3 with (Z.ones 2). rewrite Z.land_ones by lia.
    change (2 ^ 2) with 4. Z.div_mod_to_equations. lia.
  - rewrite <- Z.ldiff_land. change 3 with (Z.ones 2).
    rewrite Z.ldiff_ones_r by lia.
    rewrite Z.shiftr_div_pow2, Z.shiftl_mul_pow2 by lia.
    change (2 ^ 2) with 4. Z.div_mod_to_equations. lia.
Qed.

(** X2: a read at byte [k] of an aligned register word returns the word
    shifted right by [8 * k], changes nothing and calls nothing; the low
    bytes of the four reads put together little-endian give the word
    back. *)
Theorem mmio_read_bytes (s : CRBState) (a : Z) :
  0 <= a -> a mod 4 = 0 -> 0 <= word_at (regs s) a < 2 ^ 32 ->
  (forall k size, 0 <= k < 4 ->
     tpm_crb_mmio_read (a + k) size s
       = (Z.shiftr (word_at (regs s) a) (8 * k), s, []))
  /\ (let byte k := result (tpm_crb_mmio_read (a + k) 1 s) mod 2 ^ 8 in
      byte 0 + byte 1 * 2 ^ 8 + byte 2 * 2 ^ 16 + byte 3 * 2 ^ 24
        = word_at (regs s) a).
Proof.
  intros Ha Hm Hw.
  assert (R : forall k size, 0 <= k < 4 ->
            tpm_crb_mmio_read (a + k) size s
              = (Z.shiftr (word_at (regs s) a) (8 * k), s, [])).
  { intros k size Hk. destruct (aligned_split a k Ha Hm Hk) as [E1 E2].
    unfold tpm_crb_mmio_read. cbv [bind get ret app]. rewrite E1, E2.
    reflexivity. }
  split; [exact R | ].
  cbv beta zeta. rewrite !R by lia. cbv [result fst].
  rewrite !Z.shiftr_div_pow2 by lia.
  change (8 * 0) with 0. change (8 * 1) with 8. change (8 * 2) with 16.
  change (8 * 3) with 24.
  change (2 ^ 0) with 1. change (2 ^ 8) with 256. change (2 ^ 16) with 65536.
  change (2 ^ 24) with 16777216. change (2 ^ 32) with 4294967296 in Hw.
  Z.div_mod_to_equations. lia.
Qed.

(** *** Register writes *)

(** X3: a write is ignored, with no change and no call, at every address
    other than the four handled registers, for every value other than 1
    and 2, for the value 2 anywhere but at the control-request register, and
    for any value at the cancel register while no command is started. *)
Theorem mmio_write_ignored (s : CRBState) (addr val size : Z) :
  (addr <> CRB_ADDR_LOC_CTRL -> addr <> CRB_ADDR_CTRL_REQ ->
   addr <> CRB_ADDR_CTRL_CANCEL -> addr <> CRB_ADDR_CTRL_START ->
   tpm_crb_mmio_write addr val size s = (tt, s, []))
  /\ (val <> 1 -> val <> 2 -> tpm_crb_mmio_write addr val size s = (tt, s, []))
  /\ (val = 2 -> addr <> CRB_ADDR_CTRL_REQ ->
      tpm_crb_mmio_write addr val size s = (tt, s, []))
  /\ (started s = false ->
      tpm_crb_mmio_write CRB_ADDR_CTRL_CANCEL val size s = (tt, s, [])).
Proof.
  split; [ | split; [ | split]].
  - intros H1 H2 H3 H4. unfold CRB.tpm_crb_mmio_write. cbv [bind get].
    apply Z.eqb_neq in H1, H2, H3, H4. rewrite H1, H2, H3, H4. reflexivity.
  - intros H1 H2. unfold CRB.tpm_crb_mmio_write. cbv [bind get].
    change CRB_CTRL_REQ_CMD_READY with 1. change CRB_CTRL_REQ_GO_IDLE with 2.
    change CRB_CANCEL_INVOKE with 1. change CRB_START_INVOKE with 1.
    change CRB_LOC_CTRL_RESET_ESTABLISHMENT_BIT with 8.
    change CRB_LOC_CTRL_RELINQUISH with 2.
    change CRB_LOC_CTRL_REQUEST_ACCESS with 1.
    apply Z.eqb_neq in H1, H2. rewrite H1, H2. cbn [andb].
    repeat match goal with
           | |- context [if ?b then _ else _] => destruct b
           end; reflexivity.
  - intros -> H2. unfold CRB.tpm_crb_mmio_write. cbv [bind get].
    apply Z.eqb_neq in H2. rewrite H2.
    change (2 =? CRB_CANCEL_INVOKE) with false.
    change (2 =? CRB_START_INVOKE) with false.
    change (2 =? CRB_LOC_CTRL_RESET_ESTABLISHMENT_BIT) with false.
    change (2 =? CRB_LOC_CTRL_RELINQUISH) with true.
    cbn [andb].
    repeat match goal with
           | |- context [if ?b then _ else _] => destruct b
           end; reflexivity.
  - intros Hs. unfold started in Hs. apply negb_false_iff in Hs.
    unfold CRB.tpm_crb_mmio_write. cbv [bind get].
    change (CRB_ADDR_CTRL_CANCEL =? CRB_ADDR_CTRL_REQ) with false.
    change (CRB_ADDR_CTRL_CANCEL =? CRB_ADDR_CTRL_CANCEL) with true.
    cbv iota. rewrite Hs. cbn [negb]. rewrite andb_false_r. reflexivity.
Qed.

Lemma testbit_two (i : Z) : 0 <= i -> Z.testbit 2 i = (1 =? i).
Proof. intros H. change 2 with (2 ^ 1). apply Z.pow2_bits_eqb. lia. Qed.

(** X4: at the control-request register go-idle sets and command-ready
    clears bit 1 of [ctrl_sts]; both leave every other bit of [ctrl_sts] and
    everything else of the device alone and call nothing, and command-ready
    after go-idle leaves the bit clear. *)
Theorem ctrl_req_sets_and_clears_idle (s : CRBState) (size : Z) :
  let idle := tpm_crb_mmio_write CRB_ADDR_CTRL_REQ CRB_CTRL_REQ_GO_IDLE size s in
  let ready := tpm_crb_mmio_write CRB_ADDR_CTRL_REQ CRB_CTRL_REQ_CMD_READY size s in
  let bit r i := Z.testbit (ctrl_sts (regs (state_after r))) i in
  (exists v, idle = (tt, set_regs (with_ctrl_sts v) s, []))
  /\ (exists v, ready = (tt, set_regs (with_ctrl_sts v) s, []))
  /\ bit idle 1 = true
  /\ bit ready 1 = false
  /\ (forall i, 0 <= i -> i <> 1 ->
        bit idle i = Z.testbit (ctrl_sts (regs s)) i
        /\ bit ready i = Z.testbit (ctrl_sts (regs s)) i)
  /\ Z.testbit
       (ctrl_sts (regs (state_after
          (tpm_crb_mmio_write CRB_ADDR_CTRL_REQ CRB_CTRL_REQ_CMD_READY size
             (state_after idle))))) 1 = false.
Proof.
  intros idle ready bit.
  assert (Ei : idle = (tt, set_regs (with_ctrl_sts (Z.lor (ctrl_sts (regs s)) 2)) s, []))
    by reflexivity.
  assert (Er : forall s0, tpm_crb_mmio_write CRB_ADDR_CTRL_REQ CRB_CTRL_REQ_CMD_READY size s0
               = (tt, set_regs (with_ctrl_sts (Z.land (ctrl_sts (regs s0)) (Z.lnot 2))) s0, []))
    by reflexivity.
  split; [eexists; exact Ei | ]. split; [eexists; apply Er | ].
  subst bit. cbv beta. subst ready. rewrite Ei, !Er. cbv [state_after fst snd].
  cbn [regs set_regs ctrl_sts with_ctrl_sts].
  split; [rewrite Z.lor_spec, testbit_two by lia; apply orb_true_r | ].
  split; [rewrite Z.land_spec, Z.lnot_spec, testbit_two by lia; apply andb_false_r | ].
  split.
  - intros i Hi Hn. rewrite Z.lor_spec, Z.land_spec, Z.lnot_spec, testbit_two by lia.
    replace (1 =? i) with false by (symmetry; apply Z.eqb_neq; lia).
    cbn [negb]. rewrite orb_false_r, andb_true_r. split; reflexivity.
  - rewrite Z.land_spec, Z.lnot_spec, testbit_two by lia. apply andb_false_r.
Qed.

Lemma testbit_one (i : Z) : 0 <= i -> Z.testbit 1 i = (0 =? i).
Proof. intros H. change 1 with (2 ^ 0). apply Z.pow2_bits_eqb. lia. Qed.

(** X5: no entry point other than reset clears the TPM-status error bit,
    takes back a granted locality or its assigned state, or changes the
    negotiated buffer size or the command memory. *)
Theorem status_bits_are_sticky (s : CRBState) (op : crb_op) :
  is_reset op = false ->
  let s' := state_after (crb_do op s) in
  (Z.testbit (ctrl_sts (regs s)) 0 = true ->
   Z.testbit (ctrl_sts (regs s')) 0 = true)
  /\ (loc_sts (regs s) = CRB_LOC_STS_GRANTED ->
      loc_sts (regs s') = CRB_LOC_STS_GRANTED)
  /\ (loc_state (regs s)
        = Z.lor CRB_LOC_STATE_LOC_ASSIGNED CRB_LOC_STATE_TPM_REG_VALID_STS ->
      loc_state (regs s')
        = Z.lor CRB_LOC_STATE_LOC_ASSIGNED CRB_LOC_STATE_TPM_REG_VALID_STS)
  /\ be_buffer_size s' = be_buffer_size s
  /\ cmdmem s' = cmdmem s.
Proof.
  intros Hop s'. subst s'.
  destruct op as [a sz | a v sz | be | r | be]; try discriminate Hop.
  - run_crb. repeat split; auto.
  - run_crb.
    repeat match goal with
           | |- context [if ?b then _ else _] => destruct b
           end;
      cbn [regs set_regs set_cmd ctrl_sts loc_sts loc_state with_ctrl_sts
           with_ctrl_start with_loc_sts with_loc_state be_buffer_size cmdmem];
      repeat split; auto; intros H.
    + change CRB_CTRL_STS_TPM_IDLE with 2.
      rewrite Z.land_spec, Z.lnot_spec, testbit_two, H by lia. reflexivity.
    + rewrite Z.lor_spec, H. reflexivity.
  - run_crb. destruct (r =? 0);
      cbn [negb regs set_regs ctrl_sts loc_sts loc_state with_ctrl_sts
           with_ctrl_start be_buffer_size cmdmem];
      repeat split; auto; intros H.
    rewrite Z.lor_spec, H. reflexivity.
  - run_crb. repeat split; auto.
Qed.


(** *** Sequences of calls *)

Lemma count_app (p : event -> bool) (t1 t2 : list event) :
  count p (t1 ++ t2) = (count p t1 + count p t2)%nat.
Proof. unfold count. rewrite filter_app, length_app. reflexivity. Qed.

Lemma submitted_app (t1 t2 : list event) :
  submitted (t1 ++ t2) = submitted t1 ++ submitted t2.
Proof.
  induction t1 as [ | e t1 IH]; [reflexivity | ].
  destruct e; cbn; rewrite ?IH; reflexivity.
Qed.

Lemma crb_run_cons (op : crb_op) (ops : list crb_op) (s : CRBState) :
  crb_run (op :: ops) s =
  (tt, state_after (crb_run ops (state_after (crb_do op s))),
   trace (crb_do op s) ++ trace (crb_run ops (state_after (crb_do op s)))).
Proof.
  cbn [CRB.crb_run]. unfold bind.
  destruct (crb_do op s) as [[u s1] t1].
  destruct (crb_run ops s1) as [[u2 s2] t2] eqn:E.
  cbv [state_after trace fst snd]. rewrite E. destruct u2. reflexivity.
Qed.

Lemma crb_run_trace (op : crb_op) (ops : list crb_op) (s : CRBState) :
  trace (crb_run (op :: ops) s)
  = trace (crb_do op s) ++ trace (crb_run ops (state_after (crb_do op s))).
Proof. rewrite crb_run_cons. reflexivity. Qed.

Lemma crb_run_state (op : crb_op) (ops : list crb_op) (s : CRBState) :
  state_after (crb_run (op :: ops) s)
  = state_after (crb_run ops (state_after (crb_do op s))).
Proof. rewrite crb_run_cons. reflexivity. Qed.

(** What one write does to the start bit and to the backend's queue. *)
Lemma mmio_write_start_cases (s : CRBState) (addr val size : Z) :
  let r := tpm_crb_mmio_write addr val size s in
  (started s = false /\ started (state_after r) = true
   /\ submitted (trace r)
      = [mkCmd 0 crb_cmdmem
           (MIN (uint32_t (tpm_cmd_get_size (cmdmem s))) (be_buffer_size s))
           crb_cmdmem (be_buffer_size s)]
   /\ count is_deliver (trace r) = 1%nat)
  \/ (started (state_after r) = started s /\ submitted (trace r) = []
      /\ count is_deliver (trace r) = 0%nat).
Proof.
  intros r. subst r. unfold started. run_crb.
  destruct (addr =? CRB_ADDR_CTRL_REQ).
  { right. destruct (val =? CRB_CTRL_REQ_CMD_READY);
      [ | destruct (val =? CRB_CTRL_REQ_GO_IDLE)]; repeat split. }
  destruct (addr =? CRB_ADDR_CTRL_CANCEL).
  { right. destruct ((val =? CRB_CANCEL_INVOKE)
                     && negb (Z.land (ctrl_start (regs s)) CRB_START_INVOKE =? 0));
      repeat split. }
  destruct (addr =? CRB_ADDR_CTRL_START).
  { destruct (val =? CRB_START_INVOKE); [ | right; repeat split].
    destruct (Z.land (ctrl_start (regs s)) CRB_START_INVOKE =? 0) eqn:E;
      [left | right].
    - cbn [andb negb regs set_regs set_cmd ctrl_start with_ctrl_start].
      change CRB_START_INVOKE with 1. rewrite land_lor_bit0.
      repeat split.
    - cbn [andb negb]. cbv beta iota zeta. rewrite E. repeat split. }
  destruct (addr =? CRB_ADDR_LOC_CTRL); [ | right; repeat split].
  right. destruct (val =? CRB_LOC_CTRL_RESET_ESTABLISHMENT_BIT);
    [ | destruct (val =? CRB_LOC_CTRL_RELINQUISH);
        [ | destruct (val =? CRB_LOC_CTRL_REQUEST_ACCESS)]]; repeat split.
Qed.

Lemma crb_do_deliveries (op : crb_op) (s : CRBState) :
  let r := crb_do op s in
  (count is_deliver (trace r) + (if started (state_after r) then 0 else 1)
   <= (if clears_start op then 1 else 0) + (if started s then 0 else 1))%nat.
Proof.
  intros r. subst r. destruct op as [a sz | a v sz | be | x | be].
  - run_crb. cbn. lia.
  - change (crb_do (mmio_write a v sz) s) with (tpm_crb_mmio_write a v sz s).
    destruct (mmio_write_start_cases s a v sz) as [(A & B & _ & D) | (A & _ & D)];
      rewrite D; cbn [clears_start].
    + rewrite A, B. lia.
    + rewrite A. lia.
  - run_crb. cbn. destruct (started s); lia.
  - cbn [CRB.crb_do clears_start]. rewrite crb_completed_effect.
    cbv [state_after trace fst snd]. cbn [count filter List.length].
    unfold started at 1.
    cbn [regs set_regs ctrl_start with_ctrl_sts with_ctrl_start].
    change CRB_START_INVOKE with 1. rewrite land_clear_bit0.
    cbn. destruct (started s); lia.
  - run_crb. cbn. lia.
Qed.

(** X6: over any sequence of entry-point calls the commands handed to the
    backend number at most one more than the completions and resets of the
    sequence, and no more than those when a command was already started. *)
Theorem crb_deliveries_bounded (ops : list crb_op) (s : CRBState) :
  let r := crb_run ops s in
  let clearing := List.length (filter clears_start ops) in
  (count is_deliver (trace r) <= clearing + 1)%nat
  /\ (started s = true -> (count is_deliver (trace r) <= clearing)%nat)
  /\ (clearing = 0%nat -> started s = false ->
      count is_deliver (trace r) = 1%nat -> started (state_after r) = true).
Proof.
  intros r clearing.
  assert (H : (count is_deliver (trace r)
               + (if started (state_after r) then 0 else 1)
               <= clearing + (if started s then 0 else 1))%nat).
  { subst r clearing. revert s. induction ops as [ | op ops IH]; intros s.
    - cbn. lia.
    - rewrite crb_run_trace, crb_run_state, count_app. cbn [filter].
      pose proof (crb_do_deliveries op s) as D. cbv zeta in D.
      specialize (IH (state_after (crb_do op s))).
      destruct (clears_start op); cbn [List.length];
        destruct (started s), (started (state_after (crb_do op s))),
          (started (state_after (crb_run ops (state_after (crb_do op s)))));
        lia. }
  split; [destruct (started s), (started (state_after r)); lia | ].
  split.
  - intros E. rewrite E in H. destruct (started (state_after r)); lia.
  - intros C E D. rewrite C, E, D in H.
    destruct (started (state_after r)); [reflexivity | lia].
Qed.

Lemma CRB_CTRL_CMD_SIZE_nonneg : 0 <= CRB_CTRL_CMD_SIZE.
Proof. unfold CRB_CTRL_CMD_SIZE, size_t, wrap. apply Z.mod_pos_bound. reflexivity. Qed.

Lemma mmio_write_keeps_size (s : CRBState) (addr val size : Z) :
  be_buffer_size (state_after (tpm_crb_mmio_write addr val size s))
  = be_buffer_size s.
Proof.
  run_crb.
  repeat match goal with
         | |- context [if ?b then _ else _] => destruct b
         end; reflexivity.
Qed.

Lemma crb_do_within (op : crb_op) (s : CRBState) :
  0 <= be_buffer_size s <= CRB_CTRL_CMD_SIZE ->
  match op with
  | reset be => 0 <= tpm_backend_get_buffer_size be
  | _ => True
  end ->
  let r := crb_do op s in
  0 <= be_buffer_size (state_after r) <= CRB_CTRL_CMD_SIZE
  /\ Forall (within crb_cmdmem CRB_CTRL_CMD_SIZE) (submitted (trace r)).
Proof.
  intros Hb Hop r. subst r. destruct op as [a sz | a v sz | be | x | be].
  - run_crb. split; [exact Hb | constructor].
  - change (crb_do (mmio_write a v sz) s) with (tpm_crb_mmio_write a v sz s).
    rewrite mmio_write_keeps_size. split; [exact Hb | ].
    destruct (mmio_write_start_cases s a v sz) as [(_ & _ & D & _) | (_ & D & _)];
      rewrite D; constructor; [ | constructor].
    pose proof (uint32_t_range (tpm_cmd_get_size (cmdmem s))) as U.
    unfold within. cbn [cmd_in cmd_out in_len out_len]. rewrite MIN_min.
    repeat split; lia.
  - run_crb. cbn [be_buffer_size set_be_buffer_size set_regs].
    rewrite MIN_min. pose proof CRB_CTRL_CMD_SIZE_nonneg.
    split; [lia | constructor].
  - cbn [CRB.crb_do]. rewrite crb_completed_effect.
    cbv [state_after trace fst snd]. split; [exact Hb | constructor].
  - run_crb. split; [exact Hb | constructor].
Qed.

(** X7: after a reset, whatever calls follow, every command handed to the
    backend reads and writes the command memory and has
    [0 <= in_len <= out_len <= CRB_CTRL_CMD_SIZE]; the negotiated size stays
    within [CRB_CTRL_CMD_SIZE]. *)
Theorem crb_commands_stay_in_window (be : TPMBackend) (ops : list crb_op)
  (s : CRBState) :
  0 <= tpm_backend_get_buffer_size be ->
  reset_sizes_ok ops ->
  let r := crb_run (reset be :: ops) s in
  Forall (within crb_cmdmem CRB_CTRL_CMD_SIZE) (submitted (trace r))
  /\ 0 <= be_buffer_size (state_after r) <= CRB_CTRL_CMD_SIZE.
Proof.
  intros HB Hops r.
  assert (G : forall ops s,
            reset_sizes_ok ops ->
            0 <= be_buffer_size s <= CRB_CTRL_CMD_SIZE ->
            Forall (within crb_cmdmem CRB_CTRL_CMD_SIZE)
                   (submitted (trace (crb_run ops s)))
            /\ 0 <= be_buffer_size (state_after (crb_run ops s))
               <= CRB_CTRL_CMD_SIZE).
  { clear. intros ops. induction ops as [ | op ops IH]; intros s Hops Hb.
    - cbn. split; [constructor | exact Hb].
    - inversion Hops as [ | x l Hop Hrest]; subst.
      rewrite crb_run_trace, crb_run_state.
      destruct (crb_do_within op s Hb Hop) as [Hb' Hw].
      destruct (IH _ Hrest Hb') as [Hw' Hb''].
      rewrite submitted_app. split; [apply Forall_app; split; assumption | ].
      exact Hb''. }
  subst r. rewrite crb_run_trace, crb_run_state.
  assert (Hr : 0 <= be_buffer_size (state_after (crb_do (reset be) s))
               <= CRB_CTRL_CMD_SIZE).
  { run_crb. cbn [be_buffer_size set_be_buffer_size set_regs]. rewrite MIN_min.
    pose proof CRB_CTRL_CMD_SIZE_nonneg. lia. }
  destruct (G ops _ Hops Hr) as [Hw Hb].
  rewrite submitted_app. split; [ | exact Hb].
  apply Forall_app. split; [ | exact Hw]. run_crb. constructor.
Qed.

(** X8: right after a completion callback or a reset, whatever the device
    did before, a start-invoke write is accepted: it sets the start bit and
    hands over one command over the command memory, of the negotiated
    output size. *)
Theorem crb_start_accepted_after_clearing (s : CRBState) (op : crb_op)
  (size : Z) :
  clears_start op = true ->
  let s1 := state_after (crb_do op s) in
  let r := tpm_crb_mmio_write CRB_ADDR_CTRL_START CRB_START_INVOKE size s1 in
  started s1 = false
  /\ started (state_after r) = true
  /\ trace r
     = [tpm_backend_deliver_request
          (mkCmd 0 crb_cmdmem
             (MIN (uint32_t (tpm_cmd_get_size (cmdmem s))) (be_buffer_size s1))
             crb_cmdmem (be_buffer_size s1))]
  /\ cmd (state_after r)
     = mkCmd 0 crb_cmdmem
         (MIN (uint32_t (tpm_cmd_get_size (cmdmem s))) (be_buffer_size s1))
         crb_cmdmem (be_buffer_size s1).
Proof.
  intros Hop s1 r.
  assert (Hs : started s1 = false /\ cmdmem s1 = cmdmem s).
  { subst s1. destruct op as [a sz | a v sz | be | x | be]; try discriminate Hop.
    - run_crb. split; reflexivity.
    - cbn [CRB.crb_do]. rewrite crb_completed_effect.
      cbv [state_after fst snd]. split; [ | reflexivity].
      unfold started. cbn [regs set_regs ctrl_start with_ctrl_sts with_ctrl_start].
      change CRB_START_INVOKE with 1. rewrite land_clear_bit0. reflexivity. }
  destruct Hs as [Hs Hm]. split; [exact Hs | ].
  subst r. rewrite (start_write_when_idle tpm_cmd_get_size s1 size Hs).
  cbv [state_after trace fst snd]. rewrite Hm.
  split; [apply (started_set_start s1) | ]. split; reflexivity.
Qed.

(** *** Realization *)

(** X9: a realized device maps its command RAM at the address, and with the
    size, that the command and response registers hold after reset, right
    behind the register window; the negotiated size does not exceed it; a
    device that is refused maps nothing. *)
Theorem crb_registers_publish_the_mapping (be : TPMBackend) (s : CRBState) :
  let s' := state_after (tpm_crb_reset be s) in
  tpm_crb_realizefn true (Some be)
    = (None,
       [mmio_at "tpm-crb-mmio" TPM_CRB_ADDR_BASE sizeof_crb_regs;
        ram_at "tpm-crb-cmd"
               (ctrl_cmd_pa_high (regs s') * 2 ^ 32 + ctrl_cmd_pa_low (regs s'))
               (ctrl_cmd_size (regs s'))])
  /\ ctrl_rsp_pa_low (regs s') = ctrl_cmd_pa_low (regs s')
  /\ ctrl_rsp_pa_high (regs s') = ctrl_cmd_pa_high (regs s')
  /\ ctrl_rsp_size (regs s') = ctrl_cmd_size (regs s')
  /\ ctrl_cmd_pa_low (regs s') = TPM_CRB_ADDR_BASE + sizeof_crb_regs
  /\ be_buffer_size s' <= ctrl_cmd_size (regs s')
  /\ (forall found tpmbe,
        (found = false \/ tpmbe = None) ->
        snd (tpm_crb_realizefn found tpmbe) = []
        /\ fst (tpm_crb_realizefn found tpmbe) <> None).
Proof.
  intros s'. subst s'. run_crb.
  cbn [regs set_regs be_buffer_size set_be_buffer_size ctrl_cmd_size
       ctrl_cmd_pa_low ctrl_cmd_pa_high ctrl_rsp_size ctrl_rsp_pa_low
       ctrl_rsp_pa_high].
  repeat split; try reflexivity.
  - rewrite MIN_min. change (uint32_t CRB_CTRL_CMD_SIZE) with CRB_CTRL_CMD_SIZE.
    lia.
  - destruct H as [-> | ->]; [reflexivity | destruct found; reflexivity].
  - destruct H as [-> | ->]; [discriminate | destruct found; discriminate].
Qed.

End CRB_more.

(** ** More of the PAPR virtual TPM *)

Section SPAPR_more.

Import SPAPR.

Variable H_SUCCESS H_BUSY : Z.
Variable TARGET_PAGE_BITS : Z.
Variable tpm_cmd_get_size : list Z -> Z.
Variable overrun : list Z -> SPAPR.behind -> SPAPR.behind.

Local Abbreviation TARGET_PAGE_SIZE := (SPAPR.TARGET_PAGE_SIZE TARGET_PAGE_BITS).
Local Abbreviation sizeof_buffer := (SPAPR.sizeof_buffer TARGET_PAGE_BITS).
Local Abbreviation tpm_spapr_do_crq :=
  (SPAPR.tpm_spapr_do_crq H_SUCCESS H_BUSY TARGET_PAGE_BITS tpm_cmd_get_size
     overrun).
Local Abbreviation _tpm_spapr_request_completed :=
  (SPAPR._tpm_spapr_request_completed H_SUCCESS tpm_cmd_get_size).
Local Abbreviation tpm_spapr_reset := (SPAPR.tpm_spapr_reset TARGET_PAGE_BITS).
Local Abbreviation tpm_spapr_post_load :=
  (SPAPR.tpm_spapr_post_load H_SUCCESS tpm_cmd_get_size).
Local Abbreviation machine_step :=
  (SPAPR.machine_step H_SUCCESS H_BUSY TARGET_PAGE_BITS tpm_cmd_get_size
     overrun).
Local Abbreviation machine_run :=
  (SPAPR.machine_run H_SUCCESS H_BUSY TARGET_PAGE_BITS tpm_cmd_get_size
     overrun).
Local Abbreviation power_on := (SPAPR.power_on TARGET_PAGE_BITS).
Local Abbreviation command_over :=
  (SPAPR.command_over TARGET_PAGE_BITS tpm_cmd_get_size).
Local Abbreviation spill := (SPAPR.spill overrun).

Ltac run_crq :=
  cbv [SPAPR.tpm_spapr_do_crq SPAPR.tpm_spapr_process_cmd
       SPAPR.tpm_spapr_tpm_send SPAPR._tpm_spapr_request_completed
       SPAPR.tpm_spapr_request_completed SPAPR.tpm_spapr_reset
       SPAPR.tpm_spapr_do_startup_tpm SPAPR.tpm_spapr_pre_save
       SPAPR.tpm_spapr_post_load SPAPR.vmstate_save SPAPR.vmstate_load
       SPAPR.vio_dma_read SPAPR.vio_dma_write SPAPR.vio_send_crq
       bind get modify call ret result state_after trace fst snd app].

(** Nothing is written behind the array when nothing runs past its end. *)
Lemma spill_nil (s : SPAPRvTPMState) : spill [] s = s.
Proof. destruct s. reflexivity. Qed.

Lemma no_excess (dev : VIOsPAPRDevice) (taddr size : Z) (array : list Z) :
  reads_within_size dev ->
  size <= Z.of_nat (List.length array) ->
  skipn (List.length array) (snd (dma_read_answer dev taddr size)) = [].
Proof.
  intros Hd Hs. apply skipn_all2. specialize (Hd taddr size). lia.
Qed.

Lemma accepted_effect (dev : VIOsPAPRDevice) (crq_data : TPMSpaprCRQ)
  (s : SPAPRvTPMState) :
  accepts crq_data s = true ->
  let taddr := be32_to_cpu (data crq_data) in
  let answer := dma_read_answer dev taddr (be_buffer_size s) in
  let buf := store (snd answer) (buffer s) in
  let after := spill (skipn (List.length (buffer s)) (snd answer)) s in
  let ok := fst answer =? H_SUCCESS in
  let s' :=
    mkVTPM (if ok then with_valid 0 crq_data else crq_data)
           SPAPR_VTPM_STATE_EXECUTION buf (command_over buf)
           (be_tpm_version after) (be_buffer_size after) (run_bh_func after) in
  let r := tpm_spapr_do_crq dev crq_data s in
  result r = H_SUCCESS
  /\ state_after r = s'
  /\ calls (trace r) =
       [spapr_vio_dma_read taddr (be_buffer_size s);
        tpm_backend_deliver_request (command_over buf)]
       ++ (if ok then []
           else [spapr_vio_send_crq
                   (mkCRQ SPAPR_VTPM_MSG_RESULT SPAPR_VTPM_VTPM_ERROR
                          (len crq_data)
                          (cpu_to_be32 SPAPR_VTPM_ERR_COPY_IN_FAILED)
                          (reserved crq_data))]).
Proof.
  intros H taddr answer buf after ok s' r. unfold accepts in H.
  apply andb_true_iff in H. destruct H as [H Hs].
  apply andb_true_iff in H. destruct H as [Hv Hm].
  apply negb_true_iff in Hs. subst r s' ok after buf.
  unfold SPAPR.tpm_spapr_do_crq. apply Z.eqb_eq in Hv, Hm.
  rewrite Hv, Hm.
  change (SPAPR_VTPM_VALID_COMMAND =? SPAPR_VTPM_VALID_INIT_CRQ_COMMAND)
    with false.
  rewrite !Z.eqb_refl. run_crq. rewrite Hs.
  cbn [set_crq buffer be_buffer_size]. fold taddr. fold answer.
  destruct answer as [rc bytes]. cbn [fst snd]. cbv beta iota zeta.
  unfold SPAPR.command_over.
  destruct (rc =? 0); cbn [negb]; cbv beta iota zeta;
    destruct (rc =? H_SUCCESS); cbn; repeat split.
Qed.


Ltac split_ifs :=
  repeat (cbv beta iota zeta;
          match goal with
          | |- context [if ?b then _ else _] => destruct b eqn:?
          end).

(** *** What a dispatch returns, changes and sends *)

(** X10: a dispatch returns [H_BUSY] exactly for a TPM-command CRQ that
    meets an Executing device, and [H_SUCCESS] for every other message,
    recognised or not, and whatever the DMA read did. *)
Theorem do_crq_return_code (dev : VIOsPAPRDevice) (crq_data : TPMSpaprCRQ)
  (s : SPAPRvTPMState) :
  result (tpm_spapr_do_crq dev crq_data s)
  = (if rejects crq_data s then H_BUSY else H_SUCCESS).
Proof.
  unfold rejects. run_crq.
  destruct (Z.eqb_spec (valid crq_data) SPAPR_VTPM_VALID_INIT_CRQ_COMMAND) as [E | E].
  { rewrite E.
    change (SPAPR_VTPM_VALID_INIT_CRQ_COMMAND =? SPAPR_VTPM_VALID_COMMAND) with false.
    cbn [andb]. split_ifs; reflexivity. }
  destruct (valid crq_data =? SPAPR_VTPM_VALID_COMMAND); [ | reflexivity].
  destruct (msg crq_data =? SPAPR_VTPM_TPM_COMMAND); cbn [andb].
  - destruct (state s =? SPAPR_VTPM_STATE_EXECUTION); [reflexivity | ].
    cbn [set_crq be_buffer_size buffer].
    destruct (dma_read_answer dev _ _) as [rc bytes]. split_ifs; reflexivity.
  - split_ifs; reflexivity.
Qed.

Lemma unaccepted_effect (dev : VIOsPAPRDevice) (crq_data : TPMSpaprCRQ)
  (s : SPAPRvTPMState) :
  accepts crq_data s = false ->
  let r := tpm_spapr_do_crq dev crq_data s in
  state_after r = s
  /\ (trace r = [] \/ exists c, trace r = [spapr_vio_send_crq c])
  /\ (rejects crq_data s = true -> trace r = []).
Proof.
  intros H r. subst r. unfold accepts in H. unfold rejects. run_crq.
  destruct (valid crq_data =? SPAPR_VTPM_VALID_INIT_CRQ_COMMAND) eqn:E0.
  { apply Z.eqb_eq in E0. rewrite E0.
    change (SPAPR_VTPM_VALID_INIT_CRQ_COMMAND =? SPAPR_VTPM_VALID_COMMAND) with false.
    cbn [andb].
    split_ifs; (split; [reflexivity | split; [ | discriminate]]);
      first [left; reflexivity | right; eexists; reflexivity]. }
  destruct (valid crq_data =? SPAPR_VTPM_VALID_COMMAND);
    [ | split; [reflexivity | split; [left; reflexivity | discriminate]]].
  destruct (msg crq_data =? SPAPR_VTPM_TPM_COMMAND); cbn [andb] in H |- *.
  - apply negb_false_iff in H. rewrite H.
    split; [reflexivity | split; [left; reflexivity | reflexivity]].
  - split_ifs; try destruct (be_tpm_version s);
      (split; [reflexivity | split; [ | discriminate]]);
      first [left; reflexivity | right; eexists; reflexivity].
Qed.

(** X11: a dispatch other than an accepted TPM command leaves the whole
    device unchanged, sends at most one CRQ and nothing when it returns
    busy, calls the backend for nothing and reads no guest memory. *)
Theorem do_crq_frame (dev : VIOsPAPRDevice) (crq_data : TPMSpaprCRQ)
  (s : SPAPRvTPMState) :
  accepts crq_data s = false ->
  let r := tpm_spapr_do_crq dev crq_data s in
  state_after r = s
  /\ (trace r = [] \/ exists c, trace r = [spapr_vio_send_crq c])
  /\ (rejects crq_data s = true -> trace r = [])
  /\ filter is_backend_call (trace r) = []
  /\ count is_dma_read (trace r) = 0%nat.
Proof.
  intros Ha r. destruct (unaccepted_effect dev crq_data s Ha) as (S & T & R).
  fold r in S, T, R.
  split; [exact S | ]. split; [exact T | ]. split; [exact R | ].
  destruct T as [T | [c T]]; rewrite T; split; reflexivity.
Qed.

Lemma testbit_lor_result (m : Z) : Z.testbit (Z.lor m SPAPR_VTPM_MSG_RESULT) 7 = true.
Proof. rewrite Z.lor_spec. apply orb_true_r. Qed.

(** X12: a dispatch sends at most one CRQ; a CRQ sent for a command-tag
    request has tag [0x80], the response bit of [msg] set and the request's
    reserved bytes, and unless it is a vTPM error its opcode is the
    request's with the response bit and, except for Get-version, its
    [data] is the request's. *)
Theorem do_crq_command_responses (dev : VIOsPAPRDevice)
  (crq_data : TPMSpaprCRQ) (s : SPAPRvTPMState) :
  let r := tpm_spapr_do_crq dev crq_data s in
  (count is_send_crq (trace r) <= 1)%nat
  /\ (valid crq_data = SPAPR_VTPM_VALID_COMMAND ->
      forall c, In (spapr_vio_send_crq c) (trace r) ->
        valid c = SPAPR_VTPM_VALID_COMMAND
        /\ Z.testbit (msg c) 7 = true
        /\ reserved c = reserved crq_data
        /\ (msg c <> SPAPR_VTPM_VTPM_ERROR ->
            msg c = Z.lor (msg crq_data) SPAPR_VTPM_MSG_RESULT
            /\ (msg crq_data <> SPAPR_VTPM_GET_VERSION ->
                data c = data crq_data))).
Proof.
  intros r. subst r. split.
  - run_crq. split_ifs; try (cbn; lia);
      try (destruct (be_tpm_version s); cbn; lia).
    cbn [set_crq be_buffer_size buffer].
    destruct (dma_read_answer dev _ _) as [rc bytes].
    split_ifs; cbn; lia.
  - intros Hv c. destruct crq_data as [v m l d rsv]. cbn in Hv. subst v.
    unfold SPAPR.tpm_spapr_do_crq. cbv [valid msg len data reserved].
    change (SPAPR_VTPM_VALID_COMMAND =? SPAPR_VTPM_VALID_INIT_CRQ_COMMAND)
      with false.
    change (SPAPR_VTPM_VALID_COMMAND =? SPAPR_VTPM_VALID_COMMAND) with true.
    cbv iota.
    assert (F : forall c0 : TPMSpaprCRQ,
              In (spapr_vio_send_crq c) [spapr_vio_send_crq c0] ->
              valid c0 = SPAPR_VTPM_VALID_COMMAND ->
              Z.testbit (msg c0) 7 = true ->
              reserved c0 = rsv ->
              (msg c0 <> SPAPR_VTPM_VTPM_ERROR ->
               msg c0 = Z.lor m SPAPR_VTPM_MSG_RESULT
               /\ (m <> SPAPR_VTPM_GET_VERSION -> data c0 = d)) ->
              valid c = SPAPR_VTPM_VALID_COMMAND
              /\ Z.testbit (msg c) 7 = true
              /\ reserved c = rsv
              /\ (msg c <> SPAPR_VTPM_VTPM_ERROR ->
                  msg c = Z.lor m SPAPR_VTPM_MSG_RESULT
                  /\ (m <> SPAPR_VTPM_GET_VERSION -> data c = d))).
    { intros c0 [H | []] A B C D. injection H as <-. repeat split; auto;
        apply D; assumption. }
    destruct (m =? SPAPR_VTPM_TPM_COMMAND).
    { run_crq. destruct (state s =? SPAPR_VTPM_STATE_EXECUTION);
        [intros [] | ].
      cbn [set_crq be_buffer_size buffer].
      destruct (dma_read_answer dev _ _) as [rc bytes]. cbv beta iota zeta.
      destruct (rc =? 0); cbn [negb]; cbv beta iota zeta;
        destruct (rc =? H_SUCCESS); cbn [app In];
        intros H; repeat (destruct H as [H | H]; try discriminate H);
        try contradiction;
        (apply (F _ (or_introl H));
         [reflexivity | reflexivity | reflexivity
          | intros N; exfalso; apply N; reflexivity]). }
    destruct (Z.eqb_spec m SPAPR_VTPM_GET_RTCE_BUFFER_SIZE) as [E3 | E3].
    { run_crq. intros H. apply (F _ H);
        [reflexivity | apply testbit_lor_result | reflexivity
         | intros _; split; reflexivity]. }
    destruct (Z.eqb_spec m SPAPR_VTPM_GET_VERSION) as [E1 | E1].
    { run_crq. destruct (be_tpm_version s); intros H; apply (F _ H);
        first [reflexivity | apply testbit_lor_result
              | intros _; (split; [reflexivity | intros N; contradiction])]. }
    destruct (m =? SPAPR_VTPM_PREPARE_TO_SUSPEND).
    { run_crq. intros H. apply (F _ H);
        [reflexivity | apply testbit_lor_result | reflexivity
         | intros _; split; reflexivity]. }
    run_crq. intros [].
Qed.

(** X13: an init CRQ with sub-message result or complete-result is answered
    with a CRQ that is zero but for the init tag and the same sub-message,
    whatever else the request held; any other init sub-message is not
    answered; the device is unchanged either way. *)
Theorem do_crq_init_handshake (dev : VIOsPAPRDevice) (crq_data : TPMSpaprCRQ)
  (s : SPAPRvTPMState) :
  valid crq_data = SPAPR_VTPM_VALID_INIT_CRQ_COMMAND ->
  tpm_spapr_do_crq dev crq_data s
  = (H_SUCCESS, s,
     if (msg crq_data =? SPAPR_VTPM_INIT_CRQ_RESULT)
        || (msg crq_data =? SPAPR_VTPM_INIT_CRQ_COMPLETE_RESULT)
     then [spapr_vio_send_crq
             (mkCRQ SPAPR_VTPM_VALID_INIT_CRQ_COMMAND (msg crq_data)
                    (0, 0) (0, 0, 0, 0) (repeat 0 8))]
     else []).
Proof.
  intros Hv. destruct crq_data as [v m l d rsv]. cbn in Hv. subst v.
  unfold SPAPR.tpm_spapr_do_crq. cbv [valid msg].
  rewrite Z.eqb_refl.
  destruct (Z.eqb_spec m SPAPR_VTPM_INIT_CRQ_RESULT) as [-> | E1];
    [reflexivity | ].
  destruct (Z.eqb_spec m SPAPR_VTPM_INIT_CRQ_COMPLETE_RESULT) as [-> | E2];
    reflexivity.
Qed.

(** X14: a CRQ with a tag other than init and command, or a command CRQ
    with an opcode outside Get-version .. Prepare-to-suspend, is ignored:
    success is returned, nothing is sent, the device is unchanged. *)
Theorem do_crq_ignores_unknown (dev : VIOsPAPRDevice) (crq_data : TPMSpaprCRQ)
  (s : SPAPRvTPMState) :
  (valid crq_data <> SPAPR_VTPM_VALID_INIT_CRQ_COMMAND ->
   valid crq_data <> SPAPR_VTPM_VALID_COMMAND ->
   tpm_spapr_do_crq dev crq_data s = (H_SUCCESS, s, []))
  /\ (valid crq_data = SPAPR_VTPM_VALID_COMMAND ->
      msg crq_data < SPAPR_VTPM_GET_VERSION
      \/ SPAPR_VTPM_PREPARE_TO_SUSPEND < msg crq_data ->
      tpm_spapr_do_crq dev crq_data s = (H_SUCCESS, s, [])).
Proof.
  split.
  - intros H1 H2. apply Z.eqb_neq in H1, H2.
    unfold SPAPR.tpm_spapr_do_crq. rewrite H1, H2. reflexivity.
  - intros Hv Hm. unfold SPAPR.tpm_spapr_do_crq. rewrite Hv.
    change (SPAPR_VTPM_VALID_COMMAND =? SPAPR_VTPM_VALID_INIT_CRQ_COMMAND)
      with false.
    rewrite Z.eqb_refl.
    change SPAPR_VTPM_GET_VERSION with 1 in *.
    change SPAPR_VTPM_PREPARE_TO_SUSPEND with 4 in *.
    change SPAPR_VTPM_TPM_COMMAND with 2.
    change SPAPR_VTPM_GET_RTCE_BUFFER_SIZE with 3.
    replace (msg crq_data =? 2) with false by (symmetry; apply Z.eqb_neq; lia).
    replace (msg crq_data =? 3) with false by (symmetry; apply Z.eqb_neq; lia).
    replace (msg crq_data =? 1) with false by (symmetry; apply Z.eqb_neq; lia).
    replace (msg crq_data =? 4) with false by (symmetry; apply Z.eqb_neq; lia).
    reflexivity.
Qed.


(** *** Traces without their error reports *)

Lemma delivered_calls (t : list event) : delivered (calls t) = delivered t.
Proof.
  unfold calls. induction t as [ | e t IH]; [reflexivity | ].
  destruct e; cbn; rewrite ?IH; reflexivity.
Qed.

Lemma count_send_calls (t : list event) :
  count is_send_crq (calls t) = count is_send_crq t.
Proof.
  unfold count, calls. induction t as [ | e t IH]; [reflexivity | ].
  destruct e; cbn; rewrite ?IH; reflexivity.
Qed.

Lemma in_calls (e : event) (t : list event) :
  is_error_report e = false -> In e t -> In e (calls t).
Proof.
  intros H I. unfold calls. apply filter_In. split; [exact I | ].
  rewrite H. reflexivity.
Qed.

Lemma store_length (bytes array : list Z) :
  List.length (store bytes array) = List.length array.
Proof.
  unfold store. rewrite length_firstn, length_app, length_skipn. lia.
Qed.

(** *** An accepted TPM command *)

(** X15: a TPM command that is accepted and whose payload is read without
    error sends no CRQ: the request is saved with its tag byte zeroed, the
    payload is read from the address in [data] with the negotiated size,
    the array takes the bytes that fit and keeps its size, the device is
    Executing, and one command over the scratch buffer is handed to the
    backend.  When no byte runs past the end of the array the cached
    version, the negotiated size and the replay flag are unchanged; when
    some do, those members are what the bytes written over them make of
    them. *)
Theorem crq_command_accepted (dev : VIOsPAPRDevice) (crq_data : TPMSpaprCRQ)
  (s : SPAPRvTPMState) :
  accepts crq_data s = true ->
  let taddr := be32_to_cpu (data crq_data) in
  let answer := dma_read_answer dev taddr (be_buffer_size s) in
  let buf := store (snd answer) (buffer s) in
  let excess := skipn (List.length (buffer s)) (snd answer) in
  fst answer = H_SUCCESS ->
  let r := tpm_spapr_do_crq dev crq_data s in
  let s' := state_after r in
  result r = H_SUCCESS
  /\ crq s' = mkCRQ 0 (msg crq_data) (len crq_data) (data crq_data)
                    (reserved crq_data)
  /\ state s' = SPAPR_VTPM_STATE_EXECUTION
  /\ buffer s' = buf
  /\ List.length buf = List.length (buffer s)
  /\ cmd s' = command_over buf
  /\ calls (trace r)
     = [spapr_vio_dma_read taddr (be_buffer_size s);
        tpm_backend_deliver_request (command_over buf)]
  /\ count is_send_crq (trace r) = 0%nat
  /\ (excess = [] ->
      s' = mkVTPM (mkCRQ 0 (msg crq_data) (len crq_data) (data crq_data)
                         (reserved crq_data))
                  SPAPR_VTPM_STATE_EXECUTION buf (command_over buf)
                  (be_tpm_version s) (be_buffer_size s) (run_bh_func s))
  /\ (excess <> [] ->
      let b := overrun excess (behind_of s) in
      s' = mkVTPM (mkCRQ 0 (msg crq_data) (len crq_data) (data crq_data)
                         (reserved crq_data))
                  SPAPR_VTPM_STATE_EXECUTION buf (command_over buf)
                  (behind_be_tpm_version b) (behind_be_buffer_size b)
                  (behind_run_bh_func b)).
Proof.
  intros Ha taddr answer buf excess Hrc r s'.
  destruct (accepted_effect dev crq_data s Ha) as (R & S & C).
  fold taddr in R, S, C. fold answer in R, S, C. fold buf in S, C.
  fold excess in S. fold r in R, S, C. fold s' in S.
  rewrite Hrc, Z.eqb_refl in S, C.
  split; [exact R | ].
  split; [rewrite S; reflexivity | ]. split; [rewrite S; reflexivity | ].
  split; [rewrite S; reflexivity | ]. split; [apply store_length | ].
  split; [rewrite S; reflexivity | ]. split; [exact C | ].
  split; [rewrite <- count_send_calls, C; reflexivity | ].
  split.
  - intros E. rewrite S, E, spill_nil. reflexivity.
  - intros N. rewrite S. destruct excess as [ | x rest]; [contradiction | ].
    reflexivity.
Qed.

Lemma delivered_by_do_crq (dev : VIOsPAPRDevice) (crq_data : TPMSpaprCRQ)
  (s : SPAPRvTPMState) :
  let r := tpm_spapr_do_crq dev crq_data s in
  delivered (trace r)
  = (if accepts crq_data s
     then [command_over (buffer (state_after r))] else []).
Proof.
  intros r. destruct (accepts crq_data s) eqn:Ha.
  - destruct (accepted_effect dev crq_data s Ha) as (_ & S & C).
    cbv zeta in S, C. fold r in S, C.
    rewrite <- delivered_calls, C, S. cbn [buffer].
    destruct (fst (dma_read_answer dev _ _) =? H_SUCCESS); reflexivity.
  - destruct (unaccepted_effect dev crq_data s Ha) as (_ & T & _). fold r in T.
    destruct T as [T | [c T]]; rewrite T; reflexivity.
Qed.

(** X16: a dispatch hands the backend at most one command, and that one
    reads and writes the scratch buffer with
    [0 <= in_len <= out_len <= sizeof(buffer)]; a DMA read it issues reads
    the negotiated size from the address in the request's [data]. *)
Theorem crq_commands_fit_the_scratch_buffer (dev : VIOsPAPRDevice)
  (crq_data : TPMSpaprCRQ) (s : SPAPRvTPMState) :
  let r := tpm_spapr_do_crq dev crq_data s in
  Forall (within spapr_buffer sizeof_buffer) (delivered (trace r))
  /\ (List.length (delivered (trace r)) <= 1)%nat
  /\ (forall taddr size, In (spapr_vio_dma_read taddr size) (trace r) ->
        taddr = be32_to_cpu (data crq_data) /\ size = be_buffer_size s).
Proof.
  intros r. pose proof (delivered_by_do_crq dev crq_data s) as D.
  cbv zeta in D. fold r in D.
  destruct (accepts crq_data s) eqn:Ha.
  - destruct (accepted_effect dev crq_data s Ha) as (_ & _ & C).
    cbv zeta in C. fold r in C. rewrite D.
    split; [ | split; [cbn; lia | ]].
    + constructor; [ | constructor].
      pose proof (uint32_t_range (tpm_cmd_get_size (buffer (state_after r)))) as U.
      assert (P : 0 <= sizeof_buffer)
        by (unfold SPAPR.sizeof_buffer, SPAPR.MAX_BUFFER_SIZE,
              SPAPR.TARGET_PAGE_SIZE; apply Z.shiftl_nonneg; lia).
      unfold within, SPAPR.command_over. cbn [cmd_in cmd_out in_len out_len].
      rewrite MIN_min. repeat split; lia.
    + intros taddr size I. apply in_calls in I; [ | reflexivity].
      rewrite C in I.
      destruct (fst (dma_read_answer dev _ _) =? H_SUCCESS); cbn in I;
        repeat (destruct I as [I | I]; try discriminate I);
        try contradiction; injection I as <- <-; split; reflexivity.
  - rewrite D. destruct (unaccepted_effect dev crq_data s Ha) as (_ & T & _).
    fold r in T.
    split; [constructor | split; [cbn; lia | ]].
    destruct T as [T | [c T]]; rewrite T;
      intros taddr size I; repeat (destruct I as [I | I]; try discriminate I);
      contradiction.
Qed.

(** *** Completion *)

Lemma completed_keeps (dev : VIOsPAPRDevice) (s : SPAPRvTPMState) :
  let s' := state_after (_tpm_spapr_request_completed dev s) in
  be_buffer_size s' = be_buffer_size s
  /\ be_tpm_version s' = be_tpm_version s
  /\ run_bh_func s' = run_bh_func s
  /\ buffer s' = buffer s
  /\ cmd s' = cmd s
  /\ state s' = SPAPR_VTPM_STATE_COMPLETION.
Proof.
  intros s'. subst s'.
  destruct (Z.eq_dec
              (dma_write_answer dev (be32_to_cpu (data (crq s))) (buffer s)
                 (uint32_t (MIN (uint32_t (tpm_cmd_get_size (buffer s)))
                                (be_buffer_size s)))) H_SUCCESS) as [Hok | Hko].
  - destruct (completed_effect_ok H_SUCCESS tpm_cmd_get_size dev s Hok)
      as [S _]. rewrite S. repeat split.
  - destruct (completed_effect_failed H_SUCCESS tpm_cmd_get_size dev s Hko)
      as [S _]. rewrite S. repeat split.
Qed.

(** X17: the completion callback's effect on the device and its calls
    depend on the bus only through the outcome of the DMA write: a failed
    CRQ send changes nothing but the log.  The callback leaves the scratch
    buffer, the command, the negotiated size, the cached version and the
    replay flag alone and makes no backend call. *)
Theorem crq_completion_depends_on_the_write_only (dev dev' : VIOsPAPRDevice)
  (s : SPAPRvTPMState) :
  let n := uint32_t (MIN (uint32_t (tpm_cmd_get_size (buffer s)))
                         (be_buffer_size s)) in
  let taddr := be32_to_cpu (data (crq s)) in
  dma_write_answer dev taddr (buffer s) n
    = dma_write_answer dev' taddr (buffer s) n ->
  let r := _tpm_spapr_request_completed dev s in
  let r' := _tpm_spapr_request_completed dev' s in
  state_after r = state_after r'
  /\ calls (trace r) = calls (trace r')
  /\ buffer (state_after r) = buffer s
  /\ cmd (state_after r) = cmd s
  /\ be_buffer_size (state_after r) = be_buffer_size s
  /\ be_tpm_version (state_after r) = be_tpm_version s
  /\ run_bh_func (state_after r) = run_bh_func s
  /\ filter is_backend_call (trace r) = [].
Proof.
  intros n taddr E r r'.
  assert (B : filter is_backend_call (trace r) = []).
  { subst r. run_crq.
    match goal with |- context [dma_write_answer ?d ?a ?b ?k =? H_SUCCESS] =>
      destruct (dma_write_answer d a b k =? H_SUCCESS) end; cbn;
    match goal with |- context [send_crq_answer ?d ?c =? 0] =>
      destruct (send_crq_answer d c =? 0) end; reflexivity. }
  destruct (Z.eq_dec (dma_write_answer dev taddr (buffer s) n) H_SUCCESS)
    as [Hok | Hko].
  - destruct (completed_effect_ok H_SUCCESS tpm_cmd_get_size dev s Hok)
      as [S T].
    destruct (completed_effect_ok H_SUCCESS tpm_cmd_get_size dev' s)
      as [S' T']; [fold n; fold taddr; rewrite <- E; exact Hok | ].
    fold r in S, T. fold r' in S', T'. rewrite T, T', S, S'.
    repeat split; try reflexivity. exact B.
  - destruct (completed_effect_failed H_SUCCESS tpm_cmd_get_size dev s Hko)
      as [S T].
    destruct (completed_effect_failed H_SUCCESS tpm_cmd_get_size dev' s)
      as [S' T']; [fold n; fold taddr; rewrite <- E; exact Hko | ].
    fold r in S, T. fold r' in S', T'. rewrite T, T', S, S'.
    repeat split; try reflexivity. exact B.
Qed.


(** *** Runs of the device with its backend *)

Lemma do_crq_keeps (dev : VIOsPAPRDevice) (crq_data : TPMSpaprCRQ)
  (s : SPAPRvTPMState) :
  reads_within_size dev ->
  be_buffer_size s <= Z.of_nat (List.length (buffer s)) ->
  let s' := state_after (tpm_spapr_do_crq dev crq_data s) in
  be_buffer_size s' = be_buffer_size s
  /\ be_tpm_version s' = be_tpm_version s
  /\ run_bh_func s' = run_bh_func s
  /\ List.length (buffer s') = List.length (buffer s)
  /\ (state s' = state s \/ state s' = SPAPR_VTPM_STATE_EXECUTION).
Proof.
  intros Hd Hb s'. subst s'. destruct (accepts crq_data s) eqn:Ha.
  - destruct (accepted_effect dev crq_data s Ha) as (_ & S & _).
    cbv zeta in S. rewrite S.
    rewrite (no_excess dev _ _ (buffer s) Hd Hb), spill_nil.
    cbn. rewrite store_length.
    repeat split; try reflexivity. right. reflexivity.
  - destruct (unaccepted_effect dev crq_data s Ha) as (S & _). rewrite S.
    repeat split; try reflexivity. left. reflexivity.
Qed.

Lemma machine_step_settled (s0 : SPAPRvTPMState) (m : machine) (e : stimulus) :
  be_buffer_size s0 <= Z.of_nat (List.length (buffer s0)) ->
  buses_read_within_size [e] ->
  settled s0 m -> settled s0 (machine_step m e).
Proof.
  intros Hb He (A & B & C & D & E & F). apply Forall_inv in He.
  destruct e as [dev crq_data | dev response].
  - cbn [SPAPR.machine_step].
    destruct (do_crq_keeps dev crq_data (device m) He)
      as (A' & B' & C' & D' & E'); [rewrite A, D; exact Hb | ].
    unfold settled. cbn [device in_flight].
    rewrite A', B', C', D'. repeat split; try assumption.
    + destruct E' as [-> | ->]; [exact E | right; left; reflexivity].
    + intros X.
      pose proof (delivered_by_do_crq dev crq_data (device m)) as G.
      cbv zeta in G. rewrite G.
      destruct (accepts crq_data (device m)) eqn:Ha.
      * intros N. apply app_eq_nil in N. destruct N as [_ N]. discriminate N.
      * rewrite app_nil_r.
        destruct (unaccepted_effect dev crq_data (device m) Ha) as (S & _).
        rewrite S in X. apply F, X.
  - cbn [SPAPR.machine_step]. destruct (in_flight m) as [ | c rest] eqn:I.
    + unfold settled. rewrite I. repeat split; assumption.
    + unfold SPAPR.tpm_spapr_request_completed.
      destruct (completed_keeps dev
                  (set_buffer (store response (buffer (device m))) (device m)))
        as (A' & B' & C' & D' & _ & E').
      unfold settled. cbn [device in_flight].
      rewrite A', B', C', D', E'. cbn [set_buffer be_buffer_size
        be_tpm_version run_bh_func buffer]. rewrite store_length.
      repeat split; try assumption.
      * right. right. left. reflexivity.
      * intros X. discriminate X.
Qed.

(** X18: on a device whose scratch buffer is one page, reset against a
    backend that works with no more than one page, and through any sequence
    of dispatches and completions that follows over buses that transfer no
    more than they are asked for: the negotiated size stays the size of the
    scratch buffer and the cached version stays as reset set it, the replay
    flag and the size of the scratch buffer stay as they were, the state is
    one of None, Executing and Completed, and the device is Executing
    exactly while a command is with the backend. *)
Theorem crq_run_keeps_what_reset_set (be : TPMBackend) (s : SPAPRvTPMState)
  (es : list stimulus) :
  0 <= TARGET_PAGE_BITS < 64 ->
  0 <= tpm_backend_get_buffer_size be <= TARGET_PAGE_SIZE ->
  Z.of_nat (List.length (buffer s)) = sizeof_buffer ->
  buses_read_within_size es ->
  let s0 := state_after (tpm_spapr_reset be s) in
  let m := machine_run (power_on be s) es in
  be_buffer_size s0 = sizeof_buffer
  /\ be_buffer_size (device m) = sizeof_buffer
  /\ be_tpm_version (device m) = tpm_backend_get_tpm_version be
  /\ run_bh_func (device m) = run_bh_func s
  /\ List.length (buffer (device m)) = List.length (buffer s)
  /\ In (state (device m))
        [SPAPR_VTPM_STATE_NONE; SPAPR_VTPM_STATE_EXECUTION;
         SPAPR_VTPM_STATE_COMPLETION]
  /\ (state (device m) = SPAPR_VTPM_STATE_EXECUTION <-> in_flight m <> []).
Proof.
  intros Hk HB Hl Hes s0 m.
  assert (Hs0 : s0 = set_be_buffer_size
                       (MAX (ROUND_UP (tpm_backend_get_buffer_size be)
                                      TARGET_PAGE_SIZE) sizeof_buffer)
                       (set_be_tpm_version (tpm_backend_get_tpm_version be)
                          (set_state SPAPR_VTPM_STATE_NONE s)))
    by (subst s0; rewrite (reset_effect TARGET_PAGE_BITS); reflexivity).
  assert (Hn : be_buffer_size s0 = sizeof_buffer).
  { rewrite Hs0. cbn [be_buffer_size set_be_buffer_size]. rewrite MAX_max.
    assert (Hp : 0 < TARGET_PAGE_SIZE).
    { unfold SPAPR.TARGET_PAGE_SIZE. rewrite Z.shiftl_mul_pow2 by lia.
      pose proof (Z.pow_pos_nonneg 2 TARGET_PAGE_BITS). lia. }
    destruct (ROUND_UP_page TARGET_PAGE_BITS (tpm_backend_get_buffer_size be)
                Hk) as (_ & HR & Hlo & Hhi);
      [lia | change (2 ^ 64) with 18446744073709551616 | ].
    { unfold SPAPR.TARGET_PAGE_SIZE in *. rewrite Z.shiftl_mul_pow2 in * by lia.
      assert (2 ^ TARGET_PAGE_BITS <= 2 ^ 63)
        by (apply Z.pow_le_mono_r; lia).
      change (2 ^ 63) with 9223372036854775808 in *. lia. }
    change sizeof_buffer with TARGET_PAGE_SIZE.
    assert (ROUND_UP (tpm_backend_get_buffer_size be) TARGET_PAGE_SIZE
            <= TARGET_PAGE_SIZE); [ | lia].
    rewrite HR in *.
    assert ((tpm_backend_get_buffer_size be + TARGET_PAGE_SIZE - 1)
            / TARGET_PAGE_SIZE < 2); [ | nia].
    apply Z.div_lt_upper_bound; lia. }
  assert (Hb0 : be_buffer_size s0 <= Z.of_nat (List.length (buffer s0))).
  { rewrite Hn, Hs0. cbn [buffer set_be_buffer_size set_be_tpm_version set_state].
    lia. }
  assert (G : forall es m, buses_read_within_size es ->
                settled s0 m -> settled s0 (machine_run m es)).
  { clear - Hb0. intros es. induction es as [ | e es IH]; intros m He H;
      [exact H | ].
    inversion He as [ | x l He1 He2]; subst.
    cbn. apply IH; [exact He2 | ].
    apply machine_step_settled; [exact Hb0 | | exact H].
    constructor; [exact He1 | constructor]. }
  assert (I : settled s0 (power_on be s)).
  { unfold settled, SPAPR.power_on. cbn [device in_flight]. fold s0.
    repeat split; try reflexivity.
    - rewrite Hs0. left. reflexivity.
    - rewrite Hs0. intros X. discriminate X. }
  destruct (G es _ Hes I) as (A & B & C & D & E & F).
  fold m in A, B, C, D, E, F.
  split; [exact Hn | ]. split; [rewrite A; exact Hn | ].
  split; [rewrite B, Hs0; reflexivity | ].
  split; [rewrite C, Hs0; reflexivity | ].
  split; [rewrite D, Hs0; reflexivity | ].
  split; [exact E | ]. split; [exact F | ].
  pose proof (machine_run_one_in_flight H_SUCCESS H_BUSY TARGET_PAGE_BITS
                tpm_cmd_get_size overrun es (power_on be s)
                (power_on_one_in_flight TARGET_PAGE_BITS be s)) as [_ O].
  exact O.
Qed.

Lemma guests_cannot_disturb (es : list stimulus) (m : machine) :
  state (device m) = SPAPR_VTPM_STATE_EXECUTION ->
  forallb is_guest_crq es = true ->
  machine_run m es = m.
Proof.
  revert m. induction es as [ | e es IH]; intros m X G; [reflexivity | ].
  cbn [forallb] in G. apply andb_true_iff in G. destruct G as [G1 G2].
  destruct e as [dev crq_data | dev response]; [ | discriminate G1].
  assert (Ha : accepts crq_data (device m) = false).
  { unfold SPAPR.accepts. rewrite X, Z.eqb_refl. apply andb_false_r. }
  assert (S : machine_step m (guest_crq dev crq_data) = m).
  { cbn [SPAPR.machine_step].
    destruct (unaccepted_effect dev crq_data (device m) Ha) as (S & _).
    pose proof (delivered_by_do_crq dev crq_data (device m)) as D.
    cbv zeta in D.
    rewrite S, D, Ha, app_nil_r. destruct m; reflexivity. }
  cbn [SPAPR.machine_run fold_left]. rewrite S. apply IH; assumption.
Qed.

(** X19: once a TPM command is accepted, no further guest CRQ changes the
    device or reaches the backend until the completion; the completion then
    writes to the address of the accepted request and sends a result CRQ
    with that request's reserved bytes and, unless the write failed, its
    [data]. *)
Theorem crq_response_answers_the_request (dev0 dev : VIOsPAPRDevice)
  (crq_data : TPMSpaprCRQ) (s0 : SPAPRvTPMState) (es : list stimulus)
  (response : list Z) :
  accepts crq_data s0 = true ->
  forallb is_guest_crq es = true ->
  let m1 := machine_run (mkMachine s0 []) (guest_crq dev0 crq_data :: es) in
  let s1 := device m1 in
  let answered := set_buffer (store response (buffer s1)) s1 in
  let r := _tpm_spapr_request_completed dev answered in
  m1 = machine_step (mkMachine s0 []) (guest_crq dev0 crq_data)
  /\ state s1 = SPAPR_VTPM_STATE_EXECUTION
  /\ in_flight m1 = [command_over (buffer s1)]
  /\ machine_step m1 (backend_done dev response) = mkMachine (state_after r) []
  /\ (exists n,
        calls (trace r)
        = [spapr_vio_dma_write (be32_to_cpu (data crq_data))
             (store response (buffer s1)) n;
           spapr_vio_send_crq (crq (state_after r))])
  /\ valid (crq (state_after r)) = SPAPR_VTPM_MSG_RESULT
  /\ reserved (crq (state_after r)) = reserved crq_data
  /\ (msg (crq (state_after r)) <> SPAPR_VTPM_VTPM_ERROR ->
      data (crq (state_after r)) = data crq_data).
Proof.
  intros Ha G m1 s1 answered r.
  set (m := machine_step (mkMachine s0 []) (guest_crq dev0 crq_data)).
  destruct (accepted_effect dev0 crq_data s0 Ha) as (_ & S & _).
  cbv zeta in S.
  pose proof (delivered_by_do_crq dev0 crq_data s0) as D.
  cbv zeta in D. rewrite Ha in D.
  assert (Em : m = mkMachine (state_after (tpm_spapr_do_crq dev0 crq_data s0))
                 [command_over
                    (buffer (state_after (tpm_spapr_do_crq dev0 crq_data s0)))]).
  { subst m. cbn [SPAPR.machine_step device in_flight]. rewrite D.
    reflexivity. }
  assert (X : state (device m) = SPAPR_VTPM_STATE_EXECUTION).
  { rewrite Em. cbn [device]. rewrite S. reflexivity. }
  assert (E1 : m1 = m).
  { subst m1. cbn [SPAPR.machine_run fold_left]. fold m.
    apply (guests_cannot_disturb es m X G). }
  assert (Dt : data (crq s1) = data crq_data
               /\ reserved (crq s1) = reserved crq_data).
  { subst s1. rewrite E1, Em. cbn [device]. rewrite S. cbn [crq].
    destruct (fst (dma_read_answer dev0 _ _) =? H_SUCCESS);
      split; reflexivity. }
  destruct Dt as [Dd Dr].
  split; [exact E1 | ]. split; [subst s1; rewrite E1; exact X | ].
  split; [subst s1; rewrite E1, Em; reflexivity | ].
  split.
  { cbn [SPAPR.machine_step]. subst r answered s1.
    rewrite E1, Em. reflexivity. }
  set (n := uint32_t (MIN (uint32_t (tpm_cmd_get_size (buffer answered)))
                          (be_buffer_size answered))).
  destruct (Z.eq_dec (dma_write_answer dev (be32_to_cpu (data (crq answered)))
                        (buffer answered) n) H_SUCCESS) as [Hok | Hko].
  - destruct (completed_effect_ok H_SUCCESS tpm_cmd_get_size dev answered Hok)
      as [Sr Tr]. fold r in Sr, Tr. fold n in Sr, Tr.
    split; [exists n; rewrite Tr; subst answered; cbn [crq buffer set_buffer];
            rewrite Dd; reflexivity | ].
    rewrite Sr. cbn [crq set_crq valid reserved msg data].
    subst answered. cbn [crq set_buffer].
    repeat split; first [reflexivity | assumption | intros; assumption].
  - destruct (completed_effect_failed H_SUCCESS tpm_cmd_get_size dev answered Hko)
      as [Sr Tr]. fold r in Sr, Tr. fold n in Sr, Tr.
    split; [exists n; rewrite Tr; subst answered; cbn [crq buffer set_buffer];
            rewrite Dd; reflexivity | ].
    rewrite Sr. cbn [crq set_crq valid reserved msg data].
    subst answered. cbn [crq set_buffer].
    repeat split; first [reflexivity | assumption | idtac].
    intros N. exfalso. apply N. reflexivity.
Qed.


(** *** Reset, restore and the buffer-size query *)

(** X20: reset puts the state to None from any state and leaves the saved
    CRQ, the scratch buffer, the command and the replay flag alone; a second
    reset against the same backend changes nothing more; a TPM command that
    follows a reset is accepted. *)
Theorem crq_reset_unblocks (be : TPMBackend) (s : SPAPRvTPMState)
  (dev : VIOsPAPRDevice) (crq_data : TPMSpaprCRQ) :
  valid crq_data = SPAPR_VTPM_VALID_COMMAND ->
  msg crq_data = SPAPR_VTPM_TPM_COMMAND ->
  let s1 := state_after (tpm_spapr_reset be s) in
  let r := tpm_spapr_do_crq dev crq_data s1 in
  state s1 = SPAPR_VTPM_STATE_NONE
  /\ crq s1 = crq s /\ buffer s1 = buffer s /\ cmd s1 = cmd s
  /\ run_bh_func s1 = run_bh_func s
  /\ state_after (tpm_spapr_reset be s1) = s1
  /\ result r = H_SUCCESS
  /\ state (state_after r) = SPAPR_VTPM_STATE_EXECUTION
  /\ delivered (trace r) = [command_over (buffer (state_after r))].
Proof.
  intros Hv Hm s1 r.
  assert (E : s1 = set_be_buffer_size
                     (MAX (ROUND_UP (tpm_backend_get_buffer_size be)
                                    TARGET_PAGE_SIZE) sizeof_buffer)
                     (set_be_tpm_version (tpm_backend_get_tpm_version be)
                        (set_state SPAPR_VTPM_STATE_NONE s)))
    by (subst s1; rewrite (reset_effect TARGET_PAGE_BITS); reflexivity).
  assert (Ha : accepts crq_data s1 = true).
  { unfold SPAPR.accepts. rewrite Hv, Hm, E. reflexivity. }
  destruct (accepted_effect dev crq_data s1 Ha) as (R & S & _).
  cbv zeta in R, S. fold r in R, S.
  pose proof (delivered_by_do_crq dev crq_data s1) as D.
  cbv zeta in D. fold r in D. rewrite Ha in D.
  repeat split; try (rewrite E; reflexivity); try assumption.
  rewrite S. reflexivity.
Qed.

(** X21: post-load does not clear the replay flag: two loads in a row each
    run the completion path, two DMA writes and two CRQ sends in all, when
    the flag is set, and none when it is not. *)
Theorem crq_post_load_keeps_the_flag (dev dev' : VIOsPAPRDevice)
  (version_id : Z) (s : SPAPRvTPMState) :
  let r1 := tpm_spapr_post_load dev version_id s in
  let r2 := tpm_spapr_post_load dev' version_id (state_after r1) in
  run_bh_func (state_after r1) = run_bh_func s
  /\ count is_send_crq (trace r1 ++ trace r2)
     = (if run_bh_func s then 2%nat else 0%nat)
  /\ count is_dma_write (trace r1 ++ trace r2)
     = (if run_bh_func s then 2%nat else 0%nat).
Proof.
  intros r1 r2.
  assert (K : run_bh_func (state_after r1) = run_bh_func s).
  { subst r1. rewrite (post_load_effect H_SUCCESS tpm_cmd_get_size).
    destruct (run_bh_func s) eqn:F; cbv [state_after fst snd]; [ | exact F].
    destruct (completed_keeps dev s) as (_ & _ & C & _).
    cbv [state_after fst snd] in C. rewrite C. exact F. }
  split; [exact K | ].
  subst r2. rewrite !count_app.
  rewrite (post_load_effect H_SUCCESS tpm_cmd_get_size dev' version_id).
  rewrite K. subst r1.
  rewrite (post_load_effect H_SUCCESS tpm_cmd_get_size dev version_id).
  destruct (run_bh_func s); [ | split; reflexivity].
  cbv [trace snd].
  destruct (completed_counts H_SUCCESS tpm_cmd_get_size dev s) as [A B].
  cbv [trace snd] in A, B. rewrite A, B.
  match goal with
  | |- context [SPAPR._tpm_spapr_request_completed _ _ dev' ?x] =>
      destruct (completed_counts H_SUCCESS tpm_cmd_get_size dev' x) as [A' B']
  end.
  cbv [trace snd state_after fst] in A', B' |- *. rewrite A', B'.
  split; reflexivity.
Qed.

(** X22: after a reset against a backend whose buffer size plus one page is
    below 65536, the Get-RTCE-buffer-size response carries exactly the
    negotiated size, a multiple of the page size not below the backend's
    size, and echoes the request's tag, [data] and reserved bytes. *)
Theorem crq_rtce_buffer_size_exact (dev : VIOsPAPRDevice)
  (crq_data : TPMSpaprCRQ) (s : SPAPRvTPMState) (be : TPMBackend) :
  0 <= TARGET_PAGE_BITS < 64 ->
  0 <= tpm_backend_get_buffer_size be ->
  tpm_backend_get_buffer_size be + TARGET_PAGE_SIZE < 2 ^ 16 ->
  valid crq_data = SPAPR_VTPM_VALID_COMMAND ->
  msg crq_data = SPAPR_VTPM_GET_RTCE_BUFFER_SIZE ->
  let s1 := state_after (tpm_spapr_reset be s) in
  exists c,
    tpm_spapr_do_crq dev crq_data s1 = (H_SUCCESS, s1, [spapr_vio_send_crq c])
    /\ be16_to_cpu (len c) = be_buffer_size s1
    /\ tpm_backend_get_buffer_size be <= be16_to_cpu (len c)
    /\ be16_to_cpu (len c) mod TARGET_PAGE_SIZE = 0
    /\ valid c = valid crq_data /\ data c = data crq_data
    /\ reserved c = reserved crq_data.
Proof.
  intros Hk HB Hs Hv Hm s1.
  eexists. split;
    [apply (get_rtce_buffer_size_response H_SUCCESS H_BUSY TARGET_PAGE_BITS
              tpm_cmd_get_size); assumption | ].
  cbn [len valid data reserved].
  assert (E : be_buffer_size s1
              = Z.max (ROUND_UP (tpm_backend_get_buffer_size be)
                                TARGET_PAGE_SIZE) TARGET_PAGE_SIZE).
  { subst s1. rewrite (reset_effect TARGET_PAGE_BITS).
    cbv [state_after fst snd]. cbn [be_buffer_size set_be_buffer_size].
    rewrite MAX_max. reflexivity. }
  destruct (ROUND_UP_page TARGET_PAGE_BITS (tpm_backend_get_buffer_size be)
              Hk HB) as (Hp & HR & Hlo & Hhi);
    [change (2 ^ 64) with 18446744073709551616;
     change (2 ^ 16) with 65536 in Hs; lia | ].
  assert (R : be16_to_cpu (cpu_to_be16 (be_buffer_size s1)) = be_buffer_size s1).
  { rewrite be16_roundtrip. apply Z.mod_small. rewrite E. lia. }
  rewrite R. repeat split; try reflexivity.
  - rewrite E. lia.
  - rewrite E.
    destruct (Z.max_spec (ROUND_UP (tpm_backend_get_buffer_size be)
                                   TARGET_PAGE_SIZE) TARGET_PAGE_SIZE)
      as [[_ ->] | [_ ->]].
    + apply Z.mod_same. lia.
    + rewrite HR, Z.mul_comm. apply Z.mod_mul. lia.
Qed.

End SPAPR_more.

(** ** Further worked examples *)

Lemma addr_desc_names_the_member_witness :
  0 <= 0x4c
  /\ 0x4c < CRB.offsetof "reserved3"
  /\ CRB.addr_desc 0x4c = Some "ctrl_start"%string
  /\ CRB.addr_desc 0x4c <> None.
Proof.
  assert (H0 : 0 <= 0x4c) by lia.
  assert (H1 : 0x4c < CRB.offsetof "reserved3") by evaluate.
  split; [exact H0 | ]. split; [exact H1 | ].
  destruct (addr_desc_names_the_member 0x4c H0) as (A & B & _).
  split; [exact A | exact (B H1)].
Defined.

Lemma mmio_read_bytes_witness :
  let s := state_after (Example.crb_reset (Example.tpm2 4096 false)
                          Example.crb0) in
  let a := CRB.offsetof "intf_id_low" in
  0 <= a /\ a mod 4 = 0 /\ 0 <= CRB.word_at (CRB.regs s) a < 2 ^ 32
  /\ CRB.tpm_crb_mmio_read (a + 1) 1 s
     = (Z.shiftr (CRB.intf_id_low (CRB.regs s)) 8, s, []).
Proof.
  cbv zeta.
  assert (H0 : 0 <= CRB.offsetof "intf_id_low") by evaluate.
  assert (H1 : CRB.offsetof "intf_id_low" mod 4 = 0) by evaluate.
  assert (H2 : 0 <= CRB.word_at
                      (CRB.regs (state_after
                         (Example.crb_reset (Example.tpm2 4096 false)
                            Example.crb0)))
                      (CRB.offsetof "intf_id_low") < 2 ^ 32) by evaluate.
  split; [exact H0 | ]. split; [exact H1 | ]. split; [exact H2 | ].
  destruct (mmio_read_bytes _ _ H0 H1 H2) as [R _].
  apply (R 1 1). lia.
Defined.

Lemma mmio_write_ignored_witness :
  0x50 <> CRB.CRB_ADDR_LOC_CTRL /\ 0x50 <> CRB.CRB_ADDR_CTRL_REQ
  /\ 0x50 <> CRB.CRB_ADDR_CTRL_CANCEL /\ 0x50 <> CRB.CRB_ADDR_CTRL_START
  /\ CRB.started Example.crb0 = false
  /\ Example.crb_write 0x50 1 4 Example.crb_started
     = (tt, Example.crb_started, [])
  /\ Example.crb_write CRB.CRB_ADDR_CTRL_START 3 4 Example.crb0
     = (tt, Example.crb0, [])
  /\ Example.crb_write CRB.CRB_ADDR_CTRL_START 2 4 Example.crb0
     = (tt, Example.crb0, [])
  /\ Example.crb_write CRB.CRB_ADDR_CTRL_CANCEL 1 4 Example.crb0
     = (tt, Example.crb0, []).
Proof.
  assert (A1 : 0x50 <> CRB.CRB_ADDR_LOC_CTRL) by evaluate.
  assert (A2 : 0x50 <> CRB.CRB_ADDR_CTRL_REQ) by evaluate.
  assert (A3 : 0x50 <> CRB.CRB_ADDR_CTRL_CANCEL) by evaluate.
  assert (A4 : 0x50 <> CRB.CRB_ADDR_CTRL_START) by evaluate.
  assert (A5 : CRB.started Example.crb0 = false) by reflexivity.
  assert (A6 : CRB.CRB_ADDR_CTRL_START <> CRB.CRB_ADDR_CTRL_REQ) by evaluate.
  repeat (split; [assumption | ]).
  destruct (mmio_write_ignored Example.tpm_cmd_get_size Example.crb_started
              0x50 1 4) as (W1 & _).
  destruct (mmio_write_ignored Example.tpm_cmd_get_size Example.crb0
              CRB.CRB_ADDR_CTRL_START 3 4) as (_ & W2 & _).
  destruct (mmio_write_ignored Example.tpm_cmd_get_size Example.crb0
              CRB.CRB_ADDR_CTRL_START 2 4) as (_ & _ & W3 & _).
  destruct (mmio_write_ignored Example.tpm_cmd_get_size Example.crb0
              0 1 4) as (_ & _ & _ & W4).
  split; [exact (W1 A1 A2 A3 A4) | ].
  split; [apply W2; lia | ].
  split; [exact (W3 eq_refl A6) | exact (W4 A5)].
Defined.

Lemma ctrl_req_sets_and_clears_idle_witness :
  let r := Example.crb_write CRB.CRB_ADDR_CTRL_REQ CRB.CRB_CTRL_REQ_GO_IDLE 4
             Example.crb_started in
  0 <= 0 /\ 0 <> 1
  /\ Z.testbit (CRB.ctrl_sts (CRB.regs (state_after r))) 1 = true
  /\ Z.testbit (CRB.ctrl_sts (CRB.regs (state_after r))) 0
     = Z.testbit (CRB.ctrl_sts (CRB.regs Example.crb_started)) 0.
Proof.
  cbv zeta. split; [lia | ]. split; [lia | ].
  pose proof (ctrl_req_sets_and_clears_idle Example.tpm_cmd_get_size
                Example.crb_started 4) as H.
  cbv zeta beta in H. destruct H as (_ & _ & A & _ & B & _).
  split; [exact A | ]. apply (B 0); lia.
Defined.

Lemma status_bits_are_sticky_witness :
  let s := state_after (Example.crb_do (CRB.request_completed 1)
                          Example.crb_started) in
  let op := CRB.mmio_write CRB.CRB_ADDR_CTRL_REQ CRB.CRB_CTRL_REQ_CMD_READY 4 in
  is_reset op = false
  /\ Z.testbit (CRB.ctrl_sts (CRB.regs s)) 0 = true
  /\ Z.testbit (CRB.ctrl_sts (CRB.regs (state_after (Example.crb_do op s)))) 0
     = true.
Proof.
  cbv zeta. split; [reflexivity | ].
  assert (E : Z.testbit
                (CRB.ctrl_sts (CRB.regs (state_after
                   (Example.crb_do (CRB.request_completed 1)
                      Example.crb_started)))) 0 = true) by reflexivity.
  split; [exact E | ].
  pose proof (status_bits_are_sticky Example.tpm_cmd_get_size
                Example.PCI_VENDOR_ID_IBM
                (state_after (Example.crb_do (CRB.request_completed 1)
                                Example.crb_started))
                (CRB.mmio_write CRB.CRB_ADDR_CTRL_REQ
                   CRB.CRB_CTRL_REQ_CMD_READY 4) eq_refl) as H.
  cbv zeta in H. destruct H as (A & _). exact (A E).
Defined.

Lemma crb_deliveries_bounded_witness :
  let ops := [CRB.mmio_write CRB.CRB_ADDR_CTRL_START CRB.CRB_START_INVOKE 4;
              CRB.mmio_write CRB.CRB_ADDR_CTRL_CANCEL CRB.CRB_CANCEL_INVOKE 4;
              CRB.mmio_write CRB.CRB_ADDR_CTRL_START CRB.CRB_START_INVOKE 4] in
  CRB.started Example.crb_started = true
  /\ (count is_deliver
        (trace (CRB.crb_run Example.tpm_cmd_get_size Example.PCI_VENDOR_ID_IBM
                  ops Example.crb_started)) <= 0)%nat.
Proof.
  cbv zeta. split; [reflexivity | ].
  pose proof (crb_deliveries_bounded Example.tpm_cmd_get_size
                Example.PCI_VENDOR_ID_IBM
                [CRB.mmio_write CRB.CRB_ADDR_CTRL_START CRB.CRB_START_INVOKE 4;
                 CRB.mmio_write CRB.CRB_ADDR_CTRL_CANCEL CRB.CRB_CANCEL_INVOKE 4;
                 CRB.mmio_write CRB.CRB_ADDR_CTRL_START CRB.CRB_START_INVOKE 4]
                Example.crb_started) as H.
  cbv zeta in H. destruct H as (_ & A & _). apply A. reflexivity.
Defined.

Lemma crb_commands_stay_in_window_witness :
  let be := Example.tpm2 4096 false in
  let ops := [CRB.mmio_write CRB.CRB_ADDR_CTRL_START CRB.CRB_START_INVOKE 4;
              CRB.request_completed 0; CRB.reset be] in
  0 <= tpm_backend_get_buffer_size be
  /\ reset_sizes_ok ops
  /\ Forall (within crb_cmdmem CRB.CRB_CTRL_CMD_SIZE)
       (submitted (trace (CRB.crb_run Example.tpm_cmd_get_size
                            Example.PCI_VENDOR_ID_IBM (CRB.reset be :: ops)
                            Example.crb0))).
Proof.
  cbv zeta.
  assert (H0 : 0 <= tpm_backend_get_buffer_size (Example.tpm2 4096 false))
    by evaluate.
  assert (H1 : reset_sizes_ok
                 [CRB.mmio_write CRB.CRB_ADDR_CTRL_START CRB.CRB_START_INVOKE 4;
                  CRB.request_completed 0;
                  CRB.reset (Example.tpm2 4096 false)])
    by (repeat constructor; exact H0).
  split; [exact H0 | ]. split; [exact H1 | ].
  pose proof (crb_commands_stay_in_window Example.tpm_cmd_get_size
                Example.PCI_VENDOR_ID_IBM _ _ Example.crb0 H0 H1) as H.
  cbv zeta in H. destruct H as [A _]. exact A.
Defined.

Lemma crb_start_accepted_after_clearing_witness :
  let s1 := state_after (Example.crb_do (CRB.request_completed 0)
                           Example.crb_started) in
  clears_start (CRB.request_completed 0) = true
  /\ CRB.started s1 = false
  /\ CRB.started
       (state_after (Example.crb_write CRB.CRB_ADDR_CTRL_START
                       CRB.CRB_START_INVOKE 4 s1)) = true.
Proof.
  cbv zeta. split; [reflexivity | ].
  pose proof (crb_start_accepted_after_clearing Example.tpm_cmd_get_size
                Example.PCI_VENDOR_ID_IBM Example.crb_started
                (CRB.request_completed 0) 4 eq_refl) as H.
  cbv zeta in H. destruct H as (A & B & _). split; [exact A | exact B].
Defined.

Lemma crb_registers_publish_the_mapping_witness :
  snd (CRB.tpm_crb_realizefn true None) = []
  /\ fst (CRB.tpm_crb_realizefn false (Some (Example.tpm2 4096 false)))
     <> None.
Proof.
  pose proof (crb_registers_publish_the_mapping Example.PCI_VENDOR_ID_IBM
                (Example.tpm2 4096 false) Example.crb0) as H.
  cbv zeta in H. destruct H as (_ & _ & _ & _ & _ & _ & A).
  split.
  - apply (A true None). right. reflexivity.
  - apply (A false (Some (Example.tpm2 4096 false))). left. reflexivity.
Defined.

Lemma do_crq_frame_witness :
  let s := Example.vtpm_executing in
  let crq_data := Example.request SPAPR.SPAPR_VTPM_GET_RTCE_BUFFER_SIZE 0 in
  SPAPR.accepts crq_data s = false
  /\ state_after (Example.do_crq (Example.bus []) crq_data s) = s
  /\ count is_dma_read (trace (Example.do_crq (Example.bus []) crq_data s))
     = 0%nat.
Proof.
  cbv zeta.
  assert (Ha : SPAPR.accepts
                 (Example.request SPAPR.SPAPR_VTPM_GET_RTCE_BUFFER_SIZE 0)
                 Example.vtpm_executing = false) by evaluate.
  split; [exact Ha | ].
  pose proof (do_crq_frame Example.H_SUCCESS Example.H_BUSY
                Example.TARGET_PAGE_BITS Example.tpm_cmd_get_size Example.overrun
                (Example.bus []) _ _ Ha) as H.
  cbv zeta in H. destruct H as (A & _ & _ & _ & B). split; [exact A | exact B].
Defined.

Lemma do_crq_command_responses_witness :
  let s := Example.vtpm_executing in
  let crq_data := Example.request SPAPR.SPAPR_VTPM_PREPARE_TO_SUSPEND 7 in
  let c := mkCRQ 0x80 0x84 (0, 0) (0, 0, 0, 7) (repeat 0 8) in
  valid crq_data = SPAPR.SPAPR_VTPM_VALID_COMMAND
  /\ In (spapr_vio_send_crq c)
        (trace (Example.do_crq (Example.bus []) crq_data s))
  /\ Z.testbit (msg c) 7 = true
  /\ reserved c = reserved crq_data.
Proof.
  cbv zeta.
  assert (I : In (spapr_vio_send_crq
                    (mkCRQ 0x80 0x84 (0, 0) (0, 0, 0, 7) (repeat 0 8)))
                 (trace (Example.do_crq (Example.bus [])
                           (Example.request
                              SPAPR.SPAPR_VTPM_PREPARE_TO_SUSPEND 7)
                           Example.vtpm_executing)))
    by (left; reflexivity).
  split; [reflexivity | ]. split; [exact I | ].
  pose proof (do_crq_command_responses Example.H_SUCCESS Example.H_BUSY
                Example.TARGET_PAGE_BITS Example.tpm_cmd_get_size Example.overrun
                (Example.bus [])
                (Example.request SPAPR.SPAPR_VTPM_PREPARE_TO_SUSPEND 7)
                Example.vtpm_executing) as H.
  cbv zeta in H. destruct H as (_ & H).
  destruct (H eq_refl _ I) as (_ & A & B & _). split; [exact A | exact B].
Defined.

Lemma do_crq_init_handshake_witness :
  let crq_data := mkCRQ 0xC0 1 (0x12, 0x34) (1, 2, 3, 4) (repeat 9 8) in
  valid crq_data = SPAPR.SPAPR_VTPM_VALID_INIT_CRQ_COMMAND
  /\ Example.do_crq (Example.bus []) crq_data Example.vtpm0
     = (Example.H_SUCCESS, Example.vtpm0,
        [spapr_vio_send_crq
           (mkCRQ 0xC0 1 (0, 0) (0, 0, 0, 0) (repeat 0 8))]).
Proof.
  cbv zeta. split; [reflexivity | ].
  apply (do_crq_init_handshake Example.H_SUCCESS Example.H_BUSY
           Example.TARGET_PAGE_BITS Example.tpm_cmd_get_size Example.overrun (Example.bus [])
           (mkCRQ 0xC0 1 (0x12, 0x34) (1, 2, 3, 4) (repeat 9 8))
           Example.vtpm0 eq_refl).
Defined.

Lemma do_crq_ignores_unknown_witness :
  let odd := mkCRQ 0x81 2 (0, 0) (0, 0, 0, 0) (repeat 0 8) in
  let late := Example.request 5 0 in
  valid odd <> SPAPR.SPAPR_VTPM_VALID_INIT_CRQ_COMMAND
  /\ valid odd <> SPAPR.SPAPR_VTPM_VALID_COMMAND
  /\ valid late = SPAPR.SPAPR_VTPM_VALID_COMMAND
  /\ SPAPR.SPAPR_VTPM_PREPARE_TO_SUSPEND < msg late
  /\ Example.do_crq (Example.bus []) odd Example.vtpm0
     = (Example.H_SUCCESS, Example.vtpm0, [])
  /\ Example.do_crq (Example.bus []) late Example.vtpm0
     = (Example.H_SUCCESS, Example.vtpm0, []).
Proof.
  cbv zeta.
  assert (A1 : valid (mkCRQ 0x81 2 (0, 0) (0, 0, 0, 0) (repeat 0 8))
               <> SPAPR.SPAPR_VTPM_VALID_INIT_CRQ_COMMAND) by evaluate.
  assert (A2 : valid (mkCRQ 0x81 2 (0, 0) (0, 0, 0, 0) (repeat 0 8))
               <> SPAPR.SPAPR_VTPM_VALID_COMMAND) by evaluate.
  assert (A3 : SPAPR.SPAPR_VTPM_PREPARE_TO_SUSPEND < msg (Example.request 5 0))
    by reflexivity.
  split; [exact A1 | ]. split; [exact A2 | ]. split; [reflexivity | ].
  split; [exact A3 | ].
  destruct (do_crq_ignores_unknown Example.H_SUCCESS Example.H_BUSY
              Example.TARGET_PAGE_BITS Example.tpm_cmd_get_size Example.overrun
              (Example.bus [])
              (mkCRQ 0x81 2 (0, 0) (0, 0, 0, 0) (repeat 0 8)) Example.vtpm0)
    as (W1 & _).
  destruct (do_crq_ignores_unknown Example.H_SUCCESS Example.H_BUSY
              Example.TARGET_PAGE_BITS Example.tpm_cmd_get_size Example.overrun
              (Example.bus []) (Example.request 5 0) Example.vtpm0)
    as (_ & W2).
  split; [exact (W1 A1 A2) | apply W2; [reflexivity | right; exact A3]].
Defined.

Lemma crq_command_accepted_witness :
  let s := state_after (Example.vtpm_reset (Example.tpm2 4096 false)
                          Example.vtpm0) in
  let crq_data := Example.request SPAPR.SPAPR_VTPM_TPM_COMMAND 0x2000 in
  let dev := Example.bus (Example.header 22) in
  SPAPR.accepts crq_data s = true
  /\ fst (SPAPR.dma_read_answer dev 0x2000 4096) = Example.H_SUCCESS
  /\ skipn (List.length (SPAPR.buffer s))
        (snd (SPAPR.dma_read_answer dev 0x2000 4096)) = []
  /\ result (Example.do_crq dev crq_data s) = Example.H_SUCCESS
  /\ count is_send_crq (trace (Example.do_crq dev crq_data s)) = 0%nat
  /\ SPAPR.be_buffer_size (state_after (Example.do_crq dev crq_data s))
     = 4096.
Proof.
  cbv zeta.
  assert (Ha : SPAPR.accepts
                 (Example.request SPAPR.SPAPR_VTPM_TPM_COMMAND 0x2000)
                 (state_after (Example.vtpm_reset (Example.tpm2 4096 false)
                                 Example.vtpm0)) = true) by evaluate.
  assert (Hx : skipn (List.length
                        (SPAPR.buffer
                           (state_after
                              (Example.vtpm_reset (Example.tpm2 4096 false)
                                 Example.vtpm0))))
                 (snd (SPAPR.dma_read_answer (Example.bus (Example.header 22))
                         0x2000 4096)) = [])
    by (vm_compute; reflexivity).
  split; [exact Ha | ]. split; [reflexivity | ]. split; [exact Hx | ].
  pose proof (crq_command_accepted Example.H_SUCCESS Example.H_BUSY
                Example.TARGET_PAGE_BITS Example.tpm_cmd_get_size Example.overrun
                (Example.bus (Example.header 22)) _ _ Ha) as H.
  cbv zeta in H.
  destruct (H eq_refl) as (A & _ & _ & _ & _ & _ & _ & B & C & _).
  split; [exact A | ]. split; [exact B | ].
  unfold Example.do_crq. rewrite (C Hx). reflexivity.
Defined.

Lemma crq_commands_fit_the_scratch_buffer_witness :
  let s := state_after (Example.vtpm_reset (Example.tpm2 8192 false)
                          Example.vtpm0) in
  let crq_data := Example.request SPAPR.SPAPR_VTPM_TPM_COMMAND 0x2000 in
  let dev := Example.bus (Example.header 6000) in
  In (spapr_vio_dma_read 0x2000 8192) (trace (Example.do_crq dev crq_data s))
  /\ 8192 = SPAPR.be_buffer_size s
  /\ Forall (within spapr_buffer Example.sizeof_buffer)
       (SPAPR.delivered (trace (Example.do_crq dev crq_data s))).
Proof.
  cbv zeta.
  assert (I : In (spapr_vio_dma_read 0x2000 8192)
                 (trace (Example.do_crq (Example.bus (Example.header 6000))
                           (Example.request SPAPR.SPAPR_VTPM_TPM_COMMAND 0x2000)
                           (state_after
                              (Example.vtpm_reset (Example.tpm2 8192 false)
                                 Example.vtpm0)))))
    by (left; reflexivity).
  split; [exact I | ].
  pose proof (crq_commands_fit_the_scratch_buffer Example.H_SUCCESS
                Example.H_BUSY Example.TARGET_PAGE_BITS
                Example.tpm_cmd_get_size Example.overrun (Example.bus (Example.header 6000))
                (Example.request SPAPR.SPAPR_VTPM_TPM_COMMAND 0x2000)
                (state_after (Example.vtpm_reset (Example.tpm2 8192 false)
                                Example.vtpm0))) as H.
  cbv zeta in H. destruct H as (A & _ & B).
  split; [exact (proj2 (B _ _ I)) | exact A].
Defined.

Lemma crq_completion_depends_on_the_write_only_witness :
  let s := Example.vtpm_answered 30 in
  let failing_send :=
    SPAPR.mkVio (fun _ _ => (0, [])) (fun _ _ _ => 0) (fun _ => -1) in
  SPAPR.dma_write_answer (Example.bus []) 0x2000 (SPAPR.buffer s) 30
    = SPAPR.dma_write_answer failing_send 0x2000 (SPAPR.buffer s) 30
  /\ state_after (Example.request_completed (Example.bus []) s)
     = state_after (Example.request_completed failing_send s).
Proof.
  cbv zeta. split; [reflexivity | ].
  pose proof (crq_completion_depends_on_the_write_only Example.H_SUCCESS
                Example.tpm_cmd_get_size (Example.bus [])
                (SPAPR.mkVio (fun _ _ => (0, [])) (fun _ _ _ => 0)
                   (fun _ => -1))
                (Example.vtpm_answered 30) eq_refl) as H.
  cbv zeta in H. destruct H as (A & _). exact A.
Defined.

Lemma crq_run_keeps_what_reset_set_witness :
  let m := Example.run (Example.power_on (Example.tpm2 4096 false)
                          Example.vtpm0)
             [SPAPR.guest_crq (Example.bus (Example.header 22))
                (Example.request SPAPR.SPAPR_VTPM_TPM_COMMAND 0x2000)] in
  0 <= tpm_backend_get_buffer_size (Example.tpm2 4096 false)
    <= SPAPR.TARGET_PAGE_SIZE Example.TARGET_PAGE_BITS
  /\ Z.of_nat (List.length (SPAPR.buffer Example.vtpm0))
     = SPAPR.sizeof_buffer Example.TARGET_PAGE_BITS
  /\ reads_within_size (Example.bus (Example.header 22))
  /\ SPAPR.state (SPAPR.device m) = SPAPR.SPAPR_VTPM_STATE_EXECUTION
  /\ SPAPR.in_flight m <> []
  /\ SPAPR.be_buffer_size (SPAPR.device m)
     = SPAPR.sizeof_buffer Example.TARGET_PAGE_BITS.
Proof.
  cbv zeta.
  split; [vm_compute; split; discriminate | ].
  split; [vm_compute; reflexivity | ].
  split; [apply bus_reads_within_size | ].
  assert (X : SPAPR.state (SPAPR.device
                (Example.run (Example.power_on (Example.tpm2 4096 false)
                                Example.vtpm0)
                   [SPAPR.guest_crq (Example.bus (Example.header 22))
                      (Example.request SPAPR.SPAPR_VTPM_TPM_COMMAND 0x2000)]))
              = SPAPR.SPAPR_VTPM_STATE_EXECUTION) by evaluate.
  split; [exact X | ].
  assert (Hk : 0 <= Example.TARGET_PAGE_BITS < 64)
    by (unfold Example.TARGET_PAGE_BITS; lia).
  assert (HB : 0 <= tpm_backend_get_buffer_size (Example.tpm2 4096 false)
               <= SPAPR.TARGET_PAGE_SIZE Example.TARGET_PAGE_BITS)
    by (vm_compute; split; discriminate).
  assert (Hl : Z.of_nat (List.length (SPAPR.buffer Example.vtpm0))
               = SPAPR.sizeof_buffer Example.TARGET_PAGE_BITS)
    by (vm_compute; reflexivity).
  assert (He : buses_read_within_size
                 [SPAPR.guest_crq (Example.bus (Example.header 22))
                    (Example.request SPAPR.SPAPR_VTPM_TPM_COMMAND 0x2000)])
    by (constructor; [apply bus_reads_within_size | constructor]).
  pose proof (crq_run_keeps_what_reset_set Example.H_SUCCESS Example.H_BUSY
                Example.TARGET_PAGE_BITS Example.tpm_cmd_get_size
                Example.overrun
                (Example.tpm2 4096 false) Example.vtpm0
                [SPAPR.guest_crq (Example.bus (Example.header 22))
                   (Example.request SPAPR.SPAPR_VTPM_TPM_COMMAND 0x2000)]
                Hk HB Hl He)
    as H.
  cbv zeta in H. destruct H as (_ & A & _ & _ & _ & _ & B).
  split; [exact (proj1 B X) | exact A].
Defined.

Lemma crq_response_answers_the_request_witness :
  let s0 := state_after (Example.vtpm_reset (Example.tpm2 4096 false)
                           Example.vtpm0) in
  let first := Example.request SPAPR.SPAPR_VTPM_TPM_COMMAND 0x2000 in
  let second := Example.request SPAPR.SPAPR_VTPM_TPM_COMMAND 0x7000 in
  let es := [SPAPR.guest_crq (Example.bus (Example.header 40)) second] in
  let m1 := Example.run (SPAPR.mkMachine s0 [])
              (SPAPR.guest_crq (Example.bus (Example.header 22)) first :: es) in
  SPAPR.accepts first s0 = true
  /\ forallb is_guest_crq es = true
  /\ SPAPR.state (SPAPR.device m1) = SPAPR.SPAPR_VTPM_STATE_EXECUTION
  /\ data (SPAPR.crq (SPAPR.device m1)) = data first.
Proof.
  cbv zeta.
  assert (Ha : SPAPR.accepts
                 (Example.request SPAPR.SPAPR_VTPM_TPM_COMMAND 0x2000)
                 (state_after (Example.vtpm_reset (Example.tpm2 4096 false)
                                 Example.vtpm0)) = true) by evaluate.
  assert (G : forallb is_guest_crq
                [SPAPR.guest_crq (Example.bus (Example.header 40))
                   (Example.request SPAPR.SPAPR_VTPM_TPM_COMMAND 0x7000)]
              = true) by reflexivity.
  split; [exact Ha | ]. split; [exact G | ].
  pose proof (crq_response_answers_the_request Example.H_SUCCESS
                Example.H_BUSY Example.TARGET_PAGE_BITS
                Example.tpm_cmd_get_size Example.overrun (Example.bus (Example.header 22))
                (Example.bus []) _ _ _ (Example.header 30) Ha G) as H.
  cbv zeta in H. destruct H as (_ & A & _).
  split; [exact A | evaluate].
Defined.

Lemma crq_reset_unblocks_witness :
  let crq_data := Example.request SPAPR.SPAPR_VTPM_TPM_COMMAND 0x2000 in
  let s1 := state_after (Example.vtpm_reset (Example.tpm2 4096 false)
                           Example.vtpm_executing) in
  valid crq_data = SPAPR.SPAPR_VTPM_VALID_COMMAND
  /\ msg crq_data = SPAPR.SPAPR_VTPM_TPM_COMMAND
  /\ SPAPR.state Example.vtpm_executing
     = SPAPR.SPAPR_VTPM_STATE_EXECUTION
  /\ result (Example.do_crq (Example.bus (Example.header 22)) crq_data s1)
     = Example.H_SUCCESS.
Proof.
  cbv zeta. split; [reflexivity | ]. split; [reflexivity | ].
  split; [evaluate | ].
  pose proof (crq_reset_unblocks Example.H_SUCCESS Example.H_BUSY
                Example.TARGET_PAGE_BITS Example.tpm_cmd_get_size Example.overrun
                (Example.tpm2 4096 false) Example.vtpm_executing
                (Example.bus (Example.header 22))
                (Example.request SPAPR.SPAPR_VTPM_TPM_COMMAND 0x2000)
                eq_refl eq_refl) as H.
  cbv zeta in H. destruct H as (_ & _ & _ & _ & _ & _ & A & _). exact A.
Defined.

Lemma crq_rtce_buffer_size_exact_witness :
  let be := Example.tpm2 4096 false in
  let crq_data := Example.request SPAPR.SPAPR_VTPM_GET_RTCE_BUFFER_SIZE 0 in
  let s1 := state_after (Example.vtpm_reset be Example.vtpm0) in
  0 <= Example.TARGET_PAGE_BITS < 64
  /\ 0 <= tpm_backend_get_buffer_size be
  /\ tpm_backend_get_buffer_size be
     + SPAPR.TARGET_PAGE_SIZE Example.TARGET_PAGE_BITS < 2 ^ 16
  /\ exists c,
       Example.do_crq (Example.bus []) crq_data s1
       = (Example.H_SUCCESS, s1, [spapr_vio_send_crq c])
       /\ be16_to_cpu (len c) = SPAPR.be_buffer_size s1.
Proof.
  cbv zeta.
  assert (Hk : 0 <= Example.TARGET_PAGE_BITS < 64)
    by (unfold Example.TARGET_PAGE_BITS; lia).
  assert (H0 : 0 <= tpm_backend_get_buffer_size (Example.tpm2 4096 false))
    by evaluate.
  assert (H1 : tpm_backend_get_buffer_size (Example.tpm2 4096 false)
               + SPAPR.TARGET_PAGE_SIZE Example.TARGET_PAGE_BITS < 2 ^ 16)
    by evaluate.
  split; [exact Hk | ]. split; [exact H0 | ]. split; [exact H1 | ].
  destruct (crq_rtce_buffer_size_exact Example.H_SUCCESS Example.H_BUSY
              Example.TARGET_PAGE_BITS Example.tpm_cmd_get_size Example.overrun
              (Example.bus [])
              (Example.request SPAPR.SPAPR_VTPM_GET_RTCE_BUFFER_SIZE 0)
              Example.vtpm0 (Example.tpm2 4096 false) Hk H0 H1 eq_refl eq_refl)
    as (c & A & B & _).
  exists c. split; [exact A | exact B].
Defined.
